(** * Market-gap agent: a shallow embedding of the pipeline orchestrator

    The development follows the layout of the JavaScript sources:

    - [Helpers]       utils/helpers.js          (dedupeBy, truncate)
    - [Acontext]      services/acontextService  (session log, report store,
                                                 learning space, task blocks)
    - [LLM]           services/llmService.js    (OpenAI skill blocks)
    - [BrightData]    services/brightDataService.js (search and scrape)
    - [ActionBook]    services/actionbookService (competitor checks)
    - [Orchestrator]  services/agentOrchestrator (LangGraph state, the four
                                                 nodes, startRun, runGraph)
    - [Routes]        routes/agent.js           (POST /start, GET /report)

    Asynchronous JavaScript is modelled by a state-and-exception monad with
    an output trace.  Every SDK / network / browser call is answered by an
    oracle of the environment record [Env]; an oracle may answer [Throw], so
    a theorem quantified over [Env] covers every pattern of provider
    failures.  Oracles are indexed by a logical clock ([tick]) that advances
    at each call, so that the same call may succeed once and fail later. *)

From Stdlib Require Import ZArith Ascii String List Lia Bool.
From stdpp Require Import base option list gmap strings.

Local Open Scope string_scope.
Local Open Scope list_scope.

(** ** JavaScript values at the boundary *)

(** A JavaScript string is a sequence of UTF-16 code units; [length] is
    its [.length].  Literals of the program are written [js "..."]. *)
Definition jsstring : Type := list N.

Definition js (s : string) : jsstring :=
  map N_of_ascii (list_ascii_of_string s).

(** Result of an awaited call: a value or a thrown [Error] (its [message]). *)
Inductive result (A : Type) : Type :=
| Ok (a : A)
| Throw (message : jsstring).
Arguments Ok {A} a.
Arguments Throw {A} message.

(** A JSON value as found in [req.body.niche]. *)
Inductive JSValue : Type :=
| JUndefined
| JNull
| JBool (b : bool)
| JNum (z : Z)
| JStr (s : jsstring)
| JObject.

(** WhiteSpace and LineTerminator code points, the characters stripped by
    [String.prototype.trim] and matched by [\s]. *)
Definition isWhiteSpace (c : N) : bool :=
  ((9 <=? c) && (c <=? 13) || (c =? 32) || (c =? 160) || (c =? 5760)
   || (8192 <=? c) && (c <=? 8202) || (c =? 8232) || (c =? 8233)
   || (c =? 8239) || (c =? 8287) || (c =? 12288) || (c =? 65279))%N.

Fixpoint trimStart (s : jsstring) : jsstring :=
  match s with
  | [] => []
  | c :: rest => if isWhiteSpace c then trimStart rest else s
  end.

Definition trimEnd (s : jsstring) : jsstring := rev (trimStart (rev s)).

Definition trim (s : jsstring) : jsstring := trimEnd (trimStart s).

(** [s.startsWith(p)] *)
Fixpoint startsWith (p s : jsstring) : bool :=
  match p, s with
  | [], _ => true
  | a :: p', b :: s' => (a =? b)%N && startsWith p' s'
  | _ :: _, [] => false
  end.

(** [haystack.includes(needle)] *)
Fixpoint includes (needle haystack : jsstring) : bool :=
  startsWith needle haystack
  || match haystack with
     | [] => false
     | _ :: rest => includes needle rest
     end.

(** ** Data carried by the pipeline *)

Record SearchResult := mkSearchResult {
  url : jsstring;
  title : jsstring;
  snippet : jsstring;
  content : option jsstring;   (* present on Reddit-JSON hits and raw posts *)
}.

Record PainPoint := mkPainPoint {
  problem : jsstring;
  verbatim_quote : jsstring;
  source_url : jsstring;
  intensity : jsstring;
  category : jsstring;
}.

Record TopProblem := mkTopProblem {
  top_problem : jsstring;
  gap_keyword : option jsstring;
}.

Record GapAnalysis := mkGapAnalysis {
  gap_confirmed : option bool;
  confidence : option jsstring;
  gap_summary : option jsstring;
  competitors_missing_feature : option (list jsstring);
}.

Record Brief := mkBrief {
  headline : jsstring;
  problem_statement : jsstring;
  target_user : jsstring;
  mvp_features : list jsstring;
  validation_confidence : jsstring;
}.

Record Competitor := mkCompetitor {
  c_name : jsstring;
  c_pricingUrl : jsstring;
  c_featuresUrl : jsstring;
  c_backup : jsstring;
}.

Record CompetitorResult := mkCompetitorResult {
  name : jsstring;
  pricingUrl : jsstring;
  featuresUrl : jsstring;
  screenshot : option jsstring;
  success : bool;
  notes : jsstring;
  scrapedContent : option jsstring;
}.

Record BrowserAction := mkBrowserAction {
  ba_competitor : jsstring;
  ba_action : jsstring;
}.

Record TaskBlock := mkTaskBlock {
  tb_id : jsstring;
  tb_label : jsstring;
  tb_status : jsstring;
}.

Inductive Phase := scout | brain | validate | brief.

Record PhaseError := mkPhaseError {
  pe_phase : Phase;
  pe_message : jsstring;
}.

(** The array returned by [getTaskBlocks]: the array stored for the session
    (a reference into the heap of task arrays, shared with whoever holds
    it) or the fresh [[]] produced by [?? []]. *)
Inductive TaskArr :=
| ArrAt (loc : nat)
| ArrFresh.

(** The report object kept in [reportStore].  A field is [None] while its
    key is absent; [writeReport] spreads new keys over old ones. *)
Record Report := mkReport {
  rep_runId : option jsstring;
  rep_niche : option jsstring;
  rep_sessionId : option jsstring;
  rep_spaceId : option (option jsstring);
  rep_status : option jsstring;
  rep_painPoints : option (list PainPoint);
  rep_topProblem : option (option TopProblem);
  rep_competitorResults : option (list CompetitorResult);
  rep_gapAnalysis : option (option GapAnalysis);
  rep_opportunityBrief : option (option Brief);
  rep_completedAt : option Z;
  rep_taskBlocks : option TaskArr;
  rep_updatedAt : option Z;
}.

Definition emptyReport : Report :=
  mkReport None None None None None None None None None None None None None.

(** What [JSON.stringify(report)] sees: the fields, with the task array
    read through its reference at serialisation time. *)
Record ReportJSON := mkReportJSON {
  json_fields : Report;
  json_taskBlocks : option (list TaskBlock);
}.

(** ** Events, log lines and the run registry *)

Inductive EventBody :=
| run_start (niche : jsstring)
| session_created (sessionId : jsstring) (spaceId : option jsstring)
                  (taskBlocks : list TaskBlock)
| phase_start (phase : Phase)
| phase_complete (phase : Phase)
| phase_warning (phase : Phase) (message : jsstring)
| search_complete (count : nat) (urls : list jsstring)
| scrape_complete (count : nat)
| task_update (taskId status : jsstring)
| pain_points_extracted (count : nat) (preview : list jsstring)
| top_problem_selected (problem keyword : option jsstring)
| browser_action (action : BrowserAction)
| gap_analysis_complete (gapConfirmed : option bool) (conf : option jsstring)
| report_ready (report : option ReportJSON)
| ev_done (sessionId : option jsstring) (warnings : option nat)
          (durationMs : option Z)
| ev_error (message : jsstring).

(** The object handed to [emitter.emit('event', ...)]. *)
Record Event := mkEvent {
  ev_body : EventBody;
  ev_runId : option jsstring;
  ev_timestamp : option Z;
}.

Inductive RunStatus := running | complete | complete_with_warnings | error.

(** An entry of [activeRuns].  [{...activeRuns.get(runId), status}] on a
    missing entry yields an object without the other keys, hence the
    options. *)
Record RunRecord := mkRunRecord {
  run_emitter : option nat;
  run_status : RunStatus;
  run_niche : option jsstring;
  run_startedAt : option Z;
  run_sessionId : option jsstring;
}.

Inductive Level := info | lsuccess | warn | lerror | lphase.

(** Effects visible from outside, in program order. *)
Inductive Obs :=
| OEmit (emitter : nat) (ev : Event)
| OLog (lvl : Level) (tag msg : string) (detail : option jsstring)
| OSetRun (runId : jsstring) (r : RunRecord).

(** The closure [emit] built by [runGraph]: it captures the emitter and the
    run identifier. *)
Record EmitFn := mkEmitFn {
  emit_emitter : nat;
  emit_runId : jsstring;
}.

(** A background task spawned by [startRun]: [runGraph(runId, niche,
    emitter).catch(...)]. *)
Record Task := mkTask {
  task_runId : jsstring;
  task_niche : jsstring;
  task_emitter : nat;
}.

(** ** The process state *)

Record World := mkWorld {
  tick : nat;                              (* logical clock of the oracles *)
  llm_client : bool;                       (* llmService: _client set *)
  acontext_client : bool;                  (* acontextService: _client set *)
  brightdata_client : bool;                (* brightDataService: _client set *)
  reportStore : gmap jsstring Report;
  taskHeap : list (list TaskBlock);        (* arrays allocated by initTaskBlocks *)
  taskState : gmap jsstring nat;             (* sessionId -> its array *)
  activeRuns : gmap jsstring RunRecord;
  emitters : nat;                          (* EventEmitter objects allocated *)
  pending : list Task;                     (* promises not yet run *)
}.

Definition initialWorld : World :=
  mkWorld 0 false false false ∅ [] ∅ ∅ 0 [].

Definition set_tick (f : nat -> nat) (w : World) : World :=
  mkWorld (f (tick w)) (llm_client w) (acontext_client w) (brightdata_client w)
          (reportStore w) (taskHeap w) (taskState w) (activeRuns w)
          (emitters w) (pending w).
Definition set_llm_client (b : bool) (w : World) : World :=
  mkWorld (tick w) b (acontext_client w) (brightdata_client w)
          (reportStore w) (taskHeap w) (taskState w) (activeRuns w)
          (emitters w) (pending w).
Definition set_acontext_client (b : bool) (w : World) : World :=
  mkWorld (tick w) (llm_client w) b (brightdata_client w)
          (reportStore w) (taskHeap w) (taskState w) (activeRuns w)
          (emitters w) (pending w).
Definition set_brightdata_client (b : bool) (w : World) : World :=
  mkWorld (tick w) (llm_client w) (acontext_client w) b
          (reportStore w) (taskHeap w) (taskState w) (activeRuns w)
          (emitters w) (pending w).
Definition set_reportStore (f : gmap jsstring Report -> gmap jsstring Report)
    (w : World) : World :=
  mkWorld (tick w) (llm_client w) (acontext_client w) (brightdata_client w)
          (f (reportStore w)) (taskHeap w) (taskState w) (activeRuns w)
          (emitters w) (pending w).
Definition set_taskHeap (f : list (list TaskBlock) -> list (list TaskBlock))
    (w : World) : World :=
  mkWorld (tick w) (llm_client w) (acontext_client w) (brightdata_client w)
          (reportStore w) (f (taskHeap w)) (taskState w) (activeRuns w)
          (emitters w) (pending w).
Definition set_taskState (f : gmap jsstring nat -> gmap jsstring nat)
    (w : World) : World :=
  mkWorld (tick w) (llm_client w) (acontext_client w) (brightdata_client w)
          (reportStore w) (taskHeap w) (f (taskState w)) (activeRuns w)
          (emitters w) (pending w).
Definition set_activeRuns (f : gmap jsstring RunRecord -> gmap jsstring RunRecord)
    (w : World) : World :=
  mkWorld (tick w) (llm_client w) (acontext_client w) (brightdata_client w)
          (reportStore w) (taskHeap w) (taskState w) (f (activeRuns w))
          (emitters w) (pending w).
Definition set_emitters (f : nat -> nat) (w : World) : World :=
  mkWorld (tick w) (llm_client w) (acontext_client w) (brightdata_client w)
          (reportStore w) (taskHeap w) (taskState w) (activeRuns w)
          (f (emitters w)) (pending w).
Definition set_pending (f : list Task -> list Task) (w : World) : World :=
  mkWorld (tick w) (llm_client w) (acontext_client w) (brightdata_client w)
          (reportStore w) (taskHeap w) (taskState w) (activeRuns w)
          (emitters w) (f (pending w)).

(** ** The monad: state, exceptions, output trace *)

Record Outcome (A : Type) := mkOutcome {
  res : result A;
  world : World;
  out : list Obs;
}.
Arguments mkOutcome {A} res world out.
Arguments res {A} o.
Arguments world {A} o.
Arguments out {A} o.

Definition M (A : Type) : Type := World -> Outcome A.

Definition ret {A} (a : A) : M A := fun w => mkOutcome (Ok a) w [].

Definition bind {A B} (c : M A) (k : A -> M B) : M B := fun w =>
  let r := c w in
  match res r with
  | Ok a => let r' := k a (world r) in
            mkOutcome (res r') (world r') (out r ++ out r')
  | Throw e => mkOutcome (Throw e) (world r) (out r)
  end.

#[global] Instance M_ret : MRet M := @ret.
#[global] Instance M_bind : MBind M := fun A B k c => bind c k.

(** [throw new Error(message)] *)
Definition throw {A} (message : jsstring) : M A :=
  fun w => mkOutcome (Throw message) w [].

(** [try { c } catch (err) { h err }] *)
Definition try_catch {A} (c : M A) (h : jsstring -> M A) : M A := fun w =>
  let r := c w in
  match res r with
  | Ok a => r
  | Throw e => let r' := h e (world r) in
               mkOutcome (res r') (world r') (out r ++ out r')
  end.

(** [try { c } finally { f }]: [f] always runs; if it throws, its exception
    replaces the outcome of [c]. *)
Definition try_finally {A} (c : M A) (f : M unit) : M A := fun w =>
  let r := c w in
  let r' := f (world r) in
  match res r' with
  | Ok _ => mkOutcome (res r) (world r') (out r ++ out r')
  | Throw e => mkOutcome (Throw e) (world r') (out r ++ out r')
  end.

Definition get : M World := fun w => mkOutcome (Ok w) w [].
Definition modify (f : World -> World) : M unit :=
  fun w => mkOutcome (Ok tt) (f w) [].
Definition tell (o : Obs) : M unit := fun w => mkOutcome (Ok tt) w [o].

(** Ask an oracle at the current tick and advance the clock. *)
Definition ask {A} (f : nat -> A) : M A :=
  fun w => mkOutcome (Ok (f (tick w))) (set_tick S w) [].

(** [await f(...)] for an external call that may reject. *)
Definition call {A} (f : nat -> result A) : M A :=
  fun w => mkOutcome (f (tick w)) (set_tick S w) [].

(** [for (const x of xs) body(x)] *)
Fixpoint for_of {A} (xs : list A) (body : A -> M unit) : M unit :=
  match xs with
  | [] => ret tt
  | x :: rest => bind (body x) (fun _ => for_of rest body)
  end.

(** [for (const x of xs) acc = body(acc, x)], threading an accumulator *)
Fixpoint for_acc {A S} (xs : list A) (acc : S) (body : S -> A -> M S) : M S :=
  match xs with
  | [] => ret acc
  | x :: rest => bind (body acc x) (fun acc' => for_acc rest acc' body)
  end.

(** ** The environment: process.env, clock, uuid and the external providers *)

Record Env := mkEnv {
(* process.env *)
OPENAI_API_KEY : bool;
ACONTEXT_API_KEY : bool;
BRIGHTDATA_API_TOKEN : bool;
(* Date.now() / new Date(), in milliseconds *)
Date_now : nat -> Z;
(* uuid.v4() *)
uuidv4 : nat -> jsstring;
(* @acontext/acontext *)
sessions_create : nat -> result jsstring;
sessions_storeMessage : nat -> jsstring -> result unit;
sessions_flush : nat -> jsstring -> result unit;
sessions_getSessionSummary : nat -> jsstring -> result unit;
learningSpaces_create : nat -> result jsstring;
learningSpaces_learn : nat -> jsstring -> jsstring -> result unit;
(* openai: chat.completions.create, and the decoding of its reply by
   safeJsonParse / extractJson into the shape each skill block expects *)
chat_completions_create : nat -> result jsstring;
decode_keep_urls : jsstring -> option (list jsstring);
decode_pain_points : jsstring -> option (list PainPoint);
extractJson_pain_points : jsstring -> option (list PainPoint);
decode_top_problem : jsstring -> option TopProblem;
decode_gap_analysis : jsstring -> option GapAnalysis;
decode_brief : jsstring -> option Brief;
(* Bright Data MCP client and the Reddit endpoints *)
mcp_connect : nat -> result unit;
mcp_listTools : nat -> result unit;
mcp_close : nat -> result unit;
mcp_scrape_as_markdown : nat -> jsstring -> result jsstring;
mcp_search_engine : nat -> jsstring -> nat -> result jsstring;
decode_search_results : jsstring -> list SearchResult;
encodeURIComponent : jsstring -> jsstring;
mcp_web_data_reddit_posts : nat -> jsstring -> result (list SearchResult);
reddit_search_json : nat -> jsstring -> result (list SearchResult);
reddit_post_json : nat -> jsstring -> result jsstring;
extract_reddit_links : jsstring -> list SearchResult;
(* ActionBook CLI + Puppeteer session for one competitor: the
   browser_action payloads it emits and how it ends *)
browser_check : nat -> Competitor -> jsstring ->
                list BrowserAction * result CompetitorResult;
}.

(** The outcome [r] of a continuation, after a first part that wrote [o]. *)
Definition prepend {A} (o : list Obs) (r : Outcome A) : Outcome A :=
  mkOutcome (res r) (world r) (o ++ out r).

(** [attempt c] runs [c] and hands back how it ended, as a value. *)
Definition attempt {A} (c : M A) : M (result A) := fun w =>
  let r := c w in mkOutcome (Ok (res r)) (world r) (out r).

(** The statements of a [try] block that assign the block's local
    variables, run in order over the record [L] of those variables.  A
    statement assigns at its end, so when it throws the variables are as the
    previous statement left them; they are returned with the exception for
    the [catch] block to read. *)
Fixpoint try_block {L} (steps : list (L -> M L)) (locals : L)
    : M (L * option jsstring) :=
  match steps with
  | [] => ret (locals, None)
  | step :: rest =>
      bind (attempt (step locals)) (fun r =>
        match r with
        | Ok locals' => try_block rest locals'
        | Throw err => ret (locals, Some err)
        end)
  end.

(** ** utils/logger.js *)

Definition log (lvl : Level) (tag msg : string) (detail : option jsstring)
    : M unit :=
  tell (OLog lvl tag msg detail).

(** ** utils/helpers.js *)

Module Helpers.

Fixpoint dropWhile {A} (p : A -> bool) (l : list A) : list A :=
  match l with
  | [] => []
  | x :: rest => if p x then dropWhile p rest else l
  end.

(** [str.replace(/\s+\S*$/, '')]: the match starts at the last run of
    white space and extends to the end of the string. *)
Definition stripLastWord (str : jsstring) : jsstring :=
  match dropWhile (fun c => negb (isWhiteSpace c)) (rev str) with
  | [] => str
  | r => rev (dropWhile isWhiteSpace r)
  end.

Definition ellipsis : jsstring := [8230%N].

Definition truncate (str : jsstring) (maxLen : nat) : jsstring :=
  if (length str <=? maxLen)%nat then str
  else stripLastWord (take maxLen str) ++ ellipsis.

Section Dedupe.
Context {A K : Type} `{Countable K}.


End Dedupe.

End Helpers.

(** ** services/acontextService.js *)

Module Acontext.
Section WithEnv.
Context (E : Env).

Definition TAG : string := "Acontext".

Definition getClient : M unit :=
  w ← get;
  if acontext_client w then ret tt
  else if negb (ACONTEXT_API_KEY E)
  then throw (js "ACONTEXT_API_KEY is not set in .env")
  else modify (set_acontext_client true);;
       log lsuccess TAG "Client initialised" None.

(** The session object is represented by its [id]. *)
Definition createSession (niche : jsstring) : M jsstring :=
  getClient;;
  session ← call (sessions_create E);
  log lsuccess TAG "Session created" (Some session);;
  call (fun t => sessions_storeMessage E t session);;
  ret session.

Definition storeMessage (sessionId : jsstring) : M unit :=
  getClient;;
  call (fun t => sessions_storeMessage E t sessionId).

Definition flushAndSummarise (sessionId : jsstring) : M unit :=
  getClient;;
  call (fun t => sessions_flush E t sessionId);;
  call (fun t => sessions_getSessionSummary E t sessionId);;
  log lsuccess TAG "Session flushed" (Some sessionId).

(** [{...a, ...b}] on one key *)
Definition spread {A} (a b : option A) : option A :=
  match b with Some _ => b | None => a end.

(** [{ ...old, ...reportData, updatedAt }] *)
Definition mergeReport (old reportData : Report) (updatedAt : Z) : Report :=
  {| rep_runId := spread (rep_runId old) (rep_runId reportData);
     rep_niche := spread (rep_niche old) (rep_niche reportData);
     rep_sessionId := spread (rep_sessionId old) (rep_sessionId reportData);
     rep_spaceId := spread (rep_spaceId old) (rep_spaceId reportData);
     rep_status := spread (rep_status old) (rep_status reportData);
     rep_painPoints := spread (rep_painPoints old) (rep_painPoints reportData);
     rep_topProblem := spread (rep_topProblem old) (rep_topProblem reportData);
     rep_competitorResults :=
       spread (rep_competitorResults old) (rep_competitorResults reportData);
     rep_gapAnalysis := spread (rep_gapAnalysis old) (rep_gapAnalysis reportData);
     rep_opportunityBrief :=
       spread (rep_opportunityBrief old) (rep_opportunityBrief reportData);
     rep_completedAt := spread (rep_completedAt old) (rep_completedAt reportData);
     rep_taskBlocks := spread (rep_taskBlocks old) (rep_taskBlocks reportData);
     rep_updatedAt := Some updatedAt |}.

(** [reportStore.get(sessionId) ?? null] *)
Definition readReport (w : World) (sessionId : jsstring) : option Report :=
  reportStore w !! sessionId.

Definition writeReport (sessionId : jsstring) (reportData : Report)
    : M (option Report) :=
  updatedAt ← ask (Date_now E);
  modify (set_reportStore (fun store =>
    <[sessionId :=
        mergeReport (default emptyReport (store !! sessionId))
                    reportData updatedAt]> store));;
  getClient;;
  call (fun t => sessions_storeMessage E t sessionId);;
  log lsuccess TAG "Disk updated for session" (Some sessionId);;
  w ← get;
  ret (readReport w sessionId).

(** The space object is represented by its [id]; [None] is [null]. *)
Definition createLearningSpace (niche sessionId : jsstring)
    : M (option jsstring) :=
  getClient;;
  try_catch
    (space ← call (learningSpaces_create E);
     log lsuccess TAG "Learning space created" (Some space);;
     call (fun t => learningSpaces_learn E t space sessionId);;
     log info TAG "Session attached to space for skill learning" (Some space);;
     ret (Some space))
    (fun err =>
       log warn TAG "Learning space setup failed (non-critical)" (Some err);;
       ret None).

Definition taskBlocks : list TaskBlock :=
  [ mkTaskBlock (js "extract_pain_points") (js "Extract Pain Points")
                (js "pending");
    mkTaskBlock (js "rank_and_select") (js "Rank & Select Top Problem")
                (js "pending");
    mkTaskBlock (js "verify_competitor_gaps") (js "Verify Competitor Gaps")
                (js "pending");
    mkTaskBlock (js "generate_opportunity_brief")
                (js "Generate Opportunity Brief") (js "pending") ].

(** [taskState.set(sessionId, taskBlocks.map((t) => ({ ...t })))]: a new
    array of new objects. *)
Definition initTaskBlocks (sessionId : jsstring) : M unit :=
  w ← get;
  let loc := length (taskHeap w) in
  modify (set_taskHeap (fun h => h ++ [taskBlocks]));;
  modify (set_taskState (fun m => <[sessionId := loc]> m)).

(** [const task = blocks.find(...); if (task) task.status = status] *)
Fixpoint setStatus (blocks : list TaskBlock) (taskId status : jsstring)
    : list TaskBlock :=
  match blocks with
  | [] => []
  | t :: rest =>
      if decide (tb_id t = taskId)
      then mkTaskBlock (tb_id t) (tb_label t) status :: rest
      else t :: setStatus rest taskId status
  end.

Definition updateTaskBlock (sessionId taskId status : jsstring) : M unit :=
  w ← get;
  match taskState w !! sessionId with
  | None => ret tt
  | Some loc =>
      match taskHeap w !! loc with
      | None => ret tt
      | Some blocks =>
          modify (set_taskHeap (fun h =>
            <[loc := setStatus blocks taskId status]> h))
      end
  end.

(** [taskState.get(sessionId) ?? []] *)
Definition getTaskBlocks (w : World) (sessionId : jsstring) : TaskArr :=
  match taskState w !! sessionId with
  | Some loc => ArrAt loc
  | None => ArrFresh
  end.

(** Reading an array of task blocks now. *)
Definition readArr (w : World) (a : TaskArr) : list TaskBlock :=
  match a with
  | ArrAt loc => default [] (taskHeap w !! loc)
  | ArrFresh => []
  end.

(** [JSON.stringify(report)] now. *)
Definition toJSON (w : World) (r : Report) : ReportJSON :=
  mkReportJSON r (readArr w <$> rep_taskBlocks r).

End WithEnv.
End Acontext.

(** ** services/llmService.js *)

Module LLM.
Section WithEnv.
Context (E : Env).

Definition TAG : string := "LLM(OpenAI)".

Definition getClient : M unit :=
  w ← get;
  if llm_client w then ret tt
  else if negb (OPENAI_API_KEY E)
  then throw (js "OPENAI_API_KEY is not set in .env")
  else modify (set_llm_client true).

(** The prompts are not modelled: the reply is the oracle's. *)
Definition callGPT : M jsstring :=
  getClient;;
  call (chat_completions_create E).

Definition extractPainPoints (rawPosts : list SearchResult)
    (niche : jsstring) : M (list PainPoint) :=
  log info TAG "Skill Block 1: extractPainPoints" None;;
  raw ← callGPT;
  match decode_pain_points E raw with
  | None =>
      log warn TAG "Unexpected format - trying extractJson fallback" None;;
      ret (default [] (extractJson_pain_points E raw))
  | Some pain_points =>
      log lsuccess TAG "Extracted pain points" None;;
      ret pain_points
  end.

Definition rankAndSelectProblem (painPoints : list PainPoint)
    (niche : jsstring) : M (option TopProblem) :=
  log info TAG "Skill Block 2: rankAndSelectProblem" None;;
  raw ← callGPT;
  match decode_top_problem E raw with
  | None =>
      log warn TAG "Ranking returned unexpected format" None;;
      ret None
  | Some parsed =>
      log lsuccess TAG "Top problem" (Some (top_problem parsed));;
      ret (Some parsed)
  end.

Definition inconclusive : GapAnalysis :=
  mkGapAnalysis (Some false) (Some (js "low"))
                (Some (js "Analysis inconclusive.")) None.

Definition analyseCompetitorData (competitorResults : list CompetitorResult)
    (topProblem : option TopProblem) : M GapAnalysis :=
  log info TAG "Skill Block 3: analyseCompetitorData" None;;
  log info TAG "analyseCompetitorData payload" None;;
  raw ← callGPT;
  let parsed := decode_gap_analysis E raw in
  log lsuccess TAG "Gap confirmed" None;;
  ret (default inconclusive parsed).

Definition degradedBrief (niche : jsstring) (topProblem : option TopProblem)
    : Brief :=
  {| headline := js "Market gap identified in " ++ niche;
     problem_statement :=
       default (js "See pain points.") (top_problem <$> topProblem);
     target_user := niche;
     mvp_features := [];
     validation_confidence := js "low" |}.

Definition generateOpportunityBrief (niche : jsstring)
    (topProblem : option TopProblem) (gapAnalysis : option GapAnalysis)
    (competitorResults : list CompetitorResult)
    (painPoints : list PainPoint) : M Brief :=
  log info TAG "Skill Block 4: generateOpportunityBrief" None;;
  raw ← callGPT;
  match decode_brief E raw with
  | None =>
      log warn TAG "Brief missing headline - returning degraded brief" None;;
      ret (degradedBrief niche topProblem)
  | Some parsed =>
      log lsuccess TAG "Brief" (Some (headline parsed));;
      ret parsed
  end.

Definition cleanAndFilterPosts (rawPosts : list SearchResult)
    (niche : jsstring) : M (list SearchResult) :=
  log info TAG "Cleaning raw post data" None;;
  try_catch
    (raw ← callGPT;
     match decode_keep_urls E raw with
     | Some keep_urls =>
         let filtered :=
           filter (fun p => url p ∈ keep_urls) rawPosts in
         ret (if (5 <=? length filtered)%nat then filtered else rawPosts)
     | None => ret rawPosts
     end)
    (fun err =>
       log warn TAG "Post cleaning failed (non-critical)" (Some err);;
       ret rawPosts).

End WithEnv.
End LLM.

(** ** services/brightDataService.js *)

Module BrightData.
Section WithEnv.
Context (E : Env).

Definition TAG : string := "BrightData".

(** [_client] is assigned before [connect] is awaited. *)
Definition getClient : M unit :=
  w ← get;
  if brightdata_client w then ret tt
  else if negb (BRIGHTDATA_API_TOKEN E)
  then throw (js "BRIGHTDATA_API_TOKEN is not set in .env")
  else modify (set_brightdata_client true);;
       call (mcp_connect E);;
       log lsuccess TAG "MCP client connected" None;;
       try_catch
         (call (mcp_listTools E);;
          log info TAG "Available tools" None)
         (fun e => log warn TAG "Could not list tools" (Some e)).

Definition searchWeb (query : jsstring) (maxResults page : nat)
    : M (list SearchResult) :=
  log info TAG "Searching" (Some query);;
  getClient;;
  raw ← try_catch (call (fun t => mcp_search_engine E t query page))
        (fun err =>
           log lerror TAG "Bright Data search_engine failed" (Some err);;
           throw err);
  log info TAG "Raw response" None;;
  if (length (trim raw) =? 0)%nat
  then log warn TAG "Empty search response" (Some query);; ret []
  else ret (take maxResults (decode_search_results E raw)).

Definition scrapeUrl (target : jsstring) : M jsstring :=
  log info TAG "Scraping" (Some target);;
  getClient;;
  text ← call (fun t => mcp_scrape_as_markdown E t target);
  (if (length text <? 200)%nat
   then log warn TAG "Short scrape response" (Some target)
   else log lsuccess TAG "Scraped" (Some target));;
  ret text.

(** [s.split('?')[0]] *)
Fixpoint beforeQuery (s : jsstring) : jsstring :=
  match s with
  | [] => []
  | c :: rest => if (c =? 63)%N then [] else c :: beforeQuery rest
  end.

(** [if (!seen.has(cleanUrl)) { seen.add(cleanUrl); results.push(...) }] *)
Definition pushUnseen (results : list SearchResult) (r : SearchResult)
    : list SearchResult :=
  if decide (url r ∈ map url results) then results else results ++ [r].

(** The links that the two [matchAll] of [searchRedditDirect] find, cleaned:
    [extract_reddit_links] proposes them, and both regular expressions
    only match text starting with [http], which the cleaning
    ([split('?')[0]], trailing punctuation removed) keeps. *)
Definition redditLinks (markdown : jsstring) : list SearchResult :=
  filter (fun r => startsWith (js "http") (url r) = true)
         (extract_reddit_links E markdown).

(** One post of a reply of the Reddit JSON API, with [url] holding its
    [permalink] and [content] its [selftext]:
    [if (!post?.permalink) continue;
     const postUrl = `https://www.reddit.com${post.permalink}`.split('?')[0];
     if (seen.has(postUrl)) continue; seen.add(postUrl);
     results.push({ url: postUrl, ... })].
    The checks of the score and of deleted posts are the oracle's. *)
Definition pushPost (results : list SearchResult) (post : SearchResult)
    : list SearchResult :=
  if (length (url post) =? 0)%nat then results
  else
    let postUrl := beforeQuery (js "https://www.reddit.com" ++ url post) in
    if decide (postUrl ∈ map url results) then results
    else
      let selftext := trim (default [] (content post)) in
      results ++ [mkSearchResult postUrl (title post)
                    (Helpers.truncate selftext 300)
                    (Some (Helpers.truncate selftext 2000))].

(** One post of a reply of [web_data_reddit_posts], with [snippet] holding
    [post.selftext ?? post.description] and [content] [post.selftext]:
    [const url = (post.url ?? post.permalink ?? '').split('?')[0];
     if (!url || seen.has(url)) continue; seen.add(url);
     results.push({ url, ... })] *)
Definition pushWebPost (results : list SearchResult) (post : SearchResult)
    : list SearchResult :=
  let u := beforeQuery (url post) in
  if (length u =? 0)%nat || bool_decide (u ∈ map url results) then results
  else
    results ++ [mkSearchResult u (title post)
                  (Helpers.truncate (snippet post) 300)
                  (Some (Helpers.truncate (default [] (content post)) 2000))].

Definition redditSearchUrls (niche : jsstring) : list jsstring :=
  let q := encodeURIComponent E (trim niche) in
  [ js "https://www.reddit.com/search/?q=" ++ q
      ++ js "+problem+OR+frustrating+OR+struggling&sort=relevance&t=year&type=link";
    js "https://www.reddit.com/search/?q=" ++ q
      ++ js "+wish+OR+hate+OR+annoying&sort=top&t=all&type=link";
    js "https://www.reddit.com/search/?q=" ++ q
      ++ js "&sort=top&t=year&type=link" ].

(** The [seen] set of this function always holds the URLs of [results].
    [break] on a full list is the same as skipping the remaining
    iterations, since the list never shrinks. *)
Definition searchRedditDirect (niche : jsstring) (maxUrls : nat)
    : M (list SearchResult) :=
  results ← for_acc (redditSearchUrls niche) [] (fun results searchUrl =>
    if (maxUrls <=? length results)%nat then ret results
    else
      try_catch
        (log info TAG "Direct Reddit scrape" (Some searchUrl);;
         markdown ← scrapeUrl searchUrl;
         let results' := foldl pushUnseen results (redditLinks markdown) in
         log info TAG "Direct scrape: posts so far" None;;
         ret results')
        (fun err =>
           log warn TAG "Direct Reddit scrape failed" (Some err);;
           ret results));
  ret (take maxUrls results).

(** The queries after [getClient] are separately guarded in the source;
    the oracle answers for the three of them with the posts of their
    replies, which are then looked at one by one. *)
Definition searchRedditWithWebData (niche : jsstring) (maxPosts : nat)
    : M (list SearchResult) :=
  getClient;;
  posts ← call (fun t => mcp_web_data_reddit_posts E t niche);
  ret (take maxPosts (foldl pushWebPost [] posts)).

(** The oracle answers for the three queries with the posts of their
    replies, which are then looked at one by one. *)
Definition searchRedditJSON (niche : jsstring) (maxPosts : nat)
    : M (list SearchResult) :=
  posts ← call (fun t => reddit_search_json E t niche);
  ret (take maxPosts (foldl pushPost [] posts)).

Definition googleQueries (n : jsstring) : list jsstring :=
  let quoted := [34%N] ++ n ++ [34%N] in
  [ js "site:reddit.com " ++ quoted
      ++ js " problem OR frustrating OR struggling";
    js "site:reddit.com " ++ quoted ++ js " wish OR annoying OR hate";
    js "site:reddit.com " ++ quoted ++ js " pain OR issue OR broken" ].

(** [for (const page of [0, 1]) { try { ... break ... } catch { ... } }] *)
Fixpoint googlePages (query : jsstring) (pages : list nat)
    (allResults : list SearchResult) : M (list SearchResult) :=
  match pages with
  | [] => ret allResults
  | page :: rest =>
      r ← attempt (searchWeb query 10 page);
      match r with
      | Ok hits =>
          let redditHits :=
            filter (fun r => includes (js "reddit.com/r/") (url r) = true)
                   hits in
          let allResults' :=
            if (0 <? length redditHits)%nat then allResults ++ redditHits
            else allResults in
          (if (0 <? length redditHits)%nat
           then log info TAG "Google site:reddit.com hits" (Some query)
           else ret tt);;
          if (page =? 0)%nat && (length redditHits =? 0)%nat
          then ret allResults'
          else googlePages query rest allResults'
      | Throw err =>
          log warn TAG "Google query failed" (Some err);;
          googlePages query rest allResults
      end
  end.

(** [for (const query of googleQueries) { ...; if (allResults.length >= 20) break; }] *)
Fixpoint googleStrategy (queries : list jsstring)
    (allResults : list SearchResult) : M (list SearchResult) :=
  match queries with
  | [] => ret allResults
  | query :: rest =>
      allResults' ← googlePages query [0; 1]%nat allResults;
      if (20 <=? length allResults')%nat then ret allResults'
      else googleStrategy rest allResults'
  end.

(** The final [filter] of [searchRedditPainPoints], with its [seen] set:
    [if (!url || seen.has(url)) return false; seen.add(url); return true] *)
Fixpoint uniqueByUrl (seen : gset jsstring) (allResults : list SearchResult)
    : list SearchResult :=
  match allResults with
  | [] => []
  | r :: rest =>
      if bool_decide (url r = []) || bool_decide (url r ∈ seen)
      then uniqueByUrl seen rest
      else r :: uniqueByUrl ({[url r]} ∪ seen) rest
  end.

Definition searchRedditPainPoints (niche : jsstring)
    : M (list SearchResult) :=
  log info TAG "Scouting Reddit for niche" (Some niche);;
  if (length niche =? 0)%nat || (length (trim niche) =? 0)%nat
  then log warn TAG "Empty niche provided to searchRedditPainPoints" None;;
       ret []
  else
    let n := trim niche in
    (* Strategy 0: Reddit public JSON API *)
    log info TAG "Strategy 0: Reddit JSON API" (Some n);;
    allResults ← try_catch
      (jsonPosts ← searchRedditJSON n 25;
       if (0 <? length jsonPosts)%nat
       then log lsuccess TAG "Strategy 0 yielded posts" None;;
            ret jsonPosts
       else ret [])
      (fun err => log warn TAG "Strategy 0 failed" (Some err);; ret []);
    (* Strategy 1: Bright Data web_data_reddit_posts *)
    allResults ←
      (if (length allResults <? 10)%nat
       then
         log info TAG "Strategy 1: web_data_reddit_posts" (Some n);;
         try_catch
           (nativePosts ← searchRedditWithWebData n 15;
            if (0 <? length nativePosts)%nat
            then log lsuccess TAG "Strategy 1 yielded posts" None;;
                 ret (allResults ++ nativePosts)
            else log warn TAG "Strategy 1 returned 0 posts" None;;
                 ret allResults)
           (fun err =>
              log warn TAG "Strategy 1 failed" (Some err);; ret allResults)
       else ret allResults);
    (* Strategy 2: Bright Data Google site:reddit.com *)
    allResults ←
      (if (length allResults <? 10)%nat
       then log info TAG "Strategy 2: Google site:reddit.com" (Some n);;
            googleStrategy (googleQueries n) allResults
       else ret allResults);
    (* Strategy 3: Bright Data direct Reddit scrape *)
    allResults ←
      (if (length allResults <? 10)%nat
       then
         log info TAG "Strategy 3: Direct Reddit scrape" (Some n);;
         try_catch
           (direct ← searchRedditDirect n 15;
            log info TAG "Direct scrape added posts" None;;
            ret (allResults ++ direct))
           (fun err =>
              log warn TAG "Direct Reddit scrape threw" (Some err);;
              ret allResults)
       else ret allResults);
    (* Deduplicate by URL *)
    let unique := uniqueByUrl ∅ allResults in
    log lsuccess TAG "Collected unique Reddit URLs" (Some n);;
    (if (length unique =? 0)%nat
     then log warn TAG "No Reddit URLs found. Check:" (Some n);;
          log warn TAG "  1. BRIGHTDATA_API_TOKEN is valid and has quota" None;;
          log warn TAG "  2. Web Unlocker zone is active" None;;
          log warn TAG "  3. Try a broader niche term" None
     else ret tt);;
    ret unique.

Definition fetchRedditPostJSON (postUrl : jsstring) : M jsstring :=
  call (fun t => reddit_post_json E t postUrl).

Definition post (r : SearchResult) (text : jsstring) : SearchResult :=
  mkSearchResult (url r) (title r) (snippet r) (Some text).

(** One iteration of the loop of [scrapeRedditPosts]. *)
Definition scrapeRedditPost (posts : list SearchResult) (r : SearchResult)
    : M (list SearchResult) :=
  let isGoodContent :=
    match content r with
    | Some existingContent =>
        (80 <? length existingContent)%nat
        && negb (includes (js "execution failed") existingContent)
    | None => false
    end in
  if isGoodContent
  then log info TAG "Using pre-fetched content" (Some (url r));;
       ret (posts ++ [post r (Helpers.truncate (default [] (content r)) 2000)])
  else
    (* 2. Reddit's own .json endpoint *)
    enriched ← try_catch
      (text ← fetchRedditPostJSON (url r);
       log lsuccess TAG "Reddit .json enriched" (Some (url r));;
       ret (Some text))
      (fun err => log warn TAG "Reddit .json failed" (Some err);; ret None);
    match enriched with
    | Some text => ret (posts ++ [post r (Helpers.truncate text 2000)])
    | None =>
        (* 3. Bright Data fallback *)
        scraped ← try_catch
          (text ← scrapeUrl (url r);
           if (100 <? length text)%nat
              && negb (includes (js "execution failed") text)
           then ret (Some text) else ret None)
          (fun err =>
             log warn TAG "Bright Data scrape failed" (Some err);; ret None);
        match scraped with
        | Some text => ret (posts ++ [post r (Helpers.truncate text 2000)])
        | None =>
            (* 4. Snippet-only fallback *)
            if (0 <? length (title r))%nat || (0 <? length (snippet r))%nat
            then ret (posts ++
                      [post r (trim (title r ++ [10; 10]%N ++ snippet r))])
            else ret posts
        end
    end.

Definition scrapeRedditPosts (urls : list SearchResult) (maxUrls : nat)
    : M (list SearchResult) :=
  let capped := take maxUrls urls in
  posts ← for_acc capped [] scrapeRedditPost;
  log lsuccess TAG "scrapeRedditPosts: posts enriched" None;;
  ret posts.

Record ScrapedPage := mkScrapedPage {
  sp_url : jsstring;
  sp_content : jsstring;
  sp_success : bool;
  sp_error : option jsstring;
}.

Definition scrapeCompetitorPage (target : jsstring) : M ScrapedPage :=
  try_catch
    (text ← scrapeUrl target;
     ret (mkScrapedPage target (Helpers.truncate text 3000) true None))
    (fun err =>
       log warn TAG "Competitor scrape failed" (Some err);;
       ret (mkScrapedPage target [] false (Some err))).

Definition closeBrightData : M unit :=
  w ← get;
  if brightdata_client w
  then call (mcp_close E);;
       modify (set_brightdata_client false);;
       log info TAG "MCP client disconnected" None
  else ret tt.

End WithEnv.
End BrightData.

(** ** services/actionbookService.js *)

Module ActionBook.
Section WithEnv.
Context (E : Env).

Definition COMPETITOR_TARGETS : list Competitor :=
  [ mkCompetitor (js "Buffer") (js "https://buffer.com/pricing")
      (js "https://buffer.com/features") (js "https://buffer.com/all-features");
    mkCompetitor (js "Later") (js "https://later.com/pricing")
      (js "https://later.com/features") (js "https://later.com/tools");
    mkCompetitor (js "Notion") (js "https://www.notion.so/pricing")
      (js "https://www.notion.so/product") (js "https://www.notion.so/help") ].

(** The CLI and the browser session are the oracle's; every call of
    [emitEvent] in the source has type ['browser_action']. *)
Definition checkCompetitorGap (competitor : Competitor)
    (targetKeyword : jsstring) (emitEvent : EventBody -> M unit)
    : M CompetitorResult :=
  '(actions, outcome) ←
    ask (fun t => browser_check E t competitor targetKeyword);
  for_of actions (fun a => emitEvent (browser_action a));;
  match outcome with
  | Ok r => ret r
  | Throw err => throw err
  end.

Definition verifyAllCompetitors (targetKeyword : jsstring)
    (emitEvent : EventBody -> M unit) : M (list CompetitorResult) :=
  for_acc COMPETITOR_TARGETS [] (fun results competitor =>
    r ← checkCompetitorGap competitor targetKeyword emitEvent;
    ret (results ++ [r])).

End WithEnv.
End ActionBook.

(** ** services/agentOrchestrator.js *)

Module Orchestrator.
Section WithEnv.
Context (E : Env).

Definition TAG : string := "Orchestrator(LangGraph)".

(** *** 1. The LangGraph state *)

Record AgentState := mkAgentState {
  runId : jsstring;
  niche : jsstring;
  sessionId : jsstring;
  spaceId : option jsstring;
  searchResults : list SearchResult;
  rawPosts : list SearchResult;
  painPoints : list PainPoint;
  topProblem : option TopProblem;
  competitorResults : list CompetitorResult;
  gapAnalysis : option GapAnalysis;
  opportunityBrief : option Brief;
  emit : option EmitFn;              (* [None] is the default [() => {}] *)
  errors : list PhaseError;
}.

(** The [default] of every channel. *)
Definition defaultState : AgentState :=
  mkAgentState [] [] [] None [] [] [] None [] None None None [].

(** An object returned by a node, or given to [graph.invoke]: the keys it
    has. *)
Record Update := mkUpdate {
  u_runId : option jsstring;
  u_niche : option jsstring;
  u_sessionId : option jsstring;
  u_spaceId : option (option jsstring);
  u_searchResults : option (list SearchResult);
  u_rawPosts : option (list SearchResult);
  u_painPoints : option (list PainPoint);
  u_topProblem : option (option TopProblem);
  u_competitorResults : option (list CompetitorResult);
  u_gapAnalysis : option (option GapAnalysis);
  u_opportunityBrief : option (option Brief);
  u_emit : option (option EmitFn);
  u_errors : option (list PhaseError);
}.

Definition noUpdate : Update :=
  mkUpdate None None None None None None None None None None None None None.

(** [reducer: (_, v) => v] *)
Definition lastWrite {A} (_ v : A) : A := v.

(** [reducer: (acc, v) => [...acc, ...v]] *)
Definition accumulate (acc v : list PhaseError) : list PhaseError := acc ++ v.

(** A channel keeps its value unless the update has its key. *)
Definition channel {A} (reducer : A -> A -> A) (current : A)
    (update : option A) : A :=
  match update with
  | Some v => reducer current v
  | None => current
  end.

Definition applyUpdate (s : AgentState) (u : Update) : AgentState :=
  {| runId := channel lastWrite (runId s) (u_runId u);
     niche := channel lastWrite (niche s) (u_niche u);
     sessionId := channel lastWrite (sessionId s) (u_sessionId u);
     spaceId := channel lastWrite (spaceId s) (u_spaceId u);
     searchResults := channel lastWrite (searchResults s) (u_searchResults u);
     rawPosts := channel lastWrite (rawPosts s) (u_rawPosts u);
     painPoints := channel lastWrite (painPoints s) (u_painPoints u);
     topProblem := channel lastWrite (topProblem s) (u_topProblem u);
     competitorResults :=
       channel lastWrite (competitorResults s) (u_competitorResults u);
     gapAnalysis := channel lastWrite (gapAnalysis s) (u_gapAnalysis u);
     opportunityBrief :=
       channel lastWrite (opportunityBrief s) (u_opportunityBrief u);
     emit := channel lastWrite (emit s) (u_emit u);
     errors := channel accumulate (errors s) (u_errors u) |}.

(** Calling the [emit] closure of [runGraph]:
    [emitter.emit('event', { type, runId, timestamp, ...data })].
    Payload fields that only carry display text are left out. *)
Definition callEmit (f : option EmitFn) (body : EventBody) : M unit :=
  match f with
  | None => ret tt
  | Some fn =>
      timestamp ← ask (Date_now E);
      tell (OEmit (emit_emitter fn)
                  (mkEvent body (Some (emit_runId fn)) (Some timestamp)))
  end.

(** *** 2. scoutNode *)

(** What a node returns when it writes none of the channels. *)
Definition scoutUpdate (searchResults rawPosts : list SearchResult)
    (errors : list PhaseError) : Update :=
  {| u_runId := None; u_niche := None; u_sessionId := None;
     u_spaceId := None;
     u_searchResults := Some searchResults;
     u_rawPosts := Some rawPosts;
     u_painPoints := None; u_topProblem := None;
     u_competitorResults := None; u_gapAnalysis := None;
     u_opportunityBrief := None; u_emit := None;
     u_errors := Some errors |}.

Definition scoutNode (state : AgentState) : M Update :=
  let niche := niche state in
  let sessionId := sessionId state in
  let emit := callEmit (emit state) in
  log lphase "" "SCOUT" None;;
  emit (phase_start scout);;
  '((searchResults, rawPosts), thrown) ← try_block
    [ (fun '(searchResults, rawPosts) =>
         searchResults ← BrightData.searchRedditPainPoints E niche;
         ret (searchResults, rawPosts));
      (fun '(searchResults, rawPosts) =>
         emit (search_complete (length searchResults)
                 (map url (take 5 searchResults)));;
         rawPosts ← BrightData.scrapeRedditPosts E searchResults 15;
         ret (searchResults, rawPosts));
      (fun '(searchResults, rawPosts) =>
         emit (scrape_complete (length rawPosts));;
         (* Filter for signal quality *)
         filtered ← LLM.cleanAndFilterPosts E rawPosts niche;
         ret (searchResults,
              if (5 <=? length filtered)%nat then filtered else rawPosts));
      (fun '(searchResults, rawPosts) =>
         Acontext.storeMessage E sessionId;;
         ret (searchResults, rawPosts)) ]
    ([], []);
  '(rawPosts, errors) ←
    match thrown with
    | None => ret (rawPosts, [])
    | Some err =>
        log lerror TAG "Scout node error" (Some err);;
        emit (phase_warning scout err);;
        (* Fallback: use search snippets if scraping failed entirely *)
        ret (if (length rawPosts =? 0)%nat && (0 <? length searchResults)%nat
             then map (fun r => mkSearchResult (url r) (title r) (snippet r)
                                  (Some (snippet r))) searchResults
             else rawPosts,
             [mkPhaseError scout err])
    end;
  emit (phase_complete scout);;
  ret (scoutUpdate searchResults rawPosts errors).

(** *** 3. brainNode *)

Definition painPointsReport (painPoints : list PainPoint) : Report :=
  mkReport None None None None None (Some painPoints) None None None None
           None None None.

Definition topProblemReport (topProblem : option TopProblem) : Report :=
  mkReport None None None None None None (Some topProblem) None None None
           None None None.

Definition brainUpdate (painPoints : list PainPoint)
    (topProblem : option TopProblem) (errors : list PhaseError) : Update :=
  {| u_runId := None; u_niche := None; u_sessionId := None;
     u_spaceId := None; u_searchResults := None; u_rawPosts := None;
     u_painPoints := Some painPoints;
     u_topProblem := Some topProblem;
     u_competitorResults := None; u_gapAnalysis := None;
     u_opportunityBrief := None; u_emit := None;
     u_errors := Some errors |}.

Definition brainNode (state : AgentState) : M Update :=
  let niche := niche state in
  let sessionId := sessionId state in
  let rawPosts := rawPosts state in
  let emit := callEmit (emit state) in
  log lphase "" "BRAIN" None;;
  emit (phase_start brain);;
  '((painPoints, topProblem), thrown) ← try_block
    [ (fun '(painPoints, topProblem) =>
         (* Task Block 1 *)
         Acontext.updateTaskBlock sessionId (js "extract_pain_points")
                                  (js "running");;
         emit (task_update (js "extract_pain_points") (js "running"));;
         painPoints ← LLM.extractPainPoints E rawPosts niche;
         ret (painPoints, topProblem));
      (fun '(painPoints, topProblem) =>
         Acontext.updateTaskBlock sessionId (js "extract_pain_points")
                                  (js "complete");;
         emit (task_update (js "extract_pain_points") (js "complete"));;
         emit (pain_points_extracted (length painPoints)
                 (map problem (take 3 painPoints)));;
         Acontext.storeMessage E sessionId;;
         Acontext.writeReport E sessionId (painPointsReport painPoints);;
         (* Task Block 2 *)
         Acontext.updateTaskBlock sessionId (js "rank_and_select")
                                  (js "running");;
         emit (task_update (js "rank_and_select") (js "running"));;
         topProblem ← LLM.rankAndSelectProblem E painPoints niche;
         ret (painPoints, topProblem));
      (fun '(painPoints, topProblem) =>
         Acontext.updateTaskBlock sessionId (js "rank_and_select")
                                  (js "complete");;
         emit (task_update (js "rank_and_select") (js "complete"));;
         emit (top_problem_selected (top_problem <$> topProblem)
                 (topProblem ≫= gap_keyword));;
         Acontext.storeMessage E sessionId;;
         Acontext.writeReport E sessionId (topProblemReport topProblem);;
         ret (painPoints, topProblem)) ]
    ([], None);
  errors ←
    match thrown with
    | None => ret []
    | Some err =>
        log lerror TAG "Brain node error" (Some err);;
        Acontext.updateTaskBlock sessionId (js "extract_pain_points")
                                 (js "error");;
        Acontext.updateTaskBlock sessionId (js "rank_and_select")
                                 (js "error");;
        emit (phase_warning brain err);;
        ret [mkPhaseError brain err]
    end;
  emit (phase_complete brain);;
  ret (brainUpdate painPoints topProblem errors).

(** *** 4. validateNode *)

Definition validationFailed : GapAnalysis :=
  mkGapAnalysis (Some false) (Some (js "low"))
                (Some (js "Automated validation failed.")) None.

(** [competitorResults.map(({ screenshot, ...rest }) => rest)] *)
Definition storable (r : CompetitorResult) : CompetitorResult :=
  mkCompetitorResult (name r) (pricingUrl r) (featuresUrl r) None
                     (success r) (notes r) (scrapedContent r).

Definition validateReport (results : list CompetitorResult)
    (gapAnalysis : option GapAnalysis) : Report :=
  mkReport None None None None None None None (Some results)
           (Some gapAnalysis) None None None None.

(** Body of the Bright Data fallback loop; it assigns
    [result.scrapedContent] in place. *)
Definition fallbackScrape (emit : EventBody -> M unit)
    (done : list CompetitorResult) (result : CompetitorResult)
    : M (list CompetitorResult) :=
  if negb (success result) && (length (notes result) =? 0)%nat
  then
    emit (browser_action (mkBrowserAction (name result) (js "fallback")));;
    scraped ← BrightData.scrapeCompetitorPage E (pricingUrl result);
    ret (done ++
         [if BrightData.sp_success scraped
          then mkCompetitorResult (name result) (pricingUrl result)
                 (featuresUrl result) (screenshot result) (success result)
                 (notes result)
                 (Some (take 1000 (BrightData.sp_content scraped)))
          else result])
  else ret (done ++ [result]).

Definition validateUpdate (competitorResults : list CompetitorResult)
    (gapAnalysis : option GapAnalysis) (errors : list PhaseError) : Update :=
  {| u_runId := None; u_niche := None; u_sessionId := None;
     u_spaceId := None; u_searchResults := None; u_rawPosts := None;
     u_painPoints := None; u_topProblem := None;
     u_competitorResults := Some competitorResults;
     u_gapAnalysis := Some gapAnalysis;
     u_opportunityBrief := None; u_emit := None;
     u_errors := Some errors |}.

Definition validateNode (state : AgentState) : M Update :=
  let sessionId := sessionId state in
  let topProblem := topProblem state in
  let emit := callEmit (emit state) in
  log lphase "" "VALIDATE" None;;
  emit (phase_start validate);;
  Acontext.updateTaskBlock sessionId (js "verify_competitor_gaps")
                           (js "running");;
  emit (task_update (js "verify_competitor_gaps") (js "running"));;
  '((competitorResults, gapAnalysis), thrown) ← try_block
    [ (fun '(competitorResults, gapAnalysis) =>
         let targetKeyword := default [] (topProblem ≫= gap_keyword) in
         competitorResults ←
           ActionBook.verifyAllCompetitors E targetKeyword emit;
         ret (competitorResults, gapAnalysis));
      (fun '(competitorResults, gapAnalysis) =>
         (* Bright Data fallback for any competitor Puppeteer couldn't
            access *)
         competitorResults ←
           for_acc competitorResults [] (fallbackScrape emit);
         ret (competitorResults, gapAnalysis));
      (fun '(competitorResults, gapAnalysis) =>
         analysis ← LLM.analyseCompetitorData E competitorResults topProblem;
         ret (competitorResults, Some analysis));
      (fun '(competitorResults, gapAnalysis) =>
         Acontext.updateTaskBlock sessionId (js "verify_competitor_gaps")
                                  (js "complete");;
         emit (task_update (js "verify_competitor_gaps") (js "complete"));;
         emit (gap_analysis_complete (gapAnalysis ≫= gap_confirmed)
                 (gapAnalysis ≫= confidence));;
         (* Strip base64 screenshots from the session message *)
         let storableResults := map storable competitorResults in
         Acontext.storeMessage E sessionId;;
         Acontext.writeReport E sessionId
           (validateReport storableResults gapAnalysis);;
         ret (competitorResults, gapAnalysis)) ]
    ([], None);
  '(gapAnalysis, errors) ←
    match thrown with
    | None => ret (gapAnalysis, [])
    | Some err =>
        log lerror TAG "Validate node error" (Some err);;
        Acontext.updateTaskBlock sessionId (js "verify_competitor_gaps")
                                 (js "error");;
        emit (phase_warning validate err);;
        ret (Some validationFailed, [mkPhaseError validate err])
    end;
  emit (phase_complete validate);;
  ret (validateUpdate competitorResults gapAnalysis errors).

(** *** 5. briefNode *)

Definition finalReport (opportunityBrief : option Brief) (completedAt : Z)
    (taskBlocks : TaskArr) : Report :=
  mkReport None None None None (Some (js "complete")) None None None None
           (Some opportunityBrief) (Some completedAt) (Some taskBlocks) None.

Definition briefUpdate (opportunityBrief : option Brief)
    (errors : list PhaseError) : Update :=
  {| u_runId := None; u_niche := None; u_sessionId := None;
     u_spaceId := None; u_searchResults := None; u_rawPosts := None;
     u_painPoints := None; u_topProblem := None;
     u_competitorResults := None; u_gapAnalysis := None;
     u_opportunityBrief := Some opportunityBrief; u_emit := None;
     u_errors := Some errors |}.

Definition briefNode (state : AgentState) : M Update :=
  let niche := niche state in
  let sessionId := sessionId state in
  let painPoints := painPoints state in
  let topProblem := topProblem state in
  let gapAnalysis := gapAnalysis state in
  let competitorResults := competitorResults state in
  let emit := callEmit (emit state) in
  log lphase "" "BRIEF" None;;
  emit (phase_start brief);;
  Acontext.updateTaskBlock sessionId (js "generate_opportunity_brief")
                           (js "running");;
  emit (task_update (js "generate_opportunity_brief") (js "running"));;
  '(opportunityBrief, thrown) ← try_block
    [ (fun opportunityBrief =>
         generated ← LLM.generateOpportunityBrief E niche topProblem
                       gapAnalysis competitorResults painPoints;
         ret (Some generated));
      (fun opportunityBrief =>
         Acontext.updateTaskBlock sessionId
           (js "generate_opportunity_brief") (js "complete");;
         emit (task_update (js "generate_opportunity_brief")
                           (js "complete"));;
         (* Flush session *)
         Acontext.flushAndSummarise E sessionId;;
         (* Final Disk write - authoritative report *)
         completedAt ← ask (Date_now E);
         w ← get;
         Acontext.writeReport E sessionId
           (finalReport opportunityBrief completedAt
              (Acontext.getTaskBlocks w sessionId));;
         (* the message text reads opportunityBrief.headline *)
         match opportunityBrief with
         | Some _ => ret tt
         | None => throw (js "Cannot read properties of null")
         end;;
         Acontext.storeMessage E sessionId;;
         w ← get;
         let fullReport := Acontext.readReport w sessionId in
         emit (report_ready (Acontext.toJSON w <$> fullReport));;
         log lsuccess TAG "Pipeline complete" None;;
         ret opportunityBrief) ]
    None;
  errors ←
    match thrown with
    | None => ret []
    | Some err =>
        log lerror TAG "Brief node error" (Some err);;
        Acontext.updateTaskBlock sessionId
          (js "generate_opportunity_brief") (js "error");;
        emit (phase_warning brief err);;
        ret [mkPhaseError brief err]
    end;
  ret (briefUpdate opportunityBrief errors).

(** *** 6. The compiled graph: START, scout, brain, validate, brief, END

    [graph.invoke] seeds the channels with their defaults, applies the
    input through the reducers, then runs the nodes along the edges,
    merging what each one returns; an exception of a node is rethrown. *)

Fixpoint runNodes (nodes : list (AgentState -> M Update)) (s : AgentState)
    : M AgentState :=
  match nodes with
  | [] => ret s
  | node :: rest =>
      u ← node s;
      runNodes rest (applyUpdate s u)
  end.

Definition graph : list (AgentState -> M Update) :=
  [scoutNode; brainNode; validateNode; briefNode].

Definition graph_invoke (input : Update) : M AgentState :=
  runNodes graph (applyUpdate defaultState input).

(** *** 7. Public API *)

Definition getActiveRun (w : World) (runId : jsstring) : option RunRecord :=
  activeRuns w !! runId.

(** [activeRuns.set(runId, r)] *)
Definition setActiveRun (runId : jsstring) (r : RunRecord) : M unit :=
  modify (set_activeRuns (fun m => <[runId := r]> m));;
  tell (OSetRun runId r).

(** [{ ...activeRuns.get(runId), status, sessionId }] *)
Definition withStatus (old : option RunRecord) (status : RunStatus)
    (sessionId : option jsstring) : RunRecord :=
  {| run_emitter := old ≫= run_emitter;
     run_status := status;
     run_niche := old ≫= run_niche;
     run_startedAt := old ≫= run_startedAt;
     run_sessionId :=
       match sessionId with
       | Some _ => sessionId
       | None => old ≫= run_sessionId
       end |}.

(** [{ runId, niche, sessionId: session.id, spaceId: space?.id ?? null,
      status: 'running' }] *)
Definition bootReport (runId niche session : jsstring)
    (space : option jsstring) : Report :=
  mkReport (Some runId) (Some niche) (Some session) (Some space)
           (Some (js "running")) None None None None None None None None.

(** [{ runId, niche, sessionId: session.id, spaceId: space?.id ?? null,
      emit }] *)
Definition graphInput (runId niche session : jsstring)
    (space : option jsstring) (emit : EmitFn) : Update :=
  {| u_runId := Some runId; u_niche := Some niche;
     u_sessionId := Some session; u_spaceId := Some space;
     u_searchResults := None; u_rawPosts := None;
     u_painPoints := None; u_topProblem := None;
     u_competitorResults := None; u_gapAnalysis := None;
     u_opportunityBrief := None;
     u_emit := Some (Some emit);
     u_errors := None |}.

(** The [try] block of [runGraph]. *)
Definition runGraph_try (runId niche : jsstring) (emitter : nat) : M unit :=
  let emit := callEmit (Some (mkEmitFn emitter runId)) in
  emit (run_start niche);;
  (* Bootstrap Acontext context before graph starts *)
  session ← Acontext.createSession E niche;
  space ← Acontext.createLearningSpace E niche session;
  Acontext.initTaskBlocks session;;
  w ← get;
  emit (session_created session space
          (Acontext.readArr w (Acontext.getTaskBlocks w session)));;
  Acontext.writeReport E session (bootReport runId niche session space);;
  (* Invoke the compiled LangGraph *)
  finalState ← graph_invoke
    (graphInput runId niche session space (mkEmitFn emitter runId));
  log lsuccess TAG "Graph completed for run" (Some runId);;
  w ← get;
  setActiveRun runId
    (withStatus (getActiveRun w runId)
       (if (0 <? length (errors finalState))%nat
        then complete_with_warnings else complete)
       (Some session));;
  now ← ask (Date_now E);
  w ← get;
  emit (ev_done (Some session) (Some (length (errors finalState)))
          ((fun startedAt => now - startedAt)%Z
             <$> (getActiveRun w runId ≫= run_startedAt))).

(** The [catch] block of [runGraph]. *)
Definition runGraph_catch (runId : jsstring) (emitter : nat) (err : jsstring)
    : M unit :=
  let emit := callEmit (Some (mkEmitFn emitter runId)) in
  log lerror TAG "Graph fatal error" (Some err);;
  emit (ev_error err);;
  emit (ev_done None None None);;
  w ← get;
  setActiveRun runId (withStatus (getActiveRun w runId) error None).

Definition runGraph (runId niche : jsstring) (emitter : nat) : M unit :=
  try_finally
    (try_catch (runGraph_try runId niche emitter)
               (runGraph_catch runId emitter))
    (* finally: await closeBrightData().catch(() => {}) *)
    (try_catch (BrightData.closeBrightData E) (fun _ => ret tt)).

(** [runGraph(runId, niche, emitter).catch((err) => { ... })]: the promise
    left behind by [startRun]. *)
Definition runTask (t : Task) : M unit :=
  try_catch
    (runGraph (task_runId t) (task_niche t) (task_emitter t))
    (fun err =>
       log lerror TAG "Unhandled graph error for run" (Some err);;
       tell (OEmit (task_emitter t) (mkEvent (ev_error err) None None));;
       tell (OEmit (task_emitter t)
                   (mkEvent (ev_done None None None)
                            (Some (task_runId t)) None))).

(** [startRun] returns the run identifier at once; the graph runs as a
    pending promise. *)
Definition startRun (niche : jsstring) : M jsstring :=
  runId ← ask (uuidv4 E);
  w ← get;
  let emitter := emitters w in
  modify (set_emitters S);;
  startedAt ← ask (Date_now E);
  setActiveRun runId
    (mkRunRecord (Some emitter) running (Some niche) (Some startedAt) None);;
  (* Fire-and-forget *)
  modify (set_pending (fun q => q ++ [mkTask runId niche emitter]));;
  ret runId.

(** The event loop running the promises left pending. *)
Definition runPending : M unit :=
  w ← get;
  modify (set_pending (fun _ => []));;
  for_of (pending w) runTask.

End WithEnv.
End Orchestrator.

(** ** routes/agent.js *)

Module Routes.
Section WithEnv.
Context (E : Env).

Inductive Body :=
| json_error (message : jsstring)
| json_started (runId niche : jsstring)
| json_status (runId : jsstring) (status : RunStatus)
              (niche : option jsstring) (startedAt : option Z)
| json_report (report : ReportJSON).

Record Response := mkResponse {
  status_code : nat;
  body : Body;
}.

(** [res.status(400).json({ error: '...' })] of POST /start *)
Definition rejected : Response :=
  mkResponse 400
    (json_error (js "niche must be a string of at least 3 characters")).

(** [!v] is [negb (truthy v)] *)
Definition truthy (v : JSValue) : bool :=
  match v with
  | JUndefined | JNull => false
  | JBool b => b
  | JNum z => negb (z =? 0)%Z
  | JStr s => negb (length s =? 0)%nat
  | JObject => true
  end.

(** [typeof v === 'string'] *)
Definition isString (v : JSValue) : bool :=
  match v with JStr _ => true | _ => false end.

(** POST /api/agent/start, with [niche] read from [req.body] *)
Definition post_start (niche : JSValue) : M Response :=
  match niche with
  | JStr s =>
      if negb (truthy niche) || negb (isString niche)
         || (length (trim s) <? 3)%nat
      then ret rejected
      else
        try_catch
          (runId ← Orchestrator.startRun E (trim s);
           log info "Routes" "Run started" (Some runId);;
           ret (mkResponse 202 (json_started runId (trim s))))
          (fun err =>
             log lerror "Routes" "Failed to start run" (Some err);;
             ret (mkResponse 500 (json_error err)))
  | _ =>
      (* [!niche || typeof niche !== 'string'] holds *)
      ret rejected
  end.

(** GET /api/agent/status/:runId *)
Definition get_status (runId : jsstring) : M Response :=
  w ← get;
  match Orchestrator.getActiveRun w runId with
  | None => ret (mkResponse 404 (json_error (js "Run not found")))
  | Some run =>
      ret (mkResponse 200
             (json_status runId (run_status run) (run_niche run)
                          (run_startedAt run)))
  end.

(** GET /api/agent/report/:runId *)
Definition get_report (runId : jsstring) : M Response :=
  w ← get;
  match Orchestrator.getActiveRun w runId with
  | None => ret (mkResponse 404 (json_error (js "Run not found")))
  | Some run =>
      match run_sessionId run ≫= Acontext.readReport w with
      | None =>
          ret (mkResponse 404 (json_error (js "Report not yet available")))
      | Some report => ret (mkResponse 200 (json_report (Acontext.toJSON w report)))
      end
  end.

End WithEnv.
End Routes.

(** ** Observing a computation *)

(** The bodies of the events in a trace that [f] selects, in order. *)
Definition evproj {B} (f : EventBody -> option B) (l : list Obs) : list B :=
  omap (fun o => match o with
                 | OEmit _ ev => f (ev_body ev)
                 | _ => None
                 end) l.

Definition events (l : list Obs) : list EventBody := evproj Some l.

Definition is_done (b : EventBody) : option unit :=
  match b with ev_done _ _ _ => Some tt | _ => None end.
Definition is_error (b : EventBody) : option jsstring :=
  match b with ev_error m => Some m | _ => None end.
Definition is_terminal (b : EventBody) : option EventBody :=
  match b with ev_done _ _ _ | ev_error _ => Some b | _ => None end.
Definition is_phase_start (b : EventBody) : option Phase :=
  match b with phase_start p => Some p | _ => None end.
Definition is_phase_complete (b : EventBody) : option Phase :=
  match b with phase_complete p => Some p | _ => None end.
Definition is_phase_event (b : EventBody) : option EventBody :=
  match b with
  | phase_start _ | phase_complete _ | phase_warning _ _ => Some b
  | _ => None
  end.
Definition is_report_ready (b : EventBody) : option (option ReportJSON) :=
  match b with report_ready r => Some r | _ => None end.
Definition is_session_created (b : EventBody) : option (option jsstring) :=
  match b with session_created _ space _ => Some space | _ => None end.

(** [c] emits no event selected by [f]. *)
Definition silent {A B} (f : EventBody -> option B) (c : M A) : Prop :=
  forall w, evproj f (out (c w)) = [].

(** [c] never throws. *)
Definition total {A} (c : M A) : Prop :=
  forall w, exists a, res (c w) = Ok a.

(** [c] leaves the component [g] of the process state as it was. *)
Definition preserves {A S} (g : World -> S) (c : M A) : Prop :=
  forall w, g (world (c w)) = g w.

(** [c] relates the state it starts from to the state it leaves and the
    trace it writes by [T], however it ends. *)
Definition obeys {A} (T : World -> World -> list Obs -> Prop) (c : M A)
    : Prop :=
  forall w, T w (world (c w)) (out (c w)).

(** Relations that hold of doing nothing and compose along a sequence. *)
Class Sequential (T : World -> World -> list Obs -> Prop) : Prop := {
  seq_nil : forall w, T w w [];
  seq_app : forall w1 w2 w3 o1 o2,
    T w1 w2 o1 -> T w2 w3 o2 -> T w1 w3 (o1 ++ o2);
}.

(** Whatever [c] returns satisfies [P]. *)
Definition returns {A} (P : A -> Prop) (c : M A) : Prop :=
  forall w a, res (c w) = Ok a -> P a.

(** No selected event in the trace, and the component [g] unchanged. *)
Definition quietly {B S} (f : EventBody -> option B) (g : World -> S)
    : World -> World -> list Obs -> Prop :=
  fun w w' o => evproj f o = [] /\ g w' = g w.

(** The logical clock never goes back. *)
Definition clockAdvances : World -> World -> list Obs -> Prop :=
  fun w w' _ => tick w <= tick w'.

(** [b] is the first event of every execution of [c]. *)
Definition opens_with {A} (b : EventBody) (c : M A) : Prop :=
  forall w, exists rest, events (out (c w)) = b :: rest.

(** [c] never throws and the events it emits that [f] selects are
    exactly [l]. *)
Definition emits {A B} (f : EventBody -> option B) (l : list B) (c : M A)
    : Prop :=
  total c /\ forall w, evproj f (out (c w)) = l.

(** Everything the pipeline emits once the bootstrap is over. *)
Definition after_bootstrap (b : EventBody) : option EventBody :=
  match b with
  | run_start _ | session_created _ _ _ => None
  | _ => Some b
  end.

(** What a reader of the report store sees for a session. *)
Definition reportView (w : World) (sessionId : jsstring) : option ReportJSON :=
  Acontext.toJSON w <$> Acontext.readReport w sessionId.

(** The part of the state a report is read from. *)
Definition reportState (w : World)
    : gmap jsstring Report * list (list TaskBlock) :=
  (reportStore w, taskHeap w).

(** The [report_ready] events of [o], if any, are one event whose payload is
    the stored report of [sessionId] as read in the state [o] ends in. *)
Definition stored_payload {A} (sessionId : jsstring) (o : Outcome A) : Prop :=
  evproj is_report_ready (out o) = []
  \/ (exists a, res o = Ok a)
     /\ evproj is_report_ready (out o) = [reportView (world o) sessionId].

(** ** Scenarios *)

Module Scenarios.

(** A post as the Reddit JSON API lists it: permalink, title, selftext. *)
Definition hit (n : string) : SearchResult :=
  mkSearchResult (js "/r/design/comments/" ++ js n)
                 (js "title " ++ js n) [] (Some (js "selftext " ++ js n)).

Definition aPainPoint : PainPoint :=
  mkPainPoint (js "invoicing takes hours") (js "I hate invoicing")
              (js "https://www.reddit.com/r/design/comments/1")
              (js "high") (js "workflow").

Definition aTopProblem : TopProblem :=
  mkTopProblem (js "invoicing takes hours") (Some (js "invoice tracking")).

Definition aVerdict : GapAnalysis :=
  mkGapAnalysis (Some true) (Some (js "high")) (Some (js "gap")) (Some []).

Definition aBrief : Brief :=
  mkBrief (js "Invoices that send themselves") (js "problem")
          (js "freelance designers") [] (js "high").

Definition checked (c : Competitor) : CompetitorResult :=
  mkCompetitorResult (c_name c) (c_pricingUrl c) (c_featuresUrl c)
                     (Some (js "data:image/png;base64,AAAA")) true
                     (js "No major gaps detected on this competitor.") None.

(** Run identifiers [run-], [run-x], [run-xx], ... *)
Definition uuid (t : nat) : jsstring := js "run-" ++ replicate t 120%N.

(** All four providers answer every call. *)
Definition allSucceed : Env :=
  {| OPENAI_API_KEY := true;
     ACONTEXT_API_KEY := true;
     BRIGHTDATA_API_TOKEN := true;
     Date_now := fun t => (1000 + Z.of_nat t)%Z;
     uuidv4 := uuid;
     sessions_create := fun _ => Ok (js "session-1");
     sessions_storeMessage := fun _ _ => Ok tt;
     sessions_flush := fun _ _ => Ok tt;
     sessions_getSessionSummary := fun _ _ => Ok tt;
     learningSpaces_create := fun _ => Ok (js "space-1");
     learningSpaces_learn := fun _ _ _ => Ok tt;
     chat_completions_create := fun _ => Ok (js "{}");
     decode_keep_urls := fun _ => None;
     decode_pain_points := fun _ => Some [aPainPoint];
     extractJson_pain_points := fun _ => None;
     decode_top_problem := fun _ => Some aTopProblem;
     decode_gap_analysis := fun _ => Some aVerdict;
     decode_brief := fun _ => Some aBrief;
     mcp_connect := fun _ => Ok tt;
     mcp_listTools := fun _ => Ok tt;
     mcp_close := fun _ => Ok tt;
     mcp_scrape_as_markdown := fun _ _ => Ok (js "markdown");
     mcp_search_engine := fun _ _ _ => Ok (js "{}");
     decode_search_results := fun _ => [];
     encodeURIComponent := fun s => s;
     mcp_web_data_reddit_posts := fun _ _ => Ok [];
     reddit_search_json := fun _ _ => Ok [hit "1"; hit "2"];
     reddit_post_json := fun _ _ => Ok (js "Title: a post");
     extract_reddit_links := fun _ => [];
     browser_check := fun _ c _ =>
       ([mkBrowserAction (c_name c) (js "starting")], Ok (checked c)) |}.

Definition down : jsstring := js "service unavailable".

(** Full degradation: every call to an external provider throws. *)
Definition allFail : Env :=
  {| OPENAI_API_KEY := true;
     ACONTEXT_API_KEY := true;
     BRIGHTDATA_API_TOKEN := true;
     Date_now := fun t => (1000 + Z.of_nat t)%Z;
     uuidv4 := uuid;
     sessions_create := fun _ => Throw down;
     sessions_storeMessage := fun _ _ => Throw down;
     sessions_flush := fun _ _ => Throw down;
     sessions_getSessionSummary := fun _ _ => Throw down;
     learningSpaces_create := fun _ => Throw down;
     learningSpaces_learn := fun _ _ _ => Throw down;
     chat_completions_create := fun _ => Throw down;
     decode_keep_urls := fun _ => None;
     decode_pain_points := fun _ => None;
     extractJson_pain_points := fun _ => None;
     decode_top_problem := fun _ => None;
     decode_gap_analysis := fun _ => None;
     decode_brief := fun _ => None;
     mcp_connect := fun _ => Throw down;
     mcp_listTools := fun _ => Throw down;
     mcp_close := fun _ => Throw down;
     mcp_scrape_as_markdown := fun _ _ => Throw down;
     mcp_search_engine := fun _ _ _ => Throw down;
     decode_search_results := fun _ => [];
     encodeURIComponent := fun s => s;
     mcp_web_data_reddit_posts := fun _ _ => Throw down;
     reddit_search_json := fun _ _ => Throw down;
     reddit_post_json := fun _ _ => Throw down;
     extract_reddit_links := fun _ => [];
     browser_check := fun _ _ _ => ([], Throw down) |}.

(** The Memory Store works; search, reasoning and browser providers fail. *)
Definition onlyMemoryStore : Env :=
  {| OPENAI_API_KEY := true;
     ACONTEXT_API_KEY := true;
     BRIGHTDATA_API_TOKEN := true;
     Date_now := Date_now allFail;
     uuidv4 := uuid;
     sessions_create := sessions_create allSucceed;
     sessions_storeMessage := sessions_storeMessage allSucceed;
     sessions_flush := sessions_flush allSucceed;
     sessions_getSessionSummary := sessions_getSessionSummary allSucceed;
     learningSpaces_create := learningSpaces_create allSucceed;
     learningSpaces_learn := learningSpaces_learn allSucceed;
     chat_completions_create := chat_completions_create allFail;
     decode_keep_urls := decode_keep_urls allFail;
     decode_pain_points := decode_pain_points allFail;
     extractJson_pain_points := extractJson_pain_points allFail;
     decode_top_problem := decode_top_problem allFail;
     decode_gap_analysis := decode_gap_analysis allFail;
     decode_brief := decode_brief allFail;
     mcp_connect := mcp_connect allFail;
     mcp_listTools := mcp_listTools allFail;
     mcp_close := mcp_close allFail;
     mcp_scrape_as_markdown := mcp_scrape_as_markdown allFail;
     mcp_search_engine := mcp_search_engine allFail;
     decode_search_results := decode_search_results allFail;
     encodeURIComponent := encodeURIComponent allFail;
     mcp_web_data_reddit_posts := mcp_web_data_reddit_posts allFail;
     reddit_search_json := reddit_search_json allFail;
     reddit_post_json := reddit_post_json allFail;
     extract_reddit_links := extract_reddit_links allFail;
     browser_check := browser_check allFail |}.

(** [allSucceed] with one setting replaced. *)
Definition withKeys (openai acontext : bool) (E : Env) : Env :=
  {| OPENAI_API_KEY := openai;
     ACONTEXT_API_KEY := acontext;
     BRIGHTDATA_API_TOKEN := BRIGHTDATA_API_TOKEN E;
     Date_now := Date_now E;
     uuidv4 := uuidv4 E;
     sessions_create := sessions_create E;
     sessions_storeMessage := sessions_storeMessage E;
     sessions_flush := sessions_flush E;
     sessions_getSessionSummary := sessions_getSessionSummary E;
     learningSpaces_create := learningSpaces_create E;
     learningSpaces_learn := learningSpaces_learn E;
     chat_completions_create := chat_completions_create E;
     decode_keep_urls := decode_keep_urls E;
     decode_pain_points := decode_pain_points E;
     extractJson_pain_points := extractJson_pain_points E;
     decode_top_problem := decode_top_problem E;
     decode_gap_analysis := decode_gap_analysis E;
     decode_brief := decode_brief E;
     mcp_connect := mcp_connect E;
     mcp_listTools := mcp_listTools E;
     mcp_close := mcp_close E;
     mcp_scrape_as_markdown := mcp_scrape_as_markdown E;
     mcp_search_engine := mcp_search_engine E;
     decode_search_results := decode_search_results E;
     encodeURIComponent := encodeURIComponent E;
     mcp_web_data_reddit_posts := mcp_web_data_reddit_posts E;
     reddit_search_json := reddit_search_json E;
     reddit_post_json := reddit_post_json E;
     extract_reddit_links := extract_reddit_links E;
     browser_check := browser_check E |}.


(** The Acontext key is missing from the environment. *)
Definition noAcontextKey : Env := withKeys true false allSucceed.

(** The learning space cannot be created; all else works. *)
Definition spaceDown : Env :=
  {| OPENAI_API_KEY := true;
     ACONTEXT_API_KEY := true;
     BRIGHTDATA_API_TOKEN := true;
     Date_now := Date_now allSucceed;
     uuidv4 := uuid;
     sessions_create := sessions_create allSucceed;
     sessions_storeMessage := sessions_storeMessage allSucceed;
     sessions_flush := sessions_flush allSucceed;
     sessions_getSessionSummary := sessions_getSessionSummary allSucceed;
     learningSpaces_create := fun _ => Throw down;
     learningSpaces_learn := learningSpaces_learn allSucceed;
     chat_completions_create := chat_completions_create allSucceed;
     decode_keep_urls := decode_keep_urls allSucceed;
     decode_pain_points := decode_pain_points allSucceed;
     extractJson_pain_points := extractJson_pain_points allSucceed;
     decode_top_problem := decode_top_problem allSucceed;
     decode_gap_analysis := decode_gap_analysis allSucceed;
     decode_brief := decode_brief allSucceed;
     mcp_connect := mcp_connect allSucceed;
     mcp_listTools := mcp_listTools allSucceed;
     mcp_close := mcp_close allSucceed;
     mcp_scrape_as_markdown := mcp_scrape_as_markdown allSucceed;
     mcp_search_engine := mcp_search_engine allSucceed;
     decode_search_results := decode_search_results allSucceed;
     encodeURIComponent := encodeURIComponent allSucceed;
     mcp_web_data_reddit_posts := mcp_web_data_reddit_posts allSucceed;
     reddit_search_json := reddit_search_json allSucceed;
     reddit_post_json := reddit_post_json allSucceed;
     extract_reddit_links := extract_reddit_links allSucceed;
     browser_check := browser_check allSucceed |}.



(** One run, from the request to the end of the background task. *)
Definition oneRun (E : Env) (niche : jsstring) : Outcome unit :=
  (Orchestrator.startRun E niche;; Orchestrator.runPending E) initialWorld.

End Scenarios.

(** * Reasoning about computations *)

Lemma evproj_app {B} (f : EventBody -> option B) (l1 l2 : list Obs) :
  evproj f (l1 ++ l2) = evproj f l1 ++ evproj f l2.
Proof. unfold evproj. apply omap_app. Qed.

#[global] Instance quietly_sequential {B S} (f : EventBody -> option B)
    (g : World -> S) : Sequential (quietly f g).
Proof.
  split; unfold quietly.
  - intros w. split; reflexivity.
  - intros w1 w2 w3 o1 o2 [H1 G1] [H2 G2]. split.
    + rewrite evproj_app, H1, H2. reflexivity.
    + congruence.
Qed.

#[global] Instance clockAdvances_sequential : Sequential clockAdvances.
Proof.
  split; unfold clockAdvances; intros;
    [reflexivity | etransitivity; eassumption].
Qed.

Lemma obeys_silent {A B S} (f : EventBody -> option B) (g : World -> S)
    (c : M A) :
  obeys (quietly f g) c -> silent f c.
Proof. intros H w. apply (H w). Qed.

Lemma obeys_preserves {A B S} (f : EventBody -> option B) (g : World -> S)
    (c : M A) :
  obeys (quietly f g) c -> preserves g c.
Proof. intros H w. apply (H w). Qed.

Section Structural.
Context (T : World -> World -> list Obs -> Prop) `{!Sequential T}.

Lemma obeys_ret {A} (a : A) : obeys T (ret a).
Proof. intros w. apply seq_nil. Qed.

Lemma obeys_throw {A} (e : jsstring) : obeys T (@throw A e).
Proof. intros w. apply seq_nil. Qed.

Lemma obeys_get : obeys T get.
Proof. intros w. apply seq_nil. Qed.

Lemma obeys_bind {A B} (c : M A) (k : A -> M B) :
  obeys T c -> (forall a, obeys T (k a)) -> obeys T (bind c k).
Proof.
  intros Hc Hk w. unfold bind.
  specialize (Hc w). destruct (c w) as [[a|e] w1 o1]; simpl in *.
  - eapply seq_app; [exact Hc | apply Hk].
  - exact Hc.
Qed.

Lemma obeys_mbind {A B} (c : M A) (k : A -> M B) :
  obeys T c -> (forall a, obeys T (k a)) -> obeys T (c ≫= k).
Proof. apply obeys_bind. Qed.

Lemma obeys_try_catch {A} (c : M A) (h : jsstring -> M A) :
  obeys T c -> (forall e, obeys T (h e)) -> obeys T (try_catch c h).
Proof.
  intros Hc Hh w. unfold try_catch.
  specialize (Hc w). destruct (c w) as [[a|e] w1 o1]; simpl in *.
  - exact Hc.
  - eapply seq_app; [exact Hc | apply Hh].
Qed.

Lemma obeys_try_finally {A} (c : M A) (f : M unit) :
  obeys T c -> obeys T f -> obeys T (try_finally c f).
Proof.
  intros Hc Hf w. unfold try_finally.
  specialize (Hc w). destruct (c w) as [r w1 o1]; simpl in *.
  specialize (Hf w1). destruct (f w1) as [[u|e] w2 o2]; simpl in *;
    eapply seq_app; eassumption.
Qed.

Lemma obeys_attempt {A} (c : M A) : obeys T c -> obeys T (attempt c).
Proof. intros Hc w. apply Hc. Qed.

Lemma obeys_for_of {A} (xs : list A) (body : A -> M unit) :
  (forall x, obeys T (body x)) -> obeys T (for_of xs body).
Proof.
  intros Hb. induction xs as [|x xs IH]; simpl.
  - apply obeys_ret.
  - apply obeys_bind; [apply Hb | intros _; exact IH].
Qed.

Lemma obeys_for_acc {A S} (xs : list A) (acc : S) (body : S -> A -> M S) :
  (forall acc x, obeys T (body acc x)) -> obeys T (for_acc xs acc body).
Proof.
  intros Hb. revert acc. induction xs as [|x xs IH]; intros acc; simpl.
  - apply obeys_ret.
  - apply obeys_bind; [apply Hb | intros acc'; apply IH].
Qed.

Lemma obeys_try_block {L} (steps : list (L -> M L)) (locals : L) :
  Forall (fun step => forall l, obeys T (step l)) steps ->
  obeys T (try_block steps locals).
Proof.
  intros Hs. revert locals.
  induction Hs as [|step rest Hstep _ IH]; intros locals; simpl.
  - apply obeys_ret.
  - apply obeys_bind; [apply obeys_attempt, Hstep |].
    intros [l'|e]; [apply IH | apply obeys_ret].
Qed.

Lemma obeys_modify (h : World -> World) :
  (forall w, T w (h w) []) -> obeys T (modify h).
Proof. intros H w. apply H. Qed.

Lemma obeys_tell (o : Obs) : (forall w, T w w [o]) -> obeys T (tell o).
Proof. intros H w. apply H. Qed.

Lemma obeys_ask {A} (f : nat -> A) :
  (forall w, T w (set_tick S w) []) -> obeys T (ask f).
Proof. intros H w. apply H. Qed.

Lemma obeys_call {A} (f : nat -> result A) :
  (forall w, T w (set_tick S w) []) -> obeys T (call f).
Proof. intros H w. apply H. Qed.

End Structural.

Create HintDb model.

#[global] Hint Unfold
  log
  Acontext.getClient Acontext.createSession Acontext.storeMessage
  Acontext.flushAndSummarise Acontext.writeReport
  Acontext.createLearningSpace Acontext.initTaskBlocks
  Acontext.updateTaskBlock
  LLM.getClient LLM.callGPT LLM.extractPainPoints LLM.rankAndSelectProblem
  LLM.analyseCompetitorData LLM.generateOpportunityBrief
  LLM.cleanAndFilterPosts
  BrightData.getClient BrightData.searchWeb BrightData.scrapeUrl
  BrightData.searchRedditDirect BrightData.searchRedditWithWebData
  BrightData.searchRedditJSON BrightData.searchRedditPainPoints
  BrightData.fetchRedditPostJSON BrightData.scrapeRedditPost
  BrightData.scrapeRedditPosts BrightData.scrapeCompetitorPage
  BrightData.closeBrightData
  ActionBook.checkCompetitorGap ActionBook.verifyAllCompetitors
  Orchestrator.callEmit Orchestrator.scoutNode Orchestrator.brainNode
  Orchestrator.validateNode Orchestrator.briefNode
  Orchestrator.fallbackScrape Orchestrator.setActiveRun
  Orchestrator.graph_invoke Orchestrator.graph
  Orchestrator.runGraph Orchestrator.runGraph_try
  Orchestrator.runGraph_catch Orchestrator.runTask
  : model.

(** Side conditions of the primitive effects, for a concrete relation. *)
Ltac side :=
  intros; first
    [ assumption
    | solve [ unfold quietly; cbn; split; reflexivity ]
    | solve [ unfold clockAdvances; cbn; lia ]
    | solve [ cbn; auto ] ].

Ltac obey_rule c :=
  lazymatch c with
  | ret _ => apply obeys_ret
  | throw _ => apply obeys_throw
  | get => apply obeys_get
  | bind _ _ => apply obeys_bind
  | mbind _ _ => apply obeys_mbind
  | try_catch _ _ => apply obeys_try_catch
  | try_finally _ _ => apply obeys_try_finally
  | attempt _ => apply obeys_attempt
  | for_of _ _ => apply obeys_for_of
  | for_acc _ _ _ => apply obeys_for_acc
  | try_block _ _ => apply obeys_try_block
  | modify _ => apply obeys_modify
  | tell _ => apply obeys_tell
  | ask _ => apply obeys_ask
  | call _ => apply obeys_call
  | match ?x with _ => _ end => destruct x
  | _ => progress autounfold with model
  end.

Ltac obey_step :=
  cbv beta zeta; intros; cbv beta zeta;
  lazymatch goal with
  | |- Sequential _ => exact _
  | |- Forall _ (_ :: _) => constructor
  | |- Forall _ [] => constructor
  | |- obeys _ ?c => first [ solve [ auto 2 ] | obey_rule c ]
  | |- _ => side
  end.

Ltac obey := repeat obey_step.
Section Recursive.
Context (T : World -> World -> list Obs -> Prop) `{!Sequential T}.
Context (E : Env).

Lemma obeys_googlePages query pages allResults :
  (forall q m p, obeys T (BrightData.searchWeb E q m p)) ->
  (forall l t m d, obeys T (tell (OLog l t m d))) ->
  obeys T (BrightData.googlePages E query pages allResults).
Proof.
  intros Hsearch Hlog. revert allResults.
  induction pages as [|page rest IH]; intros allResults; simpl; obey.
Qed.

Lemma obeys_googleStrategy queries allResults :
  (forall q m p, obeys T (BrightData.searchWeb E q m p)) ->
  (forall l t m d, obeys T (tell (OLog l t m d))) ->
  obeys T (BrightData.googleStrategy E queries allResults).
Proof.
  intros Hsearch Hlog. revert allResults.
  induction queries as [|query rest IH]; intros allResults; simpl; obey.
Qed.

Lemma obeys_runNodes nodes s :
  Forall (fun node => forall s, obeys T (node s)) nodes ->
  obeys T (Orchestrator.runNodes nodes s).
Proof.
  intros Hn. revert s.
  induction Hn as [|node rest Hnode _ IH]; intros s; simpl; obey.
Qed.

End Recursive.

Ltac obey_all :=
  repeat (cbv beta zeta; intros; first
    [ lazymatch goal with
      | |- obeys _ (BrightData.googleStrategy _ _ _) =>
          apply obeys_googleStrategy
      | |- obeys _ (Orchestrator.runNodes _ _) => apply obeys_runNodes
      end
    | obey_step ]).


(** ** Results and termination *)

Lemma returns_ret {A} (P : A -> Prop) (a : A) : P a -> returns P (ret a).
Proof. intros H w a' [= <-]. exact H. Qed.

Lemma returns_throw {A} (P : A -> Prop) (e : jsstring) : returns P (throw e).
Proof. intros w a [=]. Qed.

Lemma returns_mbind {A B} (P : B -> Prop) (c : M A) (k : A -> M B) :
  (forall a, returns P (k a)) -> returns P (c ≫= k).
Proof.
  intros Hk w b. unfold mbind, M_bind, bind.
  destruct (c w) as [[a|e] w1 o1]; simpl; [apply Hk | intros [=]].
Qed.

Lemma returns_try_catch {A} (P : A -> Prop) (c : M A) (h : jsstring -> M A) :
  returns P c -> (forall e, returns P (h e)) -> returns P (try_catch c h).
Proof.
  intros Hc Hh w a. unfold try_catch. specialize (Hc w).
  destruct (c w) as [[a'|e] w1 o1]; simpl in *; [apply Hc | apply Hh].
Qed.

Ltac returns_step :=
  cbv beta zeta; intros; cbv beta zeta;
  lazymatch goal with
  | |- returns _ (ret _) => apply returns_ret
  | |- returns _ (throw _) => apply returns_throw
  | |- returns _ (mbind _ _) => apply returns_mbind
  | |- returns _ (try_catch _ _) => apply returns_try_catch
  | |- returns _ (match ?x with _ => _ end) => destruct x
  | |- returns _ _ => progress autounfold with model
  end.

Lemma total_ret {A} (a : A) : total (ret a).
Proof. intros w. by exists a. Qed.

Lemma total_get : total get.
Proof. intros w. by exists w. Qed.

Lemma total_modify (h : World -> World) : total (modify h).
Proof. intros w. by exists tt. Qed.

Lemma total_tell (o : Obs) : total (tell o).
Proof. intros w. by exists tt. Qed.

Lemma total_ask {A} (f : nat -> A) : total (ask f).
Proof. intros w. by eexists. Qed.

Lemma total_attempt {A} (c : M A) : total (attempt c).
Proof. intros w. by eexists. Qed.

Lemma total_bind {A B} (c : M A) (k : A -> M B) :
  total c -> (forall a, total (k a)) -> total (bind c k).
Proof.
  intros Hc Hk w. unfold bind. destruct (Hc w) as [a Ha]. rewrite Ha.
  destruct (Hk a (world (c w))) as [b Hb]. by exists b.
Qed.

Lemma total_mbind {A B} (c : M A) (k : A -> M B) :
  total c -> (forall a, total (k a)) -> total (c ≫= k).
Proof. apply total_bind. Qed.

Lemma total_try_catch {A} (c : M A) (h : jsstring -> M A) :
  (forall e, total (h e)) -> total (try_catch c h).
Proof.
  intros Hh w. unfold try_catch. destruct (res (c w)) as [a|e] eqn:Hr.
  - by exists a.
  - destruct (Hh e (world (c w))) as [b Hb]. by exists b.
Qed.

Lemma total_try_finally {A} (c : M A) (f : M unit) :
  total c -> total f -> total (try_finally c f).
Proof.
  intros Hc Hf w. unfold try_finally.
  destruct (Hf (world (c w))) as [u Hu]. rewrite Hu. apply Hc.
Qed.

Lemma total_try_block {L} (steps : list (L -> M L)) (locals : L) :
  total (try_block steps locals).
Proof.
  revert locals. induction steps as [|step rest IH]; intros locals; simpl.
  - apply total_ret.
  - apply total_bind; [apply total_attempt |].
    intros [l'|e]; [apply IH | apply total_ret].
Qed.

Lemma total_for_of {A} (xs : list A) (body : A -> M unit) :
  (forall x, total (body x)) -> total (for_of xs body).
Proof.
  intros Hb. induction xs as [|x xs IH]; simpl.
  - apply total_ret.
  - apply total_bind; [apply Hb | intros _; exact IH].
Qed.

Lemma total_for_acc {A S} (xs : list A) (acc : S) (body : S -> A -> M S) :
  (forall acc x, total (body acc x)) -> total (for_acc xs acc body).
Proof.
  intros Hb. revert acc. induction xs as [|x xs IH]; intros acc; simpl.
  - apply total_ret.
  - apply total_bind; [apply Hb | intros acc'; apply IH].
Qed.

Ltac total_step :=
  cbv beta zeta; intros; cbv beta zeta;
  lazymatch goal with
  | |- total (ret _) => apply total_ret
  | |- total get => apply total_get
  | |- total (modify _) => apply total_modify
  | |- total (tell _) => apply total_tell
  | |- total (ask _) => apply total_ask
  | |- total (attempt _) => apply total_attempt
  | |- total (bind _ _) => apply total_bind
  | |- total (mbind _ _) => apply total_mbind
  | |- total (try_catch _ _) => apply total_try_catch
  | |- total (try_finally _ _) => apply total_try_finally
  | |- total (try_block _ _) => apply total_try_block
  | |- total (for_of _ _) => apply total_for_of
  | |- total (for_acc _ _ _) => apply total_for_acc
  | |- total (match ?x with _ => _ end) => destruct x
  | |- total _ => progress autounfold with model
  end.

(** * utils/helpers.js and the URL filter of brightDataService.js *)

Section Unique.
Import BrightData.

Lemma uniqueByUrl_cons seen r rest :
  uniqueByUrl seen (r :: rest) =
    if bool_decide (url r = []) || bool_decide (url r ∈ seen)
    then uniqueByUrl seen rest
    else r :: uniqueByUrl ({[url r]} ∪ seen) rest.
Proof. reflexivity. Qed.

Lemma uniqueByUrl_elem seen l x :
  x ∈ uniqueByUrl seen l -> x ∈ l /\ url x <> [] /\ url x ∉ seen.
Proof.
  revert seen. induction l as [|r rest IH]; intros seen; simpl.
  - intros Hx. inversion Hx.
  - destruct (bool_decide (url r = [])) eqn:He; simpl.
    { intros Hx. apply IH in Hx as (? & ? & ?). split; [by right | done]. }
    destruct (bool_decide (url r ∈ seen)) eqn:Hs; simpl.
    { intros Hx. apply IH in Hx as (? & ? & ?). split; [by right | done]. }
    apply bool_decide_eq_false in He, Hs.
    intros Hx. apply elem_of_cons in Hx as [Heq|Hx].
    + subst x. split; [by left | done].
    + apply IH in Hx as (? & ? & Hn). split; [by right |].
      split; [done | set_solver].
Qed.

Lemma uniqueByUrl_kept seen l r :
  r ∈ l -> url r <> [] -> url r ∉ seen ->
  url r ∈ map url (uniqueByUrl seen l).
Proof.
  revert seen. induction l as [|r0 rest IH]; intros seen Hin Hne Hns.
  - inversion Hin.
  - simpl.
    destruct (bool_decide (url r0 = [])) eqn:He; simpl.
    { apply bool_decide_eq_true in He.
      apply elem_of_cons in Hin as [Hr|Hin]; [by subst r0 | by apply IH]. }
    destruct (bool_decide (url r0 ∈ seen)) eqn:Hs; simpl.
    { apply bool_decide_eq_true in Hs.
      apply elem_of_cons in Hin as [Hr|Hin]; [by subst r0 | by apply IH]. }
    destruct (decide (url r = url r0)) as [Heq|Hneq].
    + rewrite Heq. by left.
    + right. apply elem_of_cons in Hin as [Hr|Hin]; [by subst r0 |].
      apply IH; [done | done | set_solver].
Qed.

Lemma uniqueByUrl_NoDup seen l : NoDup (map url (uniqueByUrl seen l)).
Proof.
  revert seen. induction l as [|r rest IH]; intros seen; simpl.
  - constructor.
  - destruct (bool_decide (url r = []) || bool_decide (url r ∈ seen));
      [apply IH |].
    simpl. constructor; [| apply IH].
    intros Hin. apply list_elem_of_fmap in Hin as (x & Hx & Hin).
    apply uniqueByUrl_elem in Hin as (_ & _ & Hn). set_solver.
Qed.

Lemma filter_url_absent (u : jsstring) (m : list SearchResult) :
  u ∉ map url m -> filter (fun x => url x = u) m = [].
Proof.
  induction m as [|x m IH]; intros Hn; [reflexivity |].
  rewrite filter_cons. destruct (decide (url x = u)) as [Heq|Hneq].
  - exfalso. apply Hn. rewrite <- Heq. simpl. by left.
  - apply IH. intros Hin. apply Hn. simpl. by right.
Qed.

Lemma one_entry_per_url (u : jsstring) (m : list SearchResult) :
  NoDup (map url m) -> u ∈ map url m ->
  length (filter (fun x => url x = u) m) = 1%nat.
Proof.
  induction m as [|x m IH]; intros Hnd Hin; [inversion Hin |].
  simpl in Hnd. apply NoDup_cons in Hnd as [Hx Hnd].
  rewrite filter_cons. destruct (decide (url x = u)) as [Heq|Hneq].
  - simpl. rewrite filter_url_absent; [reflexivity | by rewrite <- Heq].
  - apply IH; [done |]. simpl in Hin.
    apply elem_of_cons in Hin as [Heq|Hin]; [congruence | done].
Qed.

Lemma uniqueByUrl_all_seen seen l :
  Forall (fun r => url r = [] \/ url r ∈ seen) l -> uniqueByUrl seen l = [].
Proof.
  induction 1 as [|r rest [He|Hs] _ IH]; simpl; [reflexivity | |].
  - rewrite bool_decide_eq_true_2 by done. exact IH.
  - rewrite (bool_decide_eq_true_2 (url r ∈ seen)) by done.
    rewrite orb_true_r. exact IH.
Qed.

Lemma uniqueByUrl_app seen l1 l2 :
  uniqueByUrl seen (l1 ++ l2) =
    uniqueByUrl seen l1
    ++ uniqueByUrl (list_to_set (map url (uniqueByUrl seen l1)) ∪ seen) l2.
Proof.
  revert seen. induction l1 as [|r rest IH]; intros seen; simpl.
  - f_equal. set_solver.
  - destruct (bool_decide (url r = []) || bool_decide (url r ∈ seen));
      [apply IH |].
    rewrite IH. simpl. f_equal. f_equal. f_equal. set_solver.
Qed.

Lemma uniqueByUrl_idempotent seen l :
  uniqueByUrl seen (uniqueByUrl seen l) = uniqueByUrl seen l.
Proof.
  revert seen. induction l as [|r rest IH]; intros seen; simpl;
    [reflexivity |].
  destruct (bool_decide (url r = [])) eqn:He; simpl; [apply IH |].
  destruct (bool_decide (url r ∈ seen)) eqn:Hs; simpl; [apply IH |].
  rewrite He, Hs. simpl. by rewrite IH.
Qed.

Lemma uniqueByUrl_remerge l l' :
  Forall (fun r => url r = [] \/ url r ∈ map url l) l' ->
  uniqueByUrl ∅ (uniqueByUrl ∅ l ++ l') = uniqueByUrl ∅ l.
Proof.
  intros Hsub.
  rewrite (uniqueByUrl_app ∅ (uniqueByUrl ∅ l) l'), uniqueByUrl_idempotent.
  assert (uniqueByUrl (list_to_set (map url (uniqueByUrl ∅ l)) ∪ ∅) l' = [])
    as ->; [| apply app_nil_r].
  apply uniqueByUrl_all_seen.
  eapply Forall_impl; [exact Hsub |]. intros r [He|Hin]; [by left |].
  destruct (decide (url r = [])) as [?|Hne]; [by left | right].
  apply list_elem_of_fmap in Hin as (x & Hx & Hin).
  rewrite Hx in *. apply elem_of_union_l, elem_of_list_to_set.
  apply uniqueByUrl_kept; [done | done | set_solver].
Qed.
End Unique.

Import BrightData.

Lemma returns_try_block {L} (I : L -> Prop) (steps : list (L -> M L))
    (locals : L) :
  Forall (fun step => forall l, I l -> returns I (step l)) steps ->
  I locals ->
  returns (fun r => I (fst r)) (try_block steps locals).
Proof.
  intros Hs. revert locals.
  induction Hs as [|step rest Hstep _ IH]; intros locals Hl; simpl.
  - apply returns_ret. exact Hl.
  - intros w r. unfold bind, attempt.
    destruct (step locals w) as [[l'|e] w1 o1] eqn:Hrun; simpl.
    + intros Hr. eapply IH; [| exact Hr].
      eapply (Hstep locals Hl w). by rewrite Hrun.
    + intros [= <-]. exact Hl.
Qed.

Lemma searchRedditPainPoints_unique E niche :
  returns (fun results =>
             NoDup (map url results) /\ Forall (fun r => url r <> []) results)
          (searchRedditPainPoints E niche).
Proof.
  assert (forall l, NoDup (map url (uniqueByUrl ∅ l))
                    /\ Forall (fun r => url r <> []) (uniqueByUrl ∅ l)) as Hu.
  { intros l. split; [apply uniqueByUrl_NoDup |].
    apply Forall_forall. intros x Hx.
    by apply uniqueByUrl_elem in Hx as (_ & ? & _). }
  unfold searchRedditPainPoints. repeat returns_step; try apply Hu.
  split; constructor.
Qed.

(** * The graph state and its transitions *)

Import Orchestrator.

Lemma scoutNode_total E s : total (scoutNode E s).
Proof. repeat total_step. Qed.
Lemma brainNode_total E s : total (brainNode E s).
Proof. repeat total_step. Qed.
Lemma validateNode_total E s : total (validateNode E s).
Proof. repeat total_step. Qed.
Lemma briefNode_total E s : total (briefNode E s).
Proof. repeat total_step. Qed.

Lemma applyUpdate_errors s u :
  errors (applyUpdate s u) = errors s ++ default [] (u_errors u).
Proof.
  unfold applyUpdate, channel, accumulate; simpl.
  destruct (u_errors u); simpl; [reflexivity | by rewrite app_nil_r].
Qed.


(** The four phase transitions of a run of the graph: each node returns an
    update, which is merged before the next node starts. *)
Lemma graph_transitions E s w :
  exists u1 u2 u3 u4,
    let s1 := applyUpdate s u1 in
    let w1 := world (scoutNode E s w) in
    let s2 := applyUpdate s1 u2 in
    let w2 := world (brainNode E s1 w1) in
    let s3 := applyUpdate s2 u3 in
    let w3 := world (validateNode E s2 w2) in
    let s4 := applyUpdate s3 u4 in
    res (scoutNode E s w) = Ok u1 /\
    res (brainNode E s1 w1) = Ok u2 /\
    res (validateNode E s2 w2) = Ok u3 /\
    res (briefNode E s3 w3) = Ok u4 /\
    res (runNodes (graph E) s w) = Ok s4 /\
    world (runNodes (graph E) s w) = world (briefNode E s3 w3) /\
    out (runNodes (graph E) s w)
      = out (scoutNode E s w) ++ out (brainNode E s1 w1)
        ++ out (validateNode E s2 w2) ++ out (briefNode E s3 w3).
Proof.
  destruct (scoutNode_total E s w) as [u1 H1]. exists u1.
  destruct (brainNode_total E (applyUpdate s u1) (world (scoutNode E s w)))
    as [u2 H2]. exists u2.
  destruct (validateNode_total E (applyUpdate (applyUpdate s u1) u2)
              (world (brainNode E (applyUpdate s u1)
                        (world (scoutNode E s w)))))
    as [u3 H3]. exists u3.
  destruct (briefNode_total E
              (applyUpdate (applyUpdate (applyUpdate s u1) u2) u3)
              (world (validateNode E (applyUpdate (applyUpdate s u1) u2)
                        (world (brainNode E (applyUpdate s u1)
                                  (world (scoutNode E s w)))))))
    as [u4 H4]. exists u4.
  cbv zeta. unfold graph, runNodes, mbind, M_bind, bind, ret.
  rewrite H1; cbn [res world out]. rewrite H2; cbn [res world out].
  rewrite H3; cbn [res world out]. rewrite H4; cbn [res world out].
  rewrite app_nil_r. repeat split; reflexivity.
Qed.

(** C2.  Merging a node's update concatenates its [errors] after the ones
    already accumulated, so along the four phase transitions of a run of the
    graph each accumulated list extends the previous one and its length
    never decreases. *)
Theorem errors_only_grow E :
  (forall s u,
     errors (applyUpdate s u) = errors s ++ default [] (u_errors u))
  /\ (forall s w, exists u1 u2 u3 u4,
        let s1 := applyUpdate s u1 in
        let s2 := applyUpdate s1 u2 in
        let s3 := applyUpdate s2 u3 in
        let s4 := applyUpdate s3 u4 in
        res (runNodes (graph E) s w) = Ok s4
        /\ res (scoutNode E s w) = Ok u1
        /\ errors s `prefix_of` errors s1
        /\ errors s1 `prefix_of` errors s2
        /\ errors s2 `prefix_of` errors s3
        /\ errors s3 `prefix_of` errors s4
        /\ length (errors s) <= length (errors s1)
        /\ length (errors s1) <= length (errors s2)
        /\ length (errors s2) <= length (errors s3)
        /\ length (errors s3) <= length (errors s4)).
Proof.
  split; [apply applyUpdate_errors |].
  intros s w.
  destruct (graph_transitions E s w)
    as (u1 & u2 & u3 & u4 & H1 & _ & _ & _ & Hr & _).
  exists u1, u2, u3, u4. cbv zeta.
  split; [exact Hr |]. split; [exact H1 |].
  rewrite !applyUpdate_errors.
  repeat split; first [ by eexists | rewrite ?length_app; lia ].
Qed.

(** ** Running a computation one statement at a time *)

Lemma mbind_ok {A B} (c : M A) (k : A -> M B) w a w' o' :
  c w = mkOutcome (Ok a) w' o' -> (c ≫= k) w = prepend o' (k a w').
Proof. intros H. unfold mbind, M_bind, bind, prepend. by rewrite H. Qed.

Lemma mbind_throw {A B} (c : M A) (k : A -> M B) w e w' o' :
  c w = mkOutcome (Throw e) w' o' -> (c ≫= k) w = mkOutcome (Throw e) w' o'.
Proof. intros H. unfold mbind, M_bind, bind. by rewrite H. Qed.

Lemma prepend_mk {A} o (r : result A) w o' :
  prepend o (mkOutcome r w o') = mkOutcome r w (o ++ o').
Proof. reflexivity. Qed.

Lemma try_catch_ok {A} (c : M A) h w a w' o' :
  c w = mkOutcome (Ok a) w' o' -> try_catch c h w = mkOutcome (Ok a) w' o'.
Proof. intros H. unfold try_catch. by rewrite H. Qed.

Lemma try_catch_throw {A} (c : M A) h w e w' o' :
  c w = mkOutcome (Throw e) w' o' -> try_catch c h w = prepend o' (h e w').
Proof. intros H. unfold try_catch, prepend. by rewrite H. Qed.

Lemma try_finally_ok {A} (c : M A) f w r w' o' w'' o'' :
  c w = mkOutcome r w' o' -> f w' = mkOutcome (Ok tt) w'' o'' ->
  try_finally c f w = mkOutcome r w'' (o' ++ o'').
Proof.
  intros H1 H2. unfold try_finally. rewrite H1. cbn [world res out].
  by rewrite H2.
Qed.

Lemma callEmit_run E fn b w :
  callEmit E (Some fn) b w =
    mkOutcome (Ok tt) (set_tick S w)
      [OEmit (emit_emitter fn)
             (mkEvent b (Some (emit_runId fn)) (Some (Date_now E (tick w))))].
Proof. reflexivity. Qed.

Lemma get_run w : get w = mkOutcome (Ok w) w [].
Proof. reflexivity. Qed.

Lemma ask_run {A} (f : nat -> A) w :
  ask f w = mkOutcome (Ok (f (tick w))) (set_tick S w) [].
Proof. reflexivity. Qed.

Lemma log_run lvl tag msg d w :
  log lvl tag msg d w = mkOutcome (Ok tt) w [OLog lvl tag msg d].
Proof. reflexivity. Qed.

Lemma setActiveRun_run rid r w :
  setActiveRun rid r w =
    mkOutcome (Ok tt) (set_activeRuns (fun m => <[rid := r]> m) w)
              [OSetRun rid r].
Proof. reflexivity. Qed.

Lemma initTaskBlocks_run session w :
  Acontext.initTaskBlocks session w =
    mkOutcome (Ok tt)
      (set_taskState (fun m => <[session := length (taskHeap w)]> m)
         (set_taskHeap (fun h => h ++ [Acontext.taskBlocks]) w)) [].
Proof. reflexivity. Qed.

(** One statement whose outcome is known by computation. *)
Ltac run_prim :=
  first
    [ erewrite mbind_ok by apply callEmit_run
    | erewrite mbind_ok by apply get_run
    | erewrite mbind_ok by apply ask_run
    | erewrite mbind_ok by apply log_run
    | erewrite mbind_ok by apply setActiveRun_run
    | erewrite mbind_ok by apply initTaskBlocks_run ];
  cbv beta.

Lemma evproj_none {B} (f : EventBody -> option B) l :
  events l = [] -> evproj f l = [].
Proof.
  induction l as [|o l IH]; [reflexivity |].
  destruct o; cbn; [discriminate | exact IH | exact IH].
Qed.

Lemma closer_run E w :
  exists w' o',
    try_catch (BrightData.closeBrightData E) (fun _ => ret tt) w
      = mkOutcome (Ok tt) w' o'
    /\ events o' = []
    /\ activeRuns w' = activeRuns w
    /\ reportState w' = reportState w.
Proof.
  assert (total (try_catch (BrightData.closeBrightData E) (fun _ => ret tt)))
    as Ht by (repeat total_step).
  assert (obeys (quietly Some (fun w => (activeRuns w, reportState w)))
            (try_catch (BrightData.closeBrightData E) (fun _ => ret tt)))
    as Ho by obey_all.
  destruct (Ht w) as [[] Hr]. specialize (Ho w). destruct Ho as [He Hg].
  destruct (try_catch _ _ w) as [r w' o']; simpl in *. subst r.
  exists w', o'. split; [reflexivity |]. split; [exact He |].
  by apply pair_equal_spec in Hg.
Qed.

Lemma graph_invoke_total E input : total (graph_invoke E input).
Proof.
  intros w. unfold graph_invoke.
  destruct (graph_transitions E (applyUpdate defaultState input) w)
    as (u1 & u2 & u3 & u4 & _ & _ & _ & _ & Hr & _).
  eexists. exact Hr.
Qed.

Lemma bootstrap_quiet E niche session report :
  obeys (quietly Some llm_client) (Acontext.createSession E niche)
  /\ obeys (quietly Some llm_client)
           (Acontext.createLearningSpace E niche session)
  /\ obeys (quietly Some llm_client) (Acontext.writeReport E session report).
Proof. split; [obey_all |]. split; obey_all. Qed.

Lemma attempt_run {A} (c : M A) w r w' o' :
  c w = mkOutcome r w' o' -> attempt c w = mkOutcome (Ok r) w' o'.
Proof. intros H. unfold attempt. by rewrite H. Qed.

Lemma evproj_events {B} (f : EventBody -> option B) l :
  evproj f l = omap f (events l).
Proof.
  induction l as [|o l IH]; [reflexivity |].
  destruct o as [em ev| |]; cbn; [| exact IH | exact IH].
  fold (evproj f l). fold (events l). rewrite IH.
  by destruct (f (ev_body ev)).
Qed.

(** Once a session exists the Acontext client does. *)
Lemma createSession_client E niche w session w' o' :
  Acontext.createSession E niche w = mkOutcome (Ok session) w' o' ->
  acontext_client w' = true.
Proof.
  unfold Acontext.createSession, Acontext.getClient, log, call, tell, modify,
    throw, get, ret, mbind, M_bind, bind.
  cbn [res world out].
  destruct (acontext_client w) eqn:Hc; cbn [res world out].
  - destruct (sessions_create E (tick w)) as [sid|e]; cbn [res world out];
      [| intros [=]].
    destruct (sessions_storeMessage E _ sid); cbn [res world out];
      intros [= <- <- <-]; exact Hc.
  - destruct (ACONTEXT_API_KEY E); cbn [negb res world out]; [| intros [=]].
    destruct (sessions_create E _) as [sid|e]; cbn [res world out];
      [| intros [=]].
    destruct (sessions_storeMessage E _ sid); cbn [res world out];
      intros [= <- <- <-]; reflexivity.
Qed.

Lemma getClient_ready E w :
  acontext_client w = true ->
  Acontext.getClient E w = mkOutcome (Ok tt) w [].
Proof.
  intros Hc. unfold Acontext.getClient.
  erewrite mbind_ok by apply get_run. cbv beta. by rewrite Hc.
Qed.

(** With the client at hand [createLearningSpace] never throws. *)
Lemma createLearningSpace_total E niche session w :
  acontext_client w = true ->
  exists space, res (Acontext.createLearningSpace E niche session w) = Ok space.
Proof.
  intros Hc. unfold Acontext.createLearningSpace.
  erewrite mbind_ok by (apply getClient_ready; exact Hc). cbv beta.
  unfold prepend. cbn [res].
  apply total_try_catch. intros e. repeat total_step.
Qed.

Lemma runGraph_try_cases E rid niche em w :
  let fn := mkEmitFn em rid in
  (exists err wf pre,
     runGraph_try E rid niche em w = mkOutcome (Throw err) wf pre
     /\ evproj after_bootstrap pre = []
     /\ (res (Acontext.createSession E niche (set_tick S w)) = Throw err
         \/ (exists session space wr,
               res (Acontext.writeReport E session
                      (bootReport rid niche session space) wr) = Throw err)))
  \/ (exists session space ws wc oc w0 final wg og pre blocks,
        let record :=
          withStatus (getActiveRun wg rid)
            (if (0 <? length (errors final))%nat
             then complete_with_warnings else complete)
            (Some session) in
        graph_invoke E (graphInput rid niche session space fn) w0
          = mkOutcome (Ok final) wg og
        /\ runGraph_try E rid niche em w
           = mkOutcome (Ok tt)
               (set_tick S (set_tick S
                  (set_activeRuns (fun m => <[rid := record]> m) wg)))
               (pre ++ og
                ++ [OLog lsuccess TAG "Graph completed for run" (Some rid);
                    OSetRun rid record;
                    OEmit em
                      (mkEvent
                         (ev_done (Some session)
                            (Some (length (errors final)))
                            ((fun startedAt =>
                                Date_now E (tick wg) - startedAt)%Z
                               <$> run_startedAt record))
                         (Some rid) (Some (Date_now E (S (tick wg)))))])
        /\ acontext_client ws = true
        /\ Acontext.createLearningSpace E niche session ws
           = mkOutcome (Ok space) wc oc
        /\ (forall x, x ∈ oc -> x ∈ pre)
        /\ events pre = [run_start niche; session_created session space blocks]
        /\ llm_client w0 = llm_client w).
Proof.
  cbv zeta. unfold runGraph_try. cbv zeta.
  run_prim.
  (* createSession *)
  pose proof (proj1 (bootstrap_quiet E niche [] emptyReport) (set_tick S w))
    as [Es Ls].
  destruct (Acontext.createSession E niche (set_tick S w))
    as [[session|err] wb ob] eqn:Hsess; cbn [world out] in Es, Ls.
  2:{ left. exists err, wb, ([OEmit em (mkEvent (run_start niche) (Some rid)
                                (Some (Date_now E (tick w))))] ++ ob).
      erewrite mbind_throw by exact Hsess. rewrite prepend_mk.
      split; [reflexivity |]. split; [| by left].
      rewrite evproj_app. cbn. by apply evproj_none. }
  erewrite mbind_ok by exact Hsess. cbv beta.
  (* createLearningSpace *)
  pose proof (proj1 (proj2 (bootstrap_quiet E niche session emptyReport)) wb)
    as [Ec Lc].
  destruct (Acontext.createLearningSpace E niche session wb)
    as [[space|err] wc oc] eqn:Hspace; cbn [world out] in Ec, Lc.
  2:{ destruct (createLearningSpace_total E niche session wb
                  (createSession_client _ _ _ _ _ _ Hsess)) as [space Hs].
      rewrite Hspace in Hs. discriminate Hs. }
  erewrite mbind_ok by exact Hspace. cbv beta.
  run_prim. run_prim. run_prim.
  (* writeReport *)
  match goal with
  | |- context [Acontext.writeReport E session ?r ≫= _] =>
      match goal with
      | |- context [mbind _ (Acontext.writeReport E session r) ?w1] =>
          pose proof (proj2 (proj2 (bootstrap_quiet E niche session r)) w1)
            as [Er Lr];
          destruct (Acontext.writeReport E session r w1)
            as [[stored|err] w0 or] eqn:Hwrite
      end
  end; cbn [world out] in Er, Lr.
  2:{ left. exists err, w0. eexists.
      erewrite mbind_throw by exact Hwrite. rewrite !prepend_mk.
      split; [reflexivity |]. split.
      - rewrite !evproj_app. cbn.
        by rewrite (evproj_none _ ob), (evproj_none _ oc), (evproj_none _ or).
      - right. eexists session, space, _. by rewrite Hwrite. }
  erewrite mbind_ok by exact Hwrite. cbv beta.
  (* graph.invoke *)
  destruct (graph_invoke_total E
              (graphInput rid niche session space (mkEmitFn em rid)) w0)
    as [final Hfinal].
  destruct (graph_invoke E
              (graphInput rid niche session space (mkEmitFn em rid)) w0)
    as [rg wg og] eqn:Hg.
  cbn [res] in Hfinal. subst rg.
  erewrite mbind_ok by exact Hg. cbv beta.
  run_prim. run_prim. run_prim. run_prim. run_prim.
  rewrite callEmit_run, !prepend_mk.
  right.
  match type of Hwrite with
  | Acontext.writeReport _ _ _ (set_tick S ?w1) = _ => set (wd := w1) in *
  end.
  exists session, space, wb, wc, oc, w0, final, wg, og.
  exists ([OEmit em (mkEvent (run_start niche) (Some rid)
                       (Some (Date_now E (tick w))))]
          ++ ob ++ oc
          ++ [OEmit em
                (mkEvent
                   (session_created session space
                      (Acontext.readArr wd
                         (Acontext.getTaskBlocks wd session)))
                   (Some rid) (Some (Date_now E (tick wd))))]
          ++ or),
         (Acontext.readArr wd (Acontext.getTaskBlocks wd session)).
  split; [exact Hg |].
  split.
  { f_equal; unfold getActiveRun;
      cbn [emit_emitter emit_runId activeRuns set_activeRuns set_tick tick];
      rewrite ?app_nil_l, <- ?app_assoc, ?lookup_insert_eq; reflexivity. }
  split; [exact (createSession_client _ _ _ _ _ _ Hsess) |].
  split; [exact Hspace |].
  split; [intros x Hx; rewrite !elem_of_app; auto |].
  split.
  { unfold events in *. rewrite !evproj_app. cbn.
    rewrite Es, Ec, Er. reflexivity. }
  rewrite Lr. cbn. by rewrite Lc, Ls.
Qed.

(** ** The two ways a run ends *)

Lemma runTask_cases E t w :
  let rid := task_runId t in
  let niche := task_niche t in
  let em := task_emitter t in
  let fn := mkEmitFn em rid in
  (exists err wf pre w' post,
     (res (Acontext.createSession E niche (set_tick S w)) = Throw err
      \/ (exists session space wr,
            res (Acontext.writeReport E session
                   (bootReport rid niche session space) wr) = Throw err))
     /\ let record := withStatus (getActiveRun wf rid) error None in
        runTask E t w
        = mkOutcome (Ok tt) w'
            (pre
             ++ [OLog lerror TAG "Graph fatal error" (Some err);
                 OEmit em (mkEvent (ev_error err) (Some rid)
                             (Some (Date_now E (tick wf))));
                 OEmit em (mkEvent (ev_done None None None) (Some rid)
                             (Some (Date_now E (S (tick wf)))));
                 OSetRun rid record]
             ++ post)
        /\ evproj after_bootstrap pre = []
        /\ events post = []
        /\ activeRuns w' = <[rid := record]> (activeRuns wf))
  \/ (exists session space ws wc oc w0 final wg og pre blocks w' post,
        let record :=
          withStatus (getActiveRun wg rid)
            (if (0 <? length (errors final))%nat
             then complete_with_warnings else complete)
            (Some session) in
        graph_invoke E (graphInput rid niche session space fn) w0
          = mkOutcome (Ok final) wg og
        /\ runTask E t w
           = mkOutcome (Ok tt) w'
               (pre ++ og
                ++ [OLog lsuccess TAG "Graph completed for run" (Some rid);
                    OSetRun rid record;
                    OEmit em
                      (mkEvent
                         (ev_done (Some session)
                            (Some (length (errors final)))
                            ((fun startedAt =>
                                Date_now E (tick wg) - startedAt)%Z
                               <$> run_startedAt record))
                         (Some rid) (Some (Date_now E (S (tick wg)))))]
                ++ post)
        /\ acontext_client ws = true
        /\ Acontext.createLearningSpace E niche session ws
           = mkOutcome (Ok space) wc oc
        /\ (forall x, x ∈ oc -> x ∈ pre)
        /\ events pre = [run_start niche; session_created session space blocks]
        /\ events post = []
        /\ llm_client w0 = llm_client w
        /\ activeRuns w' = <[rid := record]> (activeRuns wg)
        /\ reportState w' = reportState wg).
Proof.
  cbv zeta. destruct t as [rid niche em]. cbn [task_runId task_niche task_emitter].
  unfold runTask, runGraph. cbn [task_runId task_niche task_emitter].
  destruct (runGraph_try_cases E rid niche em w)
    as [(err & wf & pre & Htry & Hpre & Hwhy)
       |(session & space & ws & wc & oc & w0 & final & wg & og & pre & blocks
         & Hg & Htry & Hclient & Hspace & Hin & Hev & Hllm)];
    cbv zeta in *.
  - left.
    assert (runGraph_catch E rid em err wf
            = mkOutcome (Ok tt)
                (set_activeRuns
                   (fun m => <[rid := withStatus (getActiveRun wf rid) error
                                        None]> m)
                   (set_tick S (set_tick S wf)))
                [OLog lerror TAG "Graph fatal error" (Some err);
                 OEmit em (mkEvent (ev_error err) (Some rid)
                             (Some (Date_now E (tick wf))));
                 OEmit em (mkEvent (ev_done None None None) (Some rid)
                             (Some (Date_now E (S (tick wf)))));
                 OSetRun rid (withStatus (getActiveRun wf rid) error None)])
      as Hcatch.
    { unfold runGraph_catch. run_prim. run_prim. run_prim. run_prim.
      rewrite setActiveRun_run, !prepend_mk. reflexivity. }
    match type of Hcatch with _ = mkOutcome _ ?wc _ =>
      destruct (closer_run E wc) as (w' & post & Hclose & Hpost & Hact & _)
    end.
    exists err, wf, pre, w', post.
    split; [exact Hwhy |].
    split.
    + apply try_catch_ok.
      erewrite try_finally_ok;
        [| erewrite try_catch_throw by exact Htry;
           rewrite Hcatch, prepend_mk; reflexivity
         | exact Hclose].
      by rewrite <- !app_assoc.
    + split; [exact Hpre |]. split; [exact Hpost |]. exact Hact.
  - right.
    match type of Htry with _ = mkOutcome _ ?wc _ =>
      destruct (closer_run E wc) as (w' & post & Hclose & Hpost & Hact & Hrep)
    end.
    exists session, space, ws, wc, oc, w0, final, wg, og, pre, blocks, w', post.
    split; [exact Hg |].
    split.
    { apply try_catch_ok.
      erewrite try_finally_ok;
        [| apply try_catch_ok; exact Htry | exact Hclose].
      by rewrite <- !app_assoc. }
    split; [exact Hclient |]. split; [exact Hspace |].
    split; [exact Hin |]. split; [exact Hev |]. split; [exact Hpost |].
    split; [exact Hllm |]. split; [exact Hact |]. exact Hrep.
Qed.

(** ** Counting the events of a computation *)

Lemma emits_ret {A B} (f : EventBody -> option B) (a : A) :
  emits f [] (ret a).
Proof. split; [apply total_ret | reflexivity]. Qed.

Lemma emits_mbind {A B C} (f : EventBody -> option C) l1 l2 l
    (c : M A) (k : A -> M B) :
  emits f l1 c -> (forall a, emits f l2 (k a)) -> l1 ++ l2 = l ->
  emits f l (c ≫= k).
Proof.
  intros [Tc Hc] Hk <-. split.
  - apply total_mbind; [exact Tc | intros a; apply Hk].
  - intros w. destruct (Tc w) as [a Ha]. specialize (Hc w).
    destruct (c w) as [r w1 o1] eqn:Hcw. cbn [res out] in *. subst r.
    rewrite (mbind_ok _ _ _ _ _ _ Hcw). unfold prepend. cbn [out].
    rewrite evproj_app, Hc. f_equal. apply Hk.
Qed.

Lemma emits_quiet {A B} (f : EventBody -> option B) (c : M A) :
  total c -> obeys (quietly f (fun _ => tt)) c -> emits f [] c.
Proof. intros Tc Hc. split; [exact Tc | intros w; apply (Hc w)]. Qed.

Lemma emits_callEmit {B} E fn b (f : EventBody -> option B) :
  emits f (option_list (f b)) (callEmit E (Some fn) b).
Proof.
  split; [intros w; by eexists |]. intros w. rewrite callEmit_run.
  cbn. by destruct (f b).
Qed.

Ltac emits_step :=
  cbv beta zeta; intros; cbv beta zeta;
  lazymatch goal with
  | |- emits _ _ (ret _) => apply emits_ret
  | |- emits _ _ (callEmit _ (Some _) _) => apply emits_callEmit
  | |- emits _ _ (mbind _ _) => eapply emits_mbind
  | |- emits _ _ (match ?x with _ => _ end) => destruct x
  | |- emits _ _ _ =>
      apply emits_quiet; [solve [repeat total_step] | solve [obey_all]]
  | |- _ ++ _ = _ => cbn; reflexivity
  end.

Lemma graph_no_terminal E input :
  obeys (quietly is_terminal (fun _ => tt)) (graph_invoke E input).
Proof. obey_all. Qed.

Lemma briefNode_no_phase_complete E s :
  obeys (quietly is_phase_complete (fun _ => tt)) (briefNode E s).
Proof. obey_all. Qed.

Lemma scoutNode_phases E s fn :
  emit s = Some fn ->
  emits is_phase_start [scout] (scoutNode E s)
  /\ emits is_phase_complete [scout] (scoutNode E s).
Proof.
  intros Hfn. unfold scoutNode. rewrite Hfn. split; repeat emits_step.
Qed.

Lemma brainNode_phases E s fn :
  emit s = Some fn ->
  emits is_phase_start [brain] (brainNode E s)
  /\ emits is_phase_complete [brain] (brainNode E s).
Proof.
  intros Hfn. unfold brainNode. rewrite Hfn. split; repeat emits_step.
Qed.

Lemma validateNode_phases E s fn :
  emit s = Some fn ->
  emits is_phase_start [validate] (validateNode E s)
  /\ emits is_phase_complete [validate] (validateNode E s).
Proof.
  intros Hfn. unfold validateNode. rewrite Hfn. split; repeat emits_step.
Qed.

Lemma briefNode_phases E s fn :
  emit s = Some fn ->
  emits is_phase_start [brief] (briefNode E s)
  /\ emits is_phase_complete [] (briefNode E s).
Proof.
  intros Hfn. unfold briefNode. rewrite Hfn. split; repeat emits_step.
Qed.

(** The nodes write neither the [emit] nor the [sessionId] channel. *)
Lemma nodes_keep_channels E s :
  Forall (fun node =>
            returns (fun u => u_emit u = None /\ u_sessionId u = None)
                    (node s))
         (graph E).
Proof.
  unfold graph.
  repeat (apply Forall_cons_2;
    [repeat returns_step; cbv beta; split; reflexivity |]).
  constructor.
Qed.

Lemma applyUpdate_channels s u :
  u_emit u = None /\ u_sessionId u = None ->
  emit (applyUpdate s u) = emit s
  /\ sessionId (applyUpdate s u) = sessionId s.
Proof. intros [H1 H2]. unfold applyUpdate. cbn. by rewrite H1, H2. Qed.

(** The states the four nodes of a run start from, with what joins them. *)
Lemma graph_run E rid niche session space fn w :
  let input := graphInput rid niche session space fn in
  exists s0 s1 s2 s3 u1 u2 u3 u4 w1 w2 w3,
    Forall (fun s => emit s = Some fn /\ sessionId s = session)
           [s0; s1; s2; s3]
    /\ res (scoutNode E s0 w) = Ok u1 /\ w1 = world (scoutNode E s0 w)
    /\ res (brainNode E s1 w1) = Ok u2 /\ w2 = world (brainNode E s1 w1)
    /\ res (validateNode E s2 w2) = Ok u3
    /\ w3 = world (validateNode E s2 w2)
    /\ res (briefNode E s3 w3) = Ok u4
    /\ s1 = applyUpdate s0 u1 /\ s2 = applyUpdate s1 u2
    /\ s3 = applyUpdate s2 u3
    /\ res (graph_invoke E input w) = Ok (applyUpdate s3 u4)
    /\ world (graph_invoke E input w) = world (briefNode E s3 w3)
    /\ out (graph_invoke E input w)
       = out (scoutNode E s0 w) ++ out (brainNode E s1 w1)
         ++ out (validateNode E s2 w2) ++ out (briefNode E s3 w3).
Proof.
  cbv zeta. unfold graph_invoke.
  set (s0 := applyUpdate defaultState _).
  destruct (graph_transitions E s0 w)
    as (u1 & u2 & u3 & u4 & H1 & H2 & H3 & H4 & Hr & Hw & Ho).
  cbv zeta in *.
  pose proof (nodes_keep_channels E s0) as K0.
  pose proof (nodes_keep_channels E (applyUpdate s0 u1)) as K1.
  pose proof (nodes_keep_channels E (applyUpdate (applyUpdate s0 u1) u2))
    as K2.
  unfold graph in K0, K1, K2.
  apply Forall_cons_1 in K0 as [K0 _].
  apply Forall_cons_1 in K1 as [_ K1]. apply Forall_cons_1 in K1 as [K1 _].
  apply Forall_cons_1 in K2 as [_ K2]. apply Forall_cons_1 in K2 as [_ K2].
  apply Forall_cons_1 in K2 as [K2 _].
  pose proof (applyUpdate_channels s0 u1 (K0 _ _ H1)) as [E1 S1].
  pose proof (applyUpdate_channels (applyUpdate s0 u1) u2 (K1 _ _ H2))
    as [E2 S2].
  pose proof (applyUpdate_channels (applyUpdate (applyUpdate s0 u1) u2) u3
                (K2 _ _ H3)) as [E3 S3].
  exists s0, (applyUpdate s0 u1), (applyUpdate (applyUpdate s0 u1) u2),
    (applyUpdate (applyUpdate (applyUpdate s0 u1) u2) u3), u1, u2, u3, u4.
  do 3 eexists.
  assert (emit s0 = Some fn) as A0 by reflexivity.
  assert (sessionId s0 = session) as B0 by reflexivity.
  split; [repeat (apply Forall_cons_2 || apply Forall_nil_2); split;
          congruence |].
  repeat (split; [first [reflexivity | eassumption] |]). exact Ho.
Qed.

Lemma graph_phases E rid niche session space fn w :
  let o := graph_invoke E (graphInput rid niche session space fn) w in
  evproj is_phase_start (out o) = [scout; brain; validate; brief]
  /\ evproj is_phase_complete (out o) = [scout; brain; validate].
Proof.
  cbv zeta.
  destruct (graph_run E rid niche session space fn w)
    as (s0 & s1 & s2 & s3 & u1 & u2 & u3 & u4 & w1 & w2 & w3 & Hs & _ & _
        & _ & _ & _ & _ & _ & _ & _ & _ & _ & _ & Ho).
  rewrite Ho, !evproj_app.
  apply Forall_cons_1 in Hs as [[A0 _] Hs].
  apply Forall_cons_1 in Hs as [[A1 _] Hs].
  apply Forall_cons_1 in Hs as [[A2 _] Hs].
  apply Forall_cons_1 in Hs as [[A3 _] _].
  destruct (scoutNode_phases E s0 fn A0) as [[_ P0] [_ Q0]].
  destruct (brainNode_phases E s1 fn A1) as [[_ P1] [_ Q1]].
  destruct (validateNode_phases E s2 fn A2) as [[_ P2] [_ Q2]].
  destruct (briefNode_phases E s3 fn A3) as [[_ P3] [_ Q3]].
  by rewrite !P0, !P1, !P2, !P3, !Q0, !Q1, !Q2, !Q3.
Qed.

(** * services/agentOrchestrator.js: a run *)

Lemma evproj_refine {B C} (f : EventBody -> option B)
    (g : EventBody -> option C) l :
  (forall b, f b = None -> g b = None) ->
  evproj f l = [] -> evproj g l = [].
Proof.
  intros Hfg. induction l as [|o l IH]; [reflexivity |].
  destruct o as [em ev| |]; cbn; [| exact IH | exact IH].
  fold (evproj f l). fold (evproj g l).
  destruct (f (ev_body ev)) eqn:Hf; [discriminate |].
  rewrite (Hfg _ Hf). exact IH.
Qed.

Lemma bootstrap_not_terminal b :
  after_bootstrap b = None -> is_terminal b = None.
Proof. by destruct b. Qed.

(** C1.  Whatever the providers answer, the promise of a run settles without
    an exception and the run's emitter has carried exactly one [done], as
    its last event: after no other terminal event on the success path, and
    right after the one [error] event on the fatal path. *)
Theorem exactly_one_done E t w :
  let o := runTask E t w in
  res o = Ok tt
  /\ evproj is_done (out o) = [tt]
  /\ exists before sessionId warnings durationMs,
       events (out o) = before ++ [ev_done sessionId warnings durationMs]
       /\ (omap is_terminal before = []
           \/ exists err earlier,
                before = earlier ++ [ev_error err]
                /\ omap is_terminal earlier = []).
Proof.
  cbv zeta.
  destruct (runTask_cases E t w)
    as [(err & wf & pre & w' & post & _ & Hrun & Hpre & Hpost & _)
       |(session & space & ws & wc & oc & w0 & final & wg & og & pre & blocks
         & w' & post & Hg & Hrun & _ & _ & _ & Hev & Hpost & _)];
    cbv zeta in *; rewrite Hrun; cbn [res out].
  - pose proof (evproj_refine _ is_terminal pre bootstrap_not_terminal Hpre)
      as Hterm.
    split; [reflexivity |].
    split.
    + rewrite !evproj_app, (evproj_none is_done post Hpost).
      rewrite (evproj_refine is_terminal is_done pre); [reflexivity | | exact Hterm].
      by intros [].
    + exists (events pre ++ [ev_error err]), None, None, None.
      split.
      * unfold events in *. rewrite !evproj_app, Hpost. cbn.
        by rewrite <- app_assoc.
      * right. exists err, (events pre). split; [reflexivity |].
        by rewrite <- evproj_events.
  - pose proof (graph_no_terminal E
                  (graphInput (task_runId t) (task_niche t) session space
                     (mkEmitFn (task_emitter t) (task_runId t))) w0)
      as [Hterm _].
    rewrite Hg in Hterm. cbn [out] in Hterm.
    split; [reflexivity |].
    split.
    + rewrite !evproj_app, (evproj_none is_done post Hpost).
      rewrite (evproj_events is_done pre), Hev.
      rewrite (evproj_refine is_terminal is_done og); [reflexivity | | exact Hterm].
      by intros [].
    + eexists (events pre ++ events og), _, _, _.
      split.
      * unfold events in *. rewrite !evproj_app, Hpost. cbn.
        rewrite <- app_assoc. reflexivity.
      * left. rewrite omap_app, <- (evproj_events is_terminal og), Hterm.
        by rewrite Hev.
Qed.

(** C3.  A run that gets past the bootstrap ends after the Brief phase with
    a status read off the accumulated errors alone: [complete] exactly when
    the list is empty, [complete_with_warnings] otherwise.  The record is
    set first, and the [done] event that follows carries the time elapsed
    since the run's [startedAt]; nothing is emitted after it.  The other
    runs are the fatal ones, which start no phase. *)
Theorem final_status_from_errors E t w :
  let rid := task_runId t in
  let o := runTask E t w in
  (exists err,
     evproj is_error (out o) = [err]
     /\ evproj is_phase_start (out o) = []
     /\ (run_status <$> getActiveRun (world o) rid) = Some error)
  \/ (exists session space w0 final wg og before after record,
        graph_invoke E
          (graphInput rid (task_niche t) session space
             (mkEmitFn (task_emitter t) rid)) w0
          = mkOutcome (Ok final) wg og
        /\ evproj is_phase_start og = [scout; brain; validate; brief]
        /\ out o
           = before ++ og
             ++ [OLog lsuccess TAG "Graph completed for run" (Some rid);
                 OSetRun rid record;
                 OEmit (task_emitter t)
                   (mkEvent
                      (ev_done (Some session) (Some (length (errors final)))
                         ((fun startedAt =>
                             Date_now E (tick wg) - startedAt)%Z
                            <$> (getActiveRun wg rid ≫= run_startedAt)))
                      (Some rid) (Some (Date_now E (S (tick wg)))))]
             ++ after
        /\ events after = []
        /\ getActiveRun (world o) rid = Some record
        /\ run_status record
           = match errors final with
             | [] => complete
             | _ :: _ => complete_with_warnings
             end
        /\ (run_status record = complete <-> errors final = [])).
Proof.
  cbv zeta.
  destruct (runTask_cases E t w)
    as [(err & wf & pre & w' & post & _ & Hrun & Hpre & Hpost & Hact)
       |(session & space & ws & wc & oc & w0 & final & wg & og & pre & blocks
         & w' & post & Hg & Hrun & _ & _ & _ & Hev & Hpost & _ & Hact & _)];
    cbv zeta in *; rewrite Hrun; cbn [res out world].
  - left. exists err. split; [| split].
    + rewrite !evproj_app, (evproj_none is_error post Hpost).
      rewrite (evproj_refine after_bootstrap is_error pre);
        [reflexivity | by intros [] | exact Hpre].
    + rewrite !evproj_app, (evproj_none is_phase_start post Hpost).
      rewrite (evproj_refine after_bootstrap is_phase_start pre);
        [reflexivity | by intros [] | exact Hpre].
    + unfold getActiveRun. rewrite Hact, lookup_insert_eq. reflexivity.
  - right. exists session, space, w0, final, wg, og, pre, post. eexists.
    split; [exact Hg |].
    split.
    { pose proof (graph_phases E (task_runId t) (task_niche t) session space
                    (mkEmitFn (task_emitter t) (task_runId t)) w0) as [Hp _].
      rewrite Hg in Hp. exact Hp. }
    split; [reflexivity |].
    split; [exact Hpost |].
    split; [unfold getActiveRun; by rewrite Hact, lookup_insert_eq |].
    cbn [run_status withStatus].
    destruct (errors final); cbn; split; try reflexivity;
      split; intros; congruence.
Qed.

(** C5.  The Brief node never emits [phase_complete], whatever state it
    runs in and however its work ends; a run of the graph therefore starts
    four phases and completes three.  Scout, Brain and Validate emit both
    events on every execution. *)
Theorem brief_phase_never_completes E :
  (forall s w, evproj is_phase_complete (out (briefNode E s w)) = [])
  /\ (forall rid niche session space fn w,
        let o := graph_invoke E (graphInput rid niche session space fn) w in
        evproj is_phase_start (out o) = [scout; brain; validate; brief]
        /\ evproj is_phase_complete (out o) = [scout; brain; validate]).
Proof.
  split.
  - intros s w. apply (briefNode_no_phase_complete E s w).
  - intros. apply graph_phases.
Qed.

(** * The report of a run *)

Lemma bind_assoc {A B C} (c : M A) (k1 : A -> M B) (k : B -> M C) w :
  (bind c k1 ≫= k) w = (c ≫= (fun a => k1 a ≫= k)) w.
Proof.
  unfold mbind, M_bind, bind.
  destruct (c w) as [[a|e] w1 o1]; cbn [res world out]; [| reflexivity].
  destruct (k1 a w1) as [[b|e] w2 o2]; cbn [res world out]; [| reflexivity].
  by rewrite app_assoc.
Qed.

Lemma attempt_bind {A B} (c : M A) (k : result A -> M B) w r w' o' :
  c w = mkOutcome r w' o' -> (attempt c ≫= k) w = prepend o' (k r w').
Proof. intros H. apply mbind_ok, attempt_run, H. Qed.

Lemma stored_payload_prepend {A} sid o1 (r : Outcome A) :
  evproj is_report_ready o1 = [] ->
  stored_payload sid r -> stored_payload sid (prepend o1 r).
Proof.
  unfold stored_payload, prepend. cbn [res world out]. intros H.
  rewrite evproj_app, H. exact id.
Qed.

Lemma stored_payload_quiet {A} sid (c : M A) w :
  obeys (quietly is_report_ready (fun _ => tt)) c -> stored_payload sid (c w).
Proof. intros H. left. apply (H w). Qed.

(** Run the first statement of the sequence, which emits no report. *)
Ltac peel :=
  cbv beta;
  lazymatch goal with
  | |- stored_payload _ (mbind ?k ?c ?w) =>
      let Q := fresh "Q" in
      let H := fresh "H" in
      assert (obeys (quietly is_report_ready (fun _ => tt)) c) as Q
        by obey_all;
      specialize (Q w); destruct Q as [Q _];
      destruct (c w) as [[?|?] ? ?] eqn:H; cbn [out] in Q;
      [ rewrite (mbind_ok _ _ _ _ _ _ H); cbv beta;
        apply stored_payload_prepend; [exact Q |]; clear H Q
      | rewrite (mbind_throw _ _ _ _ _ _ H); left; exact Q ]
  end.

Lemma reportView_state w1 w2 sid :
  reportState w1 = reportState w2 -> reportView w1 sid = reportView w2 sid.
Proof.
  unfold reportState, reportView, Acontext.readReport, Acontext.toJSON.
  intros [= Hs Hh]. rewrite Hs.
  destruct (reportStore w2 !! sid) as [r|]; [| reflexivity]. cbn.
  do 2 f_equal. destruct (rep_taskBlocks r) as [[loc|]|]; cbn;
    by rewrite ?Hh.
Qed.

Lemma briefNode_report E s w :
  stored_payload (sessionId s) (briefNode E s w).
Proof.
  unfold briefNode. cbv zeta.
  peel. peel. peel. peel.
  cbn [try_block]. rewrite bind_assoc.
  peel.
  lazymatch goal with
  | |- stored_payload _ (mbind _ (match ?r with _ => _ end) _) =>
      destruct r as [brief|err]
  end; [| apply stored_payload_quiet; obey_all].
  rewrite bind_assoc.
  lazymatch goal with
  | |- stored_payload ?sid (mbind ?k (attempt ?c) ?w) =>
      assert (stored_payload sid (c w)) as Hbody
  end.
  { peel. peel. peel. peel. peel. peel. peel. peel.
    destruct (emit s) as [fn|].
    - run_prim. run_prim. run_prim. unfold ret at 1. rewrite !prepend_mk.
      right. split; [by eexists |]. reflexivity.
    - apply stored_payload_quiet. obey_all. }
  lazymatch goal with
  | |- stored_payload ?sid (mbind ?k (attempt ?c) ?w) =>
      destruct (c w) as [r' w' o'] eqn:Hc;
      rewrite (attempt_bind _ _ _ _ _ _ Hc)
  end.
  cbv beta.
  unfold stored_payload in Hbody. simpl in Hbody.
  destruct Hbody as [Hq | [[result Hr] Hev]].
  - apply stored_payload_prepend; [exact Hq |].
    destruct r'; apply stored_payload_quiet; obey_all.
  - subst r'. right. cbn. rewrite !app_nil_r.
    split; [by eexists | exact Hev].
Qed.

Lemma early_nodes_no_report E s :
  obeys (quietly is_report_ready (fun _ => tt)) (scoutNode E s)
  /\ obeys (quietly is_report_ready (fun _ => tt)) (brainNode E s)
  /\ obeys (quietly is_report_ready (fun _ => tt)) (validateNode E s).
Proof. split; [obey_all |]. split; obey_all. Qed.

(** C9.  The payload of a [report_ready] event is what [readReport] gives
    for the session once the Brief node has returned, and still at the end
    of the run, where GET /report/:runId answers with it: nothing writes the
    report store or the task blocks after the payload is read. *)
Theorem report_ready_round_trip E t w :
  let rid := task_runId t in
  let o := runTask E t w in
  (forall s w0, stored_payload (sessionId s) (briefNode E s w0))
  /\ (evproj is_report_ready (out o) = []
      \/ exists session,
           evproj is_report_ready (out o) = [reportView (world o) session]
           /\ (getActiveRun (world o) rid ≫= run_sessionId) = Some session
           /\ res (Routes.get_report rid (world o))
              = Ok (match reportView (world o) session with
                    | Some json => Routes.mkResponse 200 (Routes.json_report json)
                    | None =>
                        Routes.mkResponse 404
                          (Routes.json_error (js "Report not yet available"))
                    end)).
Proof.
  cbv zeta. split; [intros; apply briefNode_report |].
  destruct (runTask_cases E t w)
    as [(err & wf & pre & w' & post & _ & Hrun & Hpre & Hpost & Hact)
       |(session & space & ws & wc & oc & w0 & final & wg & og & pre & blocks
         & w' & post & Hg & Hrun & _ & _ & _ & Hev & Hpost & _ & Hact & Hrep)];
    cbv zeta in *; rewrite Hrun; cbn [res out world].
  { left. rewrite !evproj_app, (evproj_none is_report_ready post Hpost).
    rewrite (evproj_refine after_bootstrap is_report_ready pre);
      [reflexivity | by intros [] | exact Hpre]. }
  destruct (graph_run E (task_runId t) (task_niche t) session space
              (mkEmitFn (task_emitter t) (task_runId t)) w0)
    as (s0 & s1 & s2 & s3 & u1 & u2 & u3 & u4 & w1 & w2 & w3 & Hs & _ & ->
        & _ & -> & _ & -> & _ & _ & _ & _ & _ & Hw & Ho).
  rewrite Hg in Hw, Ho. cbn [world out] in Hw, Ho.
  apply Forall_cons_1 in Hs as [_ Hs]. apply Forall_cons_1 in Hs as [_ Hs].
  apply Forall_cons_1 in Hs as [_ Hs].
  apply Forall_cons_1 in Hs as [[_ Hsid] _].
  destruct (early_nodes_no_report E s0) as [Q0 _].
  destruct (early_nodes_no_report E s1) as (_ & Q1 & _).
  destruct (early_nodes_no_report E s2) as (_ & _ & Q2).
  assert (evproj is_report_ready
            (pre ++ og
             ++ [OLog lsuccess TAG "Graph completed for run"
                   (Some (task_runId t));
                 OSetRun (task_runId t)
                   (withStatus (getActiveRun wg (task_runId t))
                      (if (0 <? length (errors final))%nat
                       then complete_with_warnings else complete)
                      (Some session));
                 OEmit (task_emitter t)
                   (mkEvent
                      (ev_done (Some session) (Some (length (errors final)))
                         ((fun startedAt =>
                             Date_now E (tick wg) - startedAt)%Z
                            <$> run_startedAt
                                  (withStatus
                                     (getActiveRun wg (task_runId t))
                                     (if (0 <? length (errors final))%nat
                                      then complete_with_warnings
                                      else complete)
                                     (Some session))))
                      (Some (task_runId t))
                      (Some (Date_now E (S (tick wg)))))]
             ++ post)
          = evproj is_report_ready (out (briefNode E s3
               (world (validateNode E s2
                  (world (brainNode E s1 (world (scoutNode E s0 w0))))))))) as Hout.
  { rewrite !evproj_app, (evproj_none is_report_ready post Hpost).
    rewrite (evproj_events is_report_ready pre), Hev, Ho, !evproj_app.
    rewrite (proj1 (Q0 _)), (proj1 (Q1 _)), (proj1 (Q2 _)). cbn.
    by rewrite app_nil_r. }
  rewrite Hout.
  destruct (briefNode_report E s3
              (world (validateNode E s2
                 (world (brainNode E s1 (world (scoutNode E s0 w0)))))))
    as [Hnone | [_ Hone]]; [by left |].
  right. exists session.
  rewrite (reportView_state w' wg session Hrep).
  split; [by rewrite Hone, Hsid, <- Hw |].
  split.
  - unfold getActiveRun. by rewrite Hact, lookup_insert_eq.
  - unfold Routes.get_report. erewrite mbind_ok by apply get_run. cbv beta.
    unfold getActiveRun. rewrite Hact, lookup_insert_eq.
    cbn [run_sessionId withStatus mbind option_bind].
    rewrite <- (reportView_state w' wg session Hrep). unfold reportView.
    by destruct (Acontext.readReport w' session).
Qed.

(** * routes/agent.js: POST /start *)

Import Routes.

Lemma trimStart_length s : length (trimStart s) <= length s.
Proof.
  induction s as [|c s IH]; simpl; [lia |].
  destruct (isWhiteSpace c); simpl; lia.
Qed.

Lemma trim_length s : length (trim s) <= length s.
Proof.
  unfold trim, trimEnd. rewrite length_rev.
  etransitivity; [apply trimStart_length |]. rewrite length_rev.
  apply trimStart_length.
Qed.

Lemma startRun_run E niche w :
  startRun E niche w =
    let runId := uuidv4 E (tick w) in
    let r := mkRunRecord (Some (emitters w)) running (Some niche)
               (Some (Date_now E (S (tick w)))) None in
    mkOutcome (Ok runId)
      (set_pending (fun q => q ++ [mkTask runId niche (emitters w)])
         (set_activeRuns (fun m => <[runId := r]> m)
            (set_tick S (set_emitters S (set_tick S w)))))
      [OSetRun runId r].
Proof. reflexivity. Qed.

Lemma post_start_run E s w :
  post_start E (JStr s) w =
    if (length (trim s) <? 3)%nat then mkOutcome (Ok rejected) w []
    else
      let o := startRun E (trim s) w in
      mkOutcome
        (Ok (mkResponse 202 (json_started (uuidv4 E (tick w)) (trim s))))
        (world o)
        (out o
         ++ [OLog info "Routes" "Run started" (Some (uuidv4 E (tick w)))]).
Proof.
  unfold post_start, truthy, isString.
  destruct (length (trim s) <? 3)%nat eqn:Hlen.
  - rewrite orb_true_r. reflexivity.
  - destruct (length s =? 0)%nat eqn:H0; [| reflexivity].
    apply Nat.eqb_eq in H0. apply Nat.ltb_ge in Hlen.
    pose proof (trim_length s). lia.
Qed.


Lemma opens_with_mbind {A B} b (c : M A) (k : A -> M B) :
  opens_with b c -> opens_with b (c ≫= k).
Proof.
  intros Hc w. destruct (Hc w) as [rest Hrest].
  unfold mbind, M_bind, bind. destruct (c w) as [[a|e] w1 o1]; simpl in *.
  - unfold events in *. rewrite evproj_app, Hrest. by eexists.
  - by eexists.
Qed.

Lemma opens_with_try_catch {A} b (c : M A) h :
  opens_with b c -> opens_with b (try_catch c h).
Proof.
  intros Hc w. destruct (Hc w) as [rest Hrest].
  unfold try_catch. destruct (c w) as [[a|e] w1 o1]; simpl in *.
  - by eexists.
  - unfold events in *. rewrite evproj_app, Hrest. by eexists.
Qed.

Lemma opens_with_try_finally {A} b (c : M A) f :
  opens_with b c -> opens_with b (try_finally c f).
Proof.
  intros Hc w. destruct (Hc w) as [rest Hrest].
  unfold try_finally. destruct (c w) as [r w1 o1]; simpl in *.
  destruct (f w1) as [[u|e] w2 o2]; simpl;
    unfold events in *; rewrite evproj_app, Hrest; by eexists.
Qed.

Lemma opens_with_emit E fn b : opens_with b (callEmit E (Some fn) b).
Proof. intros w. by exists []. Qed.

Lemma runTask_opens_with_run_start E t :
  opens_with (run_start (task_niche t)) (runTask E t).
Proof.
  unfold runTask, runGraph, runGraph_try.
  apply opens_with_try_catch, opens_with_try_finally, opens_with_try_catch.
  apply opens_with_mbind, opens_with_emit.
Qed.

(** C10.  POST /start validates and starts the run on the trimmed niche: a
    string is rejected with the 400 response, leaving the state untouched,
    exactly when its trimmed length is under 3, whatever its raw length (as
    for " a ", of raw length 3); otherwise the trimmed string is what the
    response echoes, what the run record stores, what the pending task
    carries and what the run's first event, [run_start], announces. *)
Theorem post_start_trims_niche E s w :
  let o := post_start E (JStr s) w in
  (if (length (trim s) <? 3)%nat
   then o = mkOutcome (Ok rejected) w []
   else
     let runId := uuidv4 E (tick w) in
     let t := mkTask runId (trim s) (emitters w) in
     res o = Ok (mkResponse 202 (json_started runId (trim s)))
     /\ (getActiveRun (world o) runId ≫= run_niche) = Some (trim s)
     /\ pending (world o) = pending w ++ [t]
     /\ opens_with (run_start (trim s)) (runTask E t))
  /\ length (js " a ") = 3%nat
  /\ post_start E (JStr (js " a ")) w = mkOutcome (Ok rejected) w [].
Proof.
  cbv zeta. rewrite post_start_run. split; [| split; reflexivity].
  destruct (length (trim s) <? 3)%nat; [reflexivity |].
  rewrite startRun_run. cbn [res world out].
  split; [reflexivity |]. split.
  { unfold getActiveRun. cbn. by rewrite lookup_insert_eq. }
  split; [reflexivity |]. apply runTask_opens_with_run_start.
Qed.

Lemma runGraph_clock E runId niche emitter :
  obeys clockAdvances (runGraph E runId niche emitter).
Proof. unfold runGraph. obey_all. Qed.

Lemma runPending_clock E : obeys clockAdvances (runPending E).
Proof. unfold runPending. obey_all. Qed.

Lemma post_start_clock E v : obeys clockAdvances (post_start E v).
Proof. unfold post_start, startRun. obey_all. Qed.

(** * A run without the OpenAI key *)







Lemma elem_of_evproj_app {B} (f : EventBody -> option B) x l1 l2 l3 :
  x ∈ evproj f l2 -> x ∈ evproj f (l1 ++ l2 ++ l3).
Proof. rewrite !evproj_app. set_solver. Qed.

(** * Calls to the providers *)

Lemma call_run {A} (f : nat -> result A) w :
  call f w = mkOutcome (f (tick w)) (set_tick S w) [].
Proof. reflexivity. Qed.

(** * More of utils/helpers.js *)

Section DedupeBy.
Import Helpers.
Context {A K : Type} `{Countable K} (keyFn : A -> K).








End DedupeBy.

Section Truncate.
Import Helpers.

Lemma rev_reverse {A} (l : list A) : rev l = reverse l.
Proof. apply rev_alt. Qed.

Lemma dropWhile_suffix {A} (p : A -> bool) l : dropWhile p l `suffix_of` l.
Proof.
  induction l as [|x l IH]; simpl; [done |].
  destruct (p x); [| done]. by apply suffix_cons_r.
Qed.

Lemma dropWhile_head {A} (p : A -> bool) l x :
  head (dropWhile p l) = Some x -> p x = false.
Proof.
  induction l as [|y l IH]; simpl; [discriminate |].
  destruct (p y) eqn:Hy; [exact IH |]. simpl. by intros [= <-].
Qed.

Lemma dropWhile_nil {A} (p : A -> bool) l :
  dropWhile p l = [] -> Forall (fun x => p x = true) l.
Proof.
  induction l as [|y l IH]; simpl; [constructor |].
  destruct (p y) eqn:Hy; [| discriminate]. intros Hd.
  constructor; [exact Hy | by apply IH].
Qed.

Lemma stripLastWord_prefix str : stripLastWord str `prefix_of` str.
Proof.
  unfold stripLastWord.
  destruct (dropWhile (fun c => negb (isWhiteSpace c)) (rev str))
    as [|c r] eqn:Hd; [done |].
  assert (dropWhile isWhiteSpace (c :: r) `suffix_of` rev str) as Hs.
  { etransitivity; [apply dropWhile_suffix |]. rewrite <- Hd.
    apply dropWhile_suffix. }
  rewrite !rev_reverse in *. apply suffix_prefix_reverse in Hs.
  by rewrite reverse_involutive in Hs.
Qed.

Lemma stripLastWord_last str c :
  last (stripLastWord str) = Some c -> isWhiteSpace c = false.
Proof.
  unfold stripLastWord.
  destruct (dropWhile (fun c => negb (isWhiteSpace c)) (rev str))
    as [|c0 r] eqn:Hd.
  - intros Hl. apply dropWhile_nil in Hd.
    rewrite Forall_forall in Hd.
    assert (c ∈ rev str) as Hin.
    { rewrite rev_reverse, elem_of_reverse. by apply last_Some_elem_of. }
    apply Hd in Hin. by apply negb_true_iff in Hin.
  - rewrite rev_reverse, last_reverse. apply dropWhile_head.
Qed.

(** X2.  [truncate] returns a string within the limit unchanged; a longer
    one is cut to a prefix of at most [maxLen] code units that does not end
    in white space, followed by the ellipsis, so that the result never
    exceeds [maxLen + 1] code units. *)
Theorem truncate_bounds (str : jsstring) (maxLen : nat) :
  if (length str <=? maxLen)%nat
  then truncate str maxLen = str
  else exists kept,
         truncate str maxLen = kept ++ ellipsis
         /\ kept `prefix_of` str
         /\ length kept <= maxLen
         /\ length (truncate str maxLen) <= S maxLen
         /\ match last kept with
            | Some c => isWhiteSpace c = false
            | None => True
            end.
Proof.
  unfold truncate. destruct (length str <=? maxLen)%nat eqn:Hlen;
    [reflexivity |].
  apply Nat.leb_gt in Hlen.
  pose proof (stripLastWord_prefix (take maxLen str)) as Hp.
  assert (length (stripLastWord (take maxLen str)) <= maxLen) as Hk.
  { apply prefix_length in Hp. rewrite length_take in Hp. lia. }
  exists (stripLastWord (take maxLen str)).
  split; [reflexivity |].
  split; [etransitivity; [exact Hp | apply prefix_take] |].
  split; [exact Hk |].
  split; [rewrite length_app; simpl; lia |].
  destruct (last _) as [c|] eqn:Hl; [| exact I].
  by apply stripLastWord_last in Hl.
Qed.

End Truncate.

(** * More of services/acontextService.js *)

Lemma modify_run (f : World -> World) w :
  modify f w = mkOutcome (Ok tt) (f w) [].
Proof. reflexivity. Qed.

Lemma storing_keeps_reports E sid :
  obeys (quietly is_terminal reportStore)
        (Acontext.getClient E;;
         call (fun t => sessions_storeMessage E t sid);;
         log lsuccess Acontext.TAG "Disk updated for session" (Some sid);;
         w ← get;
         ret (Acontext.readReport w sid)).
Proof. obey_all. Qed.

Lemma storing_returns_report E sid w stored :
  res ((Acontext.getClient E;;
        call (fun t => sessions_storeMessage E t sid);;
        log lsuccess Acontext.TAG "Disk updated for session" (Some sid);;
        w ← get;
        ret (Acontext.readReport w sid)) w) = Ok stored ->
  stored
  = Acontext.readReport
      (world ((Acontext.getClient E;;
               call (fun t => sessions_storeMessage E t sid);;
               log lsuccess Acontext.TAG "Disk updated for session"
                   (Some sid);;
               w ← get;
               ret (Acontext.readReport w sid)) w)) sid.
Proof.
  destruct (Acontext.getClient E w) as [[[]|e] w1 o1] eqn:H1.
  2:{ erewrite mbind_throw by exact H1. intros [=]. }
  erewrite mbind_ok by exact H1. cbv beta.
  destruct (sessions_storeMessage E (tick w1) sid) as [[]|e] eqn:H2.
  2:{ erewrite mbind_throw by (rewrite call_run, H2; reflexivity).
      intros [=]. }
  erewrite mbind_ok by (rewrite call_run, H2; reflexivity). cbv beta.
  run_prim. run_prim. unfold ret. rewrite !prepend_mk. cbn [res world].
  by intros [= <-].
Qed.

Lemma writeReport_store E sid reportData w :
  let o := Acontext.writeReport E sid reportData w in
  Acontext.readReport (world o) sid
  = Some (Acontext.mergeReport
            (default emptyReport (Acontext.readReport w sid))
            reportData (Date_now E (tick w)))
  /\ (forall other, other <> sid ->
        Acontext.readReport (world o) other = Acontext.readReport w other)
  /\ (forall stored, res o = Ok stored ->
        stored = Acontext.readReport (world o) sid).
Proof.
  cbv zeta. unfold Acontext.writeReport.
  erewrite mbind_ok by apply ask_run. cbv beta.
  erewrite mbind_ok by apply modify_run. cbv beta.
  unfold prepend. cbn [res world out].
  match goal with
  | |- context [world (?rest ?w1)] =>
      pose proof (proj2 (storing_keeps_reports E sid w1)) as Hkeep;
      pose proof (storing_returns_report E sid w1) as Hret
  end.
  unfold Acontext.readReport in *. rewrite Hkeep.
  cbn [reportStore set_reportStore set_tick].
  split; [by rewrite lookup_insert_eq |].
  split; [intros other Hne; by rewrite lookup_insert_ne |].
  intros stored Hs. rewrite (Hret stored Hs), Hkeep. reflexivity.
Qed.

(** X3.  [writeReport] updates the report store before it sends anything:
    whether the call then succeeds or throws (no key, the provider down),
    reading the session's report right after gives the old report overlaid
    with the new keys and stamped with the time of the write; the reports
    of other sessions are untouched, and a successful call returns what is
    stored. *)
Theorem writeReport_stores_first E sid reportData w :
  let o := Acontext.writeReport E sid reportData w in
  Acontext.readReport (world o) sid
  = Some (Acontext.mergeReport
            (default emptyReport (Acontext.readReport w sid))
            reportData (Date_now E (tick w)))
  /\ (forall other, other <> sid ->
        Acontext.readReport (world o) other = Acontext.readReport w other)
  /\ (forall stored, res o = Ok stored ->
        stored = Acontext.readReport (world o) sid).
Proof. apply writeReport_store. Qed.

Lemma spread_assoc {A} (a b c : option A) :
  Acontext.spread (Acontext.spread a b) c
  = Acontext.spread a (Acontext.spread b c).
Proof. by destruct c, b. Qed.

Lemma mergeReport_assoc a b c t1 t2 t3 :
  Acontext.mergeReport (Acontext.mergeReport a b t1) c t2
  = Acontext.mergeReport a (Acontext.mergeReport b c t3) t2.
Proof.
  unfold Acontext.mergeReport. cbn. by rewrite !spread_assoc.
Qed.

(** X4.  Two writes to a session's report amount to one write of the second
    data laid over the first: a key of the later write wins, a key only the
    earlier write had is kept, and the time stamp is that of the later
    write. *)
Theorem writeReport_twice E sid first second w :
  let w1 := world (Acontext.writeReport E sid first w) in
  let w2 := world (Acontext.writeReport E sid second w1) in
  Acontext.readReport w2 sid
  = Some (Acontext.mergeReport
            (default emptyReport (Acontext.readReport w sid))
            (Acontext.mergeReport first second 0)
            (Date_now E (tick w1)))
  /\ (Acontext.readReport w2 sid ≫= rep_runId)
     = Acontext.spread
         (Acontext.spread (Acontext.readReport w sid ≫= rep_runId)
                          (rep_runId first))
         (rep_runId second).
Proof.
  cbv zeta.
  destruct (writeReport_store E sid second
              (world (Acontext.writeReport E sid first w))) as [H2 _].
  destruct (writeReport_store E sid first w) as [H1 _].
  cbv zeta in *. rewrite H2, H1. cbn [from_option id].
  split; [by rewrite (mergeReport_assoc _ _ _ _ _ 0%Z) |].
  cbn. by destruct (Acontext.readReport w sid).
Qed.

Lemma updateTaskBlock_world sid id st w :
  world (Acontext.updateTaskBlock sid id st w)
  = match taskState w !! sid with
    | Some loc =>
        match taskHeap w !! loc with
        | Some blocks =>
            set_taskHeap
              (fun h => <[loc := Acontext.setStatus blocks id st]> h) w
        | None => w
        end
    | None => w
    end.
Proof.
  unfold Acontext.updateTaskBlock.
  erewrite mbind_ok by apply get_run. cbv beta.
  destruct (taskState w !! sid) as [loc|]; [| reflexivity].
  destruct (taskHeap w !! loc); reflexivity.
Qed.

Lemma setStatus_unknown blocks id st :
  id ∉ map tb_id blocks -> Acontext.setStatus blocks id st = blocks.
Proof.
  induction blocks as [|t rest IH]; intros Hn; simpl; [reflexivity |].
  destruct (decide (tb_id t = id)) as [Heq|Hne].
  - exfalso. apply Hn. simpl. rewrite Heq. by left.
  - f_equal. apply IH. intros Hin. apply Hn. simpl. by right.
Qed.

Lemma setStatus_ids blocks id st :
  map tb_id (Acontext.setStatus blocks id st) = map tb_id blocks.
Proof.
  induction blocks as [|t rest IH]; simpl; [reflexivity |].
  destruct (decide (tb_id t = id)); simpl; [reflexivity | by rewrite IH].
Qed.

Lemma blocksOf_lookup w s :
  Acontext.readArr w (Acontext.getTaskBlocks w s)
  = default [] (taskState w !! s ≫= fun loc => taskHeap w !! loc).
Proof.
  unfold Acontext.readArr, Acontext.getTaskBlocks.
  by destruct (taskState w !! s).
Qed.

Lemma initTaskBlocks_state s w :
  taskState (world (Acontext.initTaskBlocks s w))
  = <[s := length (taskHeap w)]> (taskState w)
  /\ taskHeap (world (Acontext.initTaskBlocks s w))
     = taskHeap w ++ [Acontext.taskBlocks].
Proof. by rewrite initTaskBlocks_run. Qed.

Lemma updateTaskBlock_state s id st w loc blocks :
  taskState w !! s = Some loc -> taskHeap w !! loc = Some blocks ->
  taskState (world (Acontext.updateTaskBlock s id st w)) = taskState w
  /\ taskHeap (world (Acontext.updateTaskBlock s id st w))
     = <[loc := Acontext.setStatus blocks id st]> (taskHeap w).
Proof. intros Hs Hb. by rewrite updateTaskBlock_world, Hs, Hb. Qed.

(** X5.  [initTaskBlocks] gives a session its own copy of the four task
    blocks, all pending.  [updateTaskBlock] then changes the status of the
    named task of that session only: the blocks of another session,
    initialised before or after, keep their statuses; a task id that is not
    among the four changes nothing; and for a session that was never
    initialised nothing happens and [getTaskBlocks] is empty. *)
Theorem task_blocks_are_per_session (s1 s2 taskId status : jsstring)
    (w : World) :
  s1 <> s2 ->
  let blocksOf w s := Acontext.readArr w (Acontext.getTaskBlocks w s) in
  let w1 := world (Acontext.initTaskBlocks s1 w) in
  let w2 := world (Acontext.initTaskBlocks s2 w1) in
  let w3 := world (Acontext.updateTaskBlock s1 taskId status w2) in
  let w4 := world (Acontext.initTaskBlocks s2 w3) in
  blocksOf w2 s1 = Acontext.taskBlocks
  /\ blocksOf w3 s1 = Acontext.setStatus Acontext.taskBlocks taskId status
  /\ blocksOf w3 s2 = Acontext.taskBlocks
  /\ blocksOf w4 s2 = Acontext.taskBlocks
  /\ map tb_id (blocksOf w3 s1) = map tb_id Acontext.taskBlocks
  /\ (taskId ∉ map tb_id Acontext.taskBlocks ->
      blocksOf w3 s1 = blocksOf w2 s1)
  /\ (forall s, taskState w !! s = None ->
        world (Acontext.updateTaskBlock s taskId status w) = w
        /\ blocksOf w s = []).
Proof.
  intros Hne. cbv zeta.
  set (T := Acontext.taskBlocks).
  set (w1 := world (Acontext.initTaskBlocks s1 w)).
  set (w2 := world (Acontext.initTaskBlocks s2 w1)).
  destruct (initTaskBlocks_state s1 w) as [S1 H1].
  destruct (initTaskBlocks_state s2 w1) as [S2 H2].
  fold w1 in S1, H1. fold w2 in S2, H2. fold T in H1, H2.
  assert (taskState w2 !! s1 = Some (length (taskHeap w))) as L1.
  { rewrite S2, lookup_insert_ne, S1, lookup_insert_eq by done. done. }
  assert (taskState w2 !! s2 = Some (S (length (taskHeap w)))) as L2.
  { rewrite S2, lookup_insert_eq, H1, length_app. cbn. f_equal. lia. }
  assert (taskHeap w2 = taskHeap w ++ [T; T]) as H2'.
  { by rewrite H2, H1, <- app_assoc. }
  assert (taskHeap w2 !! length (taskHeap w) = Some T) as B1.
  { rewrite H2', lookup_app_r by lia.
    by replace (length (taskHeap w) - length (taskHeap w)) with 0 by lia. }
  assert (taskHeap w2 !! S (length (taskHeap w)) = Some T) as B2.
  { rewrite H2', lookup_app_r by lia.
    by replace (S (length (taskHeap w)) - length (taskHeap w)) with 1
      by lia. }
  destruct (updateTaskBlock_state s1 taskId status w2 _ _ L1 B1) as [S3 H3].
  set (w3 := world (Acontext.updateTaskBlock s1 taskId status w2)) in *.
  destruct (initTaskBlocks_state s2 w3) as [S4 H4].
  set (w4 := world (Acontext.initTaskBlocks s2 w3)) in *. fold T in H4.
  assert (length (taskHeap w) < length (taskHeap w2)) as Hlt.
  { rewrite H2', length_app. cbn. lia. }
  rewrite !blocksOf_lookup.
  rewrite L1, S3, L1, L2, H3, S4, lookup_insert_eq, H4. cbn [mbind option_bind].
  rewrite B1, list_lookup_insert_eq by done.
  rewrite list_lookup_insert_ne by lia. rewrite B2.
  rewrite lookup_app_r by (rewrite H3; lia).
  replace (length (taskHeap w3) - length (taskHeap w3)) with 0 by lia.
  cbn [lookup list_lookup from_option id].
  split; [reflexivity |]. split; [reflexivity |]. split; [reflexivity |].
  split; [reflexivity |]. split; [apply setStatus_ids |].
  split; [intros Hid; by apply setStatus_unknown |].
  intros s Hs. rewrite updateTaskBlock_world, blocksOf_lookup, Hs. done.
Qed.

Lemma task_blocks_are_per_session_witness :
  js "session-1" <> js "session-2"
  /\ Acontext.readArr
       (world (Acontext.updateTaskBlock (js "session-1")
                 (js "rank_and_select") (js "running")
                 (world (Acontext.initTaskBlocks (js "session-2")
                           (world (Acontext.initTaskBlocks (js "session-1")
                                     initialWorld))))))
       (Acontext.getTaskBlocks
          (world (Acontext.updateTaskBlock (js "session-1")
                    (js "rank_and_select") (js "running")
                    (world (Acontext.initTaskBlocks (js "session-2")
                              (world (Acontext.initTaskBlocks
                                        (js "session-1") initialWorld))))))
          (js "session-2"))
     = Acontext.taskBlocks.
Proof.
  assert (js "session-1" <> js "session-2") as Hne by discriminate.
  split; [exact Hne |].
  apply (task_blocks_are_per_session (js "session-1") (js "session-2")
           (js "rank_and_select") (js "running") initialWorld Hne).
Defined.

Lemma writeReport_keeps_tasks E sid reportData :
  obeys (quietly is_terminal (fun w => (taskState w, taskHeap w)))
        (Acontext.writeReport E sid reportData).
Proof. obey_all. Qed.

(** X6.  The task blocks in a stored report are the session's live array,
    not a copy: a report written with [getTaskBlocks(sessionId)] shows the
    statuses of the moment it is read, so a later [updateTaskBlock] changes
    what [readReport] serialises to, the other fields staying as written. *)
Theorem stored_report_shares_task_blocks E sid brief completedAt taskId
    status w loc blocks :
  taskState w !! sid = Some loc -> taskHeap w !! loc = Some blocks ->
  let w1 :=
    world (Acontext.writeReport E sid
             (finalReport brief completedAt (Acontext.getTaskBlocks w sid))
             w) in
  let w2 := world (Acontext.updateTaskBlock sid taskId status w1) in
  (reportView w1 sid ≫= json_taskBlocks) = Some blocks
  /\ (reportView w2 sid ≫= json_taskBlocks)
     = Some (Acontext.setStatus blocks taskId status)
  /\ (json_fields <$> reportView w2 sid) = (json_fields <$> reportView w1 sid).
Proof.
  intros Hs Hb. cbv zeta.
  destruct (writeReport_store E sid
              (finalReport brief completedAt (Acontext.getTaskBlocks w sid))
              w) as [Hstored _].
  pose proof (proj2 (writeReport_keeps_tasks E sid
                       (finalReport brief completedAt
                          (Acontext.getTaskBlocks w sid)) w)) as Hkeep.
  cbv zeta in Hstored. apply pair_equal_spec in Hkeep as [Hts Hth].
  set (w1 := world (Acontext.writeReport E sid _ w)) in *.
  assert (taskState w1 !! sid = Some loc) as Hs1 by (by rewrite Hts).
  assert (taskHeap w1 !! loc = Some blocks) as Hb1 by (by rewrite Hth).
  destruct (updateTaskBlock_state sid taskId status w1 loc blocks Hs1 Hb1)
    as [Hts2 Hth2].
  assert (reportStore (world (Acontext.updateTaskBlock sid taskId status w1))
          = reportStore w1) as Hrs.
  { by rewrite updateTaskBlock_world, Hs1, Hb1. }
  set (w2 := world (Acontext.updateTaskBlock sid taskId status w1)) in *.
  unfold reportView, Acontext.readReport in *. rewrite Hrs, Hstored.
  unfold Acontext.toJSON, Acontext.getTaskBlocks. rewrite Hs.
  cbn [fmap option_fmap option_map mbind option_bind json_taskBlocks
       json_fields rep_taskBlocks Acontext.mergeReport finalReport
       Acontext.spread Acontext.readArr].
  rewrite Hth2, Hb1, list_lookup_insert_eq by (by eapply lookup_lt_Some).
  done.
Qed.

Lemma stored_report_shares_task_blocks_witness :
  (reportView
     (world (Acontext.updateTaskBlock (js "session-1")
               (js "generate_opportunity_brief") (js "error")
               (world (Acontext.writeReport Scenarios.allSucceed
                         (js "session-1")
                         (finalReport None 0
                            (Acontext.getTaskBlocks
                               (world (Acontext.initTaskBlocks
                                         (js "session-1") initialWorld))
                               (js "session-1")))
                         (world (Acontext.initTaskBlocks (js "session-1")
                                   initialWorld))))))
     (js "session-1") ≫= json_taskBlocks)
  = Some (Acontext.setStatus Acontext.taskBlocks
            (js "generate_opportunity_brief") (js "error")).
Proof.
  apply (stored_report_shares_task_blocks Scenarios.allSucceed
           (js "session-1") None 0 (js "generate_opportunity_brief")
           (js "error")
           (world (Acontext.initTaskBlocks (js "session-1") initialWorld))
           0 Acontext.taskBlocks); reflexivity.
Defined.

(** What [runGraph] does once its [try] block has thrown. *)
Lemma runTask_after_throw E t w err wf pre :
  let rid := task_runId t in
  runGraph_try E rid (task_niche t) (task_emitter t) w
    = mkOutcome (Throw err) wf pre ->
  exists w' post,
    runTask E t w
    = mkOutcome (Ok tt) w'
        (pre
         ++ [OLog lerror TAG "Graph fatal error" (Some err);
             OEmit (task_emitter t)
               (mkEvent (ev_error err) (Some rid)
                  (Some (Date_now E (tick wf))));
             OEmit (task_emitter t)
               (mkEvent (ev_done None None None) (Some rid)
                  (Some (Date_now E (S (tick wf)))));
             OSetRun rid (withStatus (getActiveRun wf rid) error None)]
         ++ post)
    /\ events post = []
    /\ activeRuns w'
       = <[rid := withStatus (getActiveRun wf rid) error None]> (activeRuns wf)
    /\ reportState w' = reportState wf.
Proof.
  cbv zeta. intros Htry. unfold runTask, runGraph.
  assert (runGraph_catch E (task_runId t) (task_emitter t) err wf
          = mkOutcome (Ok tt)
              (set_activeRuns
                 (fun m => <[task_runId t :=
                               withStatus (getActiveRun wf (task_runId t))
                                          error None]> m)
                 (set_tick S (set_tick S wf)))
              [OLog lerror TAG "Graph fatal error" (Some err);
               OEmit (task_emitter t)
                 (mkEvent (ev_error err) (Some (task_runId t))
                    (Some (Date_now E (tick wf))));
               OEmit (task_emitter t)
                 (mkEvent (ev_done None None None) (Some (task_runId t))
                    (Some (Date_now E (S (tick wf)))));
               OSetRun (task_runId t)
                 (withStatus (getActiveRun wf (task_runId t)) error None)])
    as Hcatch.
  { unfold runGraph_catch. run_prim. run_prim. run_prim. run_prim.
    rewrite setActiveRun_run, !prepend_mk. reflexivity. }
  match type of Hcatch with _ = mkOutcome _ ?wc _ =>
    destruct (closer_run E wc) as (w' & post & Hclose & Hpost & Hact & Hrep)
  end.
  exists w', post. split; [| split; [exact Hpost | split; [exact Hact |]]].
  - apply try_catch_ok.
    erewrite try_finally_ok;
      [| erewrite try_catch_throw by exact Htry;
         rewrite Hcatch, prepend_mk; reflexivity
       | exact Hclose].
    by rewrite <- !app_assoc.
  - rewrite Hrep. reflexivity.
Qed.

Lemma acontext_getClient_keyless E w :
  ACONTEXT_API_KEY E = false -> acontext_client w = false ->
  Acontext.getClient E w
  = mkOutcome (Throw (js "ACONTEXT_API_KEY is not set in .env")) w [].
Proof.
  intros Hkey Hc. unfold Acontext.getClient.
  erewrite mbind_ok by apply get_run. cbv beta. by rewrite Hc, Hkey.
Qed.

(** X7.  Without the Acontext key (and no client built earlier) a run is
    over at its first step: [createSession] throws before any call to the
    provider, the emitter carries exactly [run_start], [error] with the
    message naming the key, and [done]; the run ends with status [error],
    and no report and no task block has been stored. *)
Theorem missing_acontext_key_is_fatal E t w :
  ACONTEXT_API_KEY E = false -> acontext_client w = false ->
  let o := runTask E t w in
  events (out o)
  = [run_start (task_niche t);
     ev_error (js "ACONTEXT_API_KEY is not set in .env");
     ev_done None None None]
  /\ (run_status <$> getActiveRun (world o) (task_runId t)) = Some error
  /\ reportState (world o) = reportState w.
Proof.
  intros Hkey Hc. cbv zeta.
  assert (runGraph_try E (task_runId t) (task_niche t) (task_emitter t) w
          = mkOutcome (Throw (js "ACONTEXT_API_KEY is not set in .env"))
              (set_tick S w)
              [OEmit (task_emitter t)
                 (mkEvent (run_start (task_niche t)) (Some (task_runId t))
                    (Some (Date_now E (tick w))))]) as Htry.
  { unfold runGraph_try. cbv zeta. run_prim.
    erewrite mbind_throw.
    2:{ unfold Acontext.createSession.
        erewrite mbind_throw; [reflexivity |].
        by apply acontext_getClient_keyless. }
    rewrite prepend_mk. reflexivity. }
  destruct (runTask_after_throw E t w _ _ _ Htry)
    as (w' & post & Hrun & Hpost & Hact & Hrep).
  rewrite Hrun. cbn [out world].
  split; [| split].
  - unfold events in *. rewrite !evproj_app, Hpost. reflexivity.
  - unfold getActiveRun. rewrite Hact, lookup_insert_eq. reflexivity.
  - rewrite Hrep. reflexivity.
Qed.

Lemma missing_acontext_key_is_fatal_witness :
  ACONTEXT_API_KEY Scenarios.noAcontextKey = false
  /\ acontext_client initialWorld = false
  /\ events
       (out (runTask Scenarios.noAcontextKey
               (mkTask (Scenarios.uuid 0) (js "freelance designers") 0)
               initialWorld))
     = [run_start (js "freelance designers");
        ev_error (js "ACONTEXT_API_KEY is not set in .env");
        ev_done None None None].
Proof.
  split; [reflexivity |]. split; [reflexivity |].
  apply (missing_acontext_key_is_fatal Scenarios.noAcontextKey
           (mkTask (Scenarios.uuid 0) (js "freelance designers") 0)
           initialWorld eq_refl eq_refl).
Defined.

(** * More of services/llmService.js and services/brightDataService.js *)

Lemma returns_mbind_with {A B} (Q : A -> Prop) (P : B -> Prop) (c : M A)
    (k : A -> M B) :
  returns Q c -> (forall a, Q a -> returns P (k a)) -> returns P (c ≫= k).
Proof.
  intros Hc Hk w b. unfold mbind, M_bind, bind. specialize (Hc w).
  destruct (c w) as [[a|e] w1 o1]; simpl in *; [| intros [=]].
  apply Hk. by apply Hc.
Qed.

(** An invariant of the accumulator that follows the items consumed. *)
Lemma returns_for_acc {A S} (R : list A -> S -> Prop) (xs : list A) (acc : S)
    (body : S -> A -> M S) :
  (forall seen x acc, R seen acc -> returns (R (seen ++ [x])) (body acc x)) ->
  R [] acc -> returns (R xs) (for_acc xs acc body).
Proof.
  intros Hbody.
  assert (forall seen acc,
            R seen acc -> returns (R (seen ++ xs)) (for_acc xs acc body))
    as Hgen.
  { induction xs as [|x xs IH]; intros seen acc0 Hacc; simpl.
    - rewrite app_nil_r. by apply returns_ret.
    - intros w r. unfold bind. specialize (Hbody seen x acc0 Hacc w).
      destruct (body acc0 x w) as [[acc'|e] w1 o1]; simpl in *;
        [| intros [=]].
      intros Hr. specialize (IH (seen ++ [x]) acc' (Hbody _ eq_refl) w1 r).
      rewrite <- app_assoc in IH. by apply IH. }
  apply (Hgen []).
Qed.

Lemma ok_by {A} (P : A -> Prop) (c : M A) w :
  total c -> returns P c -> exists a, res (c w) = Ok a /\ P a.
Proof. intros Ht Hr. destruct (Ht w) as [a Ha]. eauto. Qed.


Section BrightDataTotal.
Import BrightData.
Context (E : Env).

Lemma googlePages_total query pages allResults :
  total (googlePages E query pages allResults).
Proof.
  revert allResults. induction pages as [|page rest IH]; intros allResults;
    simpl; repeat (first [apply IH | total_step]).
Qed.

Lemma googleStrategy_total queries allResults :
  total (googleStrategy E queries allResults).
Proof.
  revert allResults. induction queries as [|q rest IH]; intros allResults;
    simpl; repeat (first [apply IH | apply googlePages_total | total_step]).
Qed.

Lemma searchRedditPainPoints_total niche :
  total (searchRedditPainPoints E niche).
Proof.
  unfold searchRedditPainPoints.
  repeat (first [apply googleStrategy_total | total_step]).
Qed.

(** X9.  [searchRedditPainPoints] never throws: a strategy that fails is
    logged and skipped, and what is returned has no URL twice.  A blank
    niche is answered with an empty list before any provider is called. *)
Theorem searchRedditPainPoints_never_throws niche w :
  (exists results,
     res (searchRedditPainPoints E niche w) = Ok results
     /\ NoDup (map url results))
  /\ (if (length (trim niche) =? 0)%nat
      then res (searchRedditPainPoints E niche w) = Ok []
           /\ world (searchRedditPainPoints E niche w) = w
      else True).
Proof.
  split.
  - destruct (ok_by _ _ w (searchRedditPainPoints_total niche)
                (searchRedditPainPoints_unique E niche))
      as (results & Hr & Hnd & _).
    by exists results.
  - destruct (length (trim niche) =? 0)%nat eqn:Hblank; [| exact I].
    unfold searchRedditPainPoints. run_prim. rewrite Hblank, orb_true_r.
    run_prim. by unfold ret, prepend.
Qed.


Lemma scrapeUrl_quiet target :
  obeys (quietly is_terminal (fun _ => tt)) (scrapeUrl E target).
Proof. obey_all. Qed.







End BrightDataTotal.


(** * What reaches the URL filter of searchRedditPainPoints *)

Section Collected.
Import BrightData.
Context (E : Env).

Lemma uniqueByUrl_seen_filter seen l u :
  u ∈ seen -> filter (fun x => url x = u) (uniqueByUrl seen l) = [].
Proof.
  intros Hu. apply filter_url_absent. intros Hin.
  apply list_elem_of_fmap in Hin as (x & -> & Hx).
  by apply uniqueByUrl_elem in Hx as (_ & _ & Hn).
Qed.

(** The entry kept for a URL is the first one the input has for it. *)
Lemma uniqueByUrl_first seen l u :
  u <> [] -> u ∉ seen ->
  filter (fun x => url x = u) (uniqueByUrl seen l)
  = option_list (head (filter (fun x => url x = u) l)).
Proof.
  intros Hne. revert seen. induction l as [|r rest IH]; intros seen Hns;
    [reflexivity |].
  rewrite uniqueByUrl_cons, (filter_cons _ r rest).
  destruct (bool_decide (url r = [])) eqn:He; cbn [orb].
  { apply bool_decide_eq_true in He.
    rewrite decide_False by congruence. by apply IH. }
  destruct (bool_decide (url r ∈ seen)) eqn:Hs; cbn [orb].
  { apply bool_decide_eq_true in Hs.
    rewrite decide_False by (intros <-; done). by apply IH. }
  rewrite filter_cons. destruct (decide (url r = u)) as [Heq|Hneq].
  - rewrite uniqueByUrl_seen_filter by set_solver. reflexivity.
  - apply IH. set_solver.
Qed.

Lemma beforeQuery_reddit permalink :
  beforeQuery (js "https://www.reddit.com" ++ permalink) <> [].
Proof. cbn. discriminate. Qed.

Lemma startsWith_http u : startsWith (js "http") u = true -> u <> [].
Proof. by destruct u. Qed.

Lemma includes_nonempty needle u :
  needle <> [] -> includes needle u = true -> u <> [].
Proof. destruct needle; [done |]. by destruct u. Qed.

Lemma foldl_keeps {A B} (P : list B -> Prop) (f : list B -> A -> list B)
    (xs : list A) (acc : list B) :
  (forall acc x, P acc -> P (f acc x)) -> P acc -> P (foldl f acc xs).
Proof.
  intros Hf. revert acc. induction xs as [|x xs IH]; intros acc Hacc;
    simpl; [exact Hacc |]. apply IH, Hf, Hacc.
Qed.

Lemma Forall_snoc_url (results : list SearchResult) r :
  Forall (fun r => url r <> []) results -> url r <> [] ->
  Forall (fun r => url r <> []) (results ++ [r]).
Proof. intros Hr Hu. apply Forall_app. split; [exact Hr | by constructor]. Qed.

Lemma pushPost_urls results post :
  Forall (fun r => url r <> []) results ->
  Forall (fun r => url r <> []) (pushPost results post).
Proof.
  intros Hr. unfold pushPost. destruct (length (url post) =? 0)%nat; [done |].
  cbv zeta. destruct (decide _); [done |].
  apply Forall_snoc_url; [done | apply beforeQuery_reddit].
Qed.

Lemma pushWebPost_urls results post :
  Forall (fun r => url r <> []) results ->
  Forall (fun r => url r <> []) (pushWebPost results post).
Proof.
  intros Hr. unfold pushWebPost. cbv zeta.
  destruct (length (beforeQuery (url post)) =? 0)%nat eqn:Hlen; [done |].
  destruct (bool_decide _); [done |]. cbn [orb].
  apply Forall_snoc_url; [done |]. cbn [url].
  intros Hnil. by rewrite Hnil in Hlen.
Qed.

Lemma pushUnseen_urls results r :
  url r <> [] ->
  Forall (fun r => url r <> []) results ->
  Forall (fun r => url r <> []) (pushUnseen results r).
Proof.
  intros Hu Hr. unfold pushUnseen. destruct (decide _); [done |].
  by apply Forall_snoc_url.
Qed.

Lemma redditLinks_urls results markdown :
  Forall (fun r => url r <> []) results ->
  Forall (fun r => url r <> [])
         (foldl pushUnseen results (redditLinks E markdown)).
Proof.
  unfold redditLinks.
  induction (extract_reddit_links E markdown) as [|r links IH]
    in results |- *; intros Hr; [done |].
  rewrite filter_cons. destruct (decide _) as [Hhttp|]; [| by apply IH].
  simpl. apply IH, pushUnseen_urls; [by apply startsWith_http | done].
Qed.

Lemma searchRedditJSON_urls niche maxPosts :
  returns (Forall (fun r => url r <> [])) (searchRedditJSON E niche maxPosts).
Proof.
  unfold searchRedditJSON. repeat returns_step.
  apply Forall_take, foldl_keeps; [apply pushPost_urls | constructor].
Qed.

Lemma searchRedditWithWebData_urls niche maxPosts :
  returns (Forall (fun r => url r <> []))
          (searchRedditWithWebData E niche maxPosts).
Proof.
  unfold searchRedditWithWebData. repeat returns_step.
  apply Forall_take, foldl_keeps; [apply pushWebPost_urls | constructor].
Qed.

Lemma searchRedditDirect_urls niche maxUrls :
  returns (Forall (fun r => url r <> []))
          (searchRedditDirect E niche maxUrls).
Proof.
  unfold searchRedditDirect.
  eapply returns_mbind_with.
  - apply (returns_for_acc (fun _ => Forall (fun r => url r <> []))).
    + intros _ searchUrl results Hr.
      destruct (maxUrls <=? length results)%nat;
        repeat returns_step; first [done | by apply redditLinks_urls].
    + constructor.
  - intros results Hr. apply returns_ret. by apply Forall_take.
Qed.

Lemma googlePages_urls query pages allResults :
  Forall (fun r => url r <> []) allResults ->
  returns (Forall (fun r => url r <> []))
          (googlePages E query pages allResults).
Proof.
  revert allResults. induction pages as [|page rest IH]; intros allResults Hr;
    simpl; [by apply returns_ret |].
  apply returns_mbind. intros [hits|err].
  - set (redditHits := filter _ hits).
    assert (Forall (fun r => url r <> [])
              (if (0 <? length redditHits)%nat
               then allResults ++ redditHits else allResults)) as Hr'.
    { destruct (0 <? length redditHits)%nat; [| done].
      apply Forall_app. split; [done |].
      apply Forall_forall. intros r Hin.
      apply list_elem_of_filter in Hin as [Hinc _].
      by apply includes_nonempty in Hinc. }
    apply returns_mbind. intros _.
    destruct (_ && _); [by apply returns_ret | by apply IH].
  - apply returns_mbind. intros _. by apply IH.
Qed.

Lemma googleStrategy_urls queries allResults :
  Forall (fun r => url r <> []) allResults ->
  returns (Forall (fun r => url r <> []))
          (googleStrategy E queries allResults).
Proof.
  revert allResults. induction queries as [|q rest IH]; intros allResults Hr;
    cbn [googleStrategy]; [by apply returns_ret |].
  eapply returns_mbind_with; [by apply googlePages_urls |].
  intros allResults' Hr'.
  destruct (20 <=? length allResults')%nat; [by apply returns_ret |].
  by apply IH.
Qed.

(** Every entry that the strategies of [searchRedditPainPoints] collect has
    a URL, and what the function returns is the URL filter applied to what
    they collected. *)
Lemma searchRedditPainPoints_collected niche :
  returns (fun results =>
             exists collected,
               Forall (fun r => url r <> []) collected
               /\ results = uniqueByUrl ∅ collected)
          (searchRedditPainPoints E niche).
Proof.
  unfold searchRedditPainPoints.
  apply returns_mbind. intros _.
  destruct (_ || _).
  { repeat returns_step. by exists []. }
  cbv zeta. apply returns_mbind. intros _.
  eapply returns_mbind_with with (Q := Forall (fun r => url r <> [])).
  { apply returns_try_catch.
    - eapply returns_mbind_with; [apply searchRedditJSON_urls |].
      intros posts Hp. destruct (0 <? length posts)%nat;
        repeat returns_step; done.
    - intros err. repeat returns_step. constructor. }
  intros all0 H0.
  eapply returns_mbind_with with (Q := Forall (fun r => url r <> [])).
  { destruct (length all0 <? 10)%nat; [| by apply returns_ret].
    apply returns_mbind. intros _. apply returns_try_catch.
    - eapply returns_mbind_with; [apply searchRedditWithWebData_urls |].
      intros posts Hp. destruct (0 <? length posts)%nat;
        repeat returns_step; [by apply Forall_app | done].
    - intros err. repeat returns_step. done. }
  intros all1 H1.
  eapply returns_mbind_with with (Q := Forall (fun r => url r <> [])).
  { destruct (length all1 <? 10)%nat; [| by apply returns_ret].
    apply returns_mbind. intros _. by apply googleStrategy_urls. }
  intros all2 H2.
  eapply returns_mbind_with with (Q := Forall (fun r => url r <> [])).
  { destruct (length all2 <? 10)%nat; [| by apply returns_ret].
    apply returns_mbind. intros _. apply returns_try_catch.
    - eapply returns_mbind_with; [apply searchRedditDirect_urls |].
      intros direct Hd. repeat returns_step. by apply Forall_app.
    - intros err. repeat returns_step. done. }
  intros all3 H3.
  repeat returns_step; by exists all3.
Qed.

(** C8.  The search results handed to the run state are what the URL filter
    at the end of [searchRedditPainPoints] leaves of the entries the search
    strategies collected, every one of which has a URL.  Of such entries
    the filter keeps, for each URL, exactly one entry, the first the input
    has for it, whatever the titles and snippets of the others; no URL
    occurs twice in the result; and merging again, the result alone or
    followed by the same input, gives the same collection.  The search
    itself always returns, and returns such a merge. *)
Theorem merged_results_one_entry_per_url (niche : jsstring)
    (allResults : list SearchResult) :
  Forall (fun r => url r <> []) allResults ->
  let merged := uniqueByUrl ∅ allResults in
  NoDup (map url merged)
  /\ (forall r, r ∈ allResults ->
        exists first,
          head (filter (fun x => url x = url r) allResults) = Some first
          /\ filter (fun x => url x = url r) merged = [first])
  /\ (forall x, x ∈ merged -> x ∈ allResults)
  /\ uniqueByUrl ∅ merged = merged
  /\ uniqueByUrl ∅ (merged ++ allResults) = merged
  /\ (forall w, exists results collected,
        res (searchRedditPainPoints E niche w) = Ok results
        /\ Forall (fun r => url r <> []) collected
        /\ results = uniqueByUrl ∅ collected).
Proof.
  intros Hurls. cbv zeta. split; [apply uniqueByUrl_NoDup |].
  split.
  { intros r Hr.
    rewrite uniqueByUrl_first;
      [| by eapply (proj1 (Forall_forall _ _) Hurls) | set_solver].
    destruct (filter (fun x => url x = url r) allResults) as [|first l] eqn:Hf.
    - exfalso. assert (r ∈ filter (fun x => url x = url r) allResults) as Hin
        by (by apply list_elem_of_filter).
      rewrite Hf in Hin. inversion Hin.
    - by exists first. }
  split; [intros x Hx; by apply uniqueByUrl_elem in Hx as (? & _) |].
  split; [apply uniqueByUrl_idempotent |].
  split.
  2: { intros w.
       destruct (ok_by _ _ w (searchRedditPainPoints_total E niche)
                   (searchRedditPainPoints_collected niche))
         as (results & Hres & collected & Hc & Hr).
       by exists results, collected. }
  apply uniqueByUrl_remerge. apply Forall_forall. intros r Hr. right.
  by apply list_elem_of_fmap_2.
Qed.

End Collected.

Lemma merged_results_one_entry_per_url_witness :
  Forall (fun r => url r <> [])
         [mkSearchResult (js "https://www.reddit.com/r/a/comments/1")
            (js "first title") (js "a") None;
          mkSearchResult (js "https://www.reddit.com/r/a/comments/1")
            (js "second title") (js "b") None]
  /\ NoDup (map url
             (BrightData.uniqueByUrl ∅
                [mkSearchResult (js "https://www.reddit.com/r/a/comments/1")
                   (js "first title") (js "a") None;
                 mkSearchResult (js "https://www.reddit.com/r/a/comments/1")
                   (js "second title") (js "b") None])).
Proof.
  assert (Forall (fun r => url r <> [])
            [mkSearchResult (js "https://www.reddit.com/r/a/comments/1")
               (js "first title") (js "a") None;
             mkSearchResult (js "https://www.reddit.com/r/a/comments/1")
               (js "second title") (js "b") None]) as Hurls
    by (repeat constructor; discriminate).
  split; [exact Hurls |].
  apply (merged_results_one_entry_per_url Scenarios.allSucceed
           (js "freelance designers") _ Hurls).
Defined.

(** * The bootstrap of a run, step by step *)

Lemma runGraph_try_session_fails E rid niche em w err ws os :
  Acontext.createSession E niche (set_tick S w)
    = mkOutcome (Throw err) ws os ->
  runGraph_try E rid niche em w
  = mkOutcome (Throw err) ws
      ([OEmit em (mkEvent (run_start niche) (Some rid)
                    (Some (Date_now E (tick w))))] ++ os).
Proof.
  intros Hs. unfold runGraph_try. cbv zeta. run_prim.
  erewrite mbind_throw by exact Hs. by rewrite prepend_mk.
Qed.

(** After the session and the learning space, the first report write
    decides: its exception ends the [try] block, otherwise the graph runs
    and the block ends with the status update and [done]. *)
Lemma runGraph_try_boot E rid niche em w session ws os space wc oc :
  Acontext.createSession E niche (set_tick S w)
    = mkOutcome (Ok session) ws os ->
  Acontext.createLearningSpace E niche session ws
    = mkOutcome (Ok space) wc oc ->
  let wd := world (Acontext.initTaskBlocks session wc) in
  let pre :=
    [OEmit em (mkEvent (run_start niche) (Some rid)
                 (Some (Date_now E (tick w))))]
    ++ os ++ oc
    ++ [OEmit em
          (mkEvent
             (session_created session space
                (Acontext.readArr wd (Acontext.getTaskBlocks wd session)))
             (Some rid) (Some (Date_now E (tick wd))))] in
  forall r w0 or,
    Acontext.writeReport E session (bootReport rid niche session space)
      (set_tick S wd) = mkOutcome r w0 or ->
    match r with
    | Throw err =>
        runGraph_try E rid niche em w = mkOutcome (Throw err) w0 (pre ++ or)
    | Ok _ =>
        exists final wg og,
          let record :=
            withStatus (getActiveRun wg rid)
              (if (0 <? length (errors final))%nat
               then complete_with_warnings else complete)
              (Some session) in
          graph_invoke E (graphInput rid niche session space
                            (mkEmitFn em rid)) w0
            = mkOutcome (Ok final) wg og
          /\ runGraph_try E rid niche em w
             = mkOutcome (Ok tt)
                 (set_tick S (set_tick S
                    (set_activeRuns (fun m => <[rid := record]> m) wg)))
                 (pre ++ or ++ og
                  ++ [OLog lsuccess TAG "Graph completed for run" (Some rid);
                      OSetRun rid record;
                      OEmit em
                        (mkEvent
                           (ev_done (Some session)
                              (Some (length (errors final)))
                              ((fun startedAt =>
                                  Date_now E (tick wg) - startedAt)%Z
                                 <$> run_startedAt record))
                           (Some rid) (Some (Date_now E (S (tick wg)))))])
    end.
Proof.
  intros Hs Hc. cbv zeta. intros r w0 or Hw.
  unfold runGraph_try. cbv zeta. run_prim.
  erewrite mbind_ok by exact Hs. cbv beta.
  erewrite mbind_ok by exact Hc. cbv beta.
  pose proof (f_equal world (initTaskBlocks_run session wc)) as Hwd.
  cbn [world] in Hwd.
  erewrite mbind_ok by apply initTaskBlocks_run. cbv beta.
  rewrite <- Hwd. run_prim. run_prim.
  destruct r as [stored|err].
  2:{ erewrite mbind_throw by exact Hw. rewrite !prepend_mk.
      f_equal. by rewrite ?app_nil_l, <- ?app_assoc. }
  erewrite mbind_ok by exact Hw. cbv beta.
  destruct (graph_invoke_total E
              (graphInput rid niche session space (mkEmitFn em rid)) w0)
    as [final Hfinal].
  destruct (graph_invoke E
              (graphInput rid niche session space (mkEmitFn em rid)) w0)
    as [rg wg og] eqn:Hg.
  cbn [res] in Hfinal. subst rg.
  exists final, wg, og. split; [reflexivity |].
  erewrite mbind_ok by exact Hg. cbv beta.
  run_prim. run_prim. run_prim. run_prim. run_prim.
  rewrite callEmit_run, !prepend_mk.
  f_equal; unfold getActiveRun;
    cbn [emit_emitter emit_runId activeRuns set_activeRuns set_tick tick];
    rewrite ?app_nil_l, <- ?app_assoc, ?lookup_insert_eq; reflexivity.
Qed.

(** What [runGraph] does once its [try] block has completed. *)
Lemma runTask_after_ok E t w wt ot :
  runGraph_try E (task_runId t) (task_niche t) (task_emitter t) w
    = mkOutcome (Ok tt) wt ot ->
  exists w' post,
    runTask E t w = mkOutcome (Ok tt) w' (ot ++ post)
    /\ events post = []
    /\ activeRuns w' = activeRuns wt
    /\ reportState w' = reportState wt.
Proof.
  intros Htry. unfold runTask, runGraph.
  destruct (closer_run E wt) as (w' & post & Hclose & Hpost & Hact & Hrep).
  exists w', post. split; [| by split].
  apply try_catch_ok.
  erewrite try_finally_ok; [reflexivity | | exact Hclose].
  by apply try_catch_ok.
Qed.

(** A run whose session cannot be created. *)
Lemma run_session_fatal E t w err :
  res (Acontext.createSession E (task_niche t) (set_tick S w)) = Throw err ->
  let o := runTask E t w in
  events (out o)
  = [run_start (task_niche t); ev_error err; ev_done None None None]
  /\ (run_status <$> getActiveRun (world o) (task_runId t)) = Some error.
Proof.
  intros Hres. cbv zeta.
  pose proof (proj1 (bootstrap_quiet E (task_niche t) [] emptyReport)
                (set_tick S w)) as [Es _].
  destruct (Acontext.createSession E (task_niche t) (set_tick S w))
    as [r ws os] eqn:Hs. cbn [res out] in Hres, Es. subst r.
  pose proof (runGraph_try_session_fails E (task_runId t) (task_niche t)
                (task_emitter t) w err ws os Hs) as Htry.
  destruct (runTask_after_throw E t w _ _ _ Htry)
    as (w' & post & Hrun & Hpost & Hact & _).
  rewrite Hrun. cbn [out world]. split.
  - unfold events in *. rewrite !evproj_app, Es, Hpost. reflexivity.
  - unfold getActiveRun. by rewrite Hact, lookup_insert_eq.
Qed.

(** A run whose session exists: what the first report write decides. *)
Lemma run_after_session E t w session ws os space wc oc r w0 or :
  let rid := task_runId t in
  let niche := task_niche t in
  let em := task_emitter t in
  Acontext.createSession E niche (set_tick S w)
    = mkOutcome (Ok session) ws os ->
  Acontext.createLearningSpace E niche session ws
    = mkOutcome (Ok space) wc oc ->
  let wd := world (Acontext.initTaskBlocks session wc) in
  let blocks := Acontext.readArr wd (Acontext.getTaskBlocks wd session) in
  Acontext.writeReport E session (bootReport rid niche session space)
    (set_tick S wd) = mkOutcome r w0 or ->
  let o := runTask E t w in
  (forall x, x ∈ oc -> x ∈ out o)
  /\ llm_client w0 = llm_client w
  /\ match r with
     | Throw err =>
         events (out o)
         = [run_start niche; session_created session space blocks;
            ev_error err; ev_done None None None]
         /\ (run_status <$> getActiveRun (world o) rid) = Some error
     | Ok _ =>
         exists final wg og before after,
           let record :=
             withStatus (getActiveRun wg rid)
               (if (0 <? length (errors final))%nat
                then complete_with_warnings else complete)
               (Some session) in
           graph_invoke E (graphInput rid niche session space
                             (mkEmitFn em rid)) w0
             = mkOutcome (Ok final) wg og
           /\ out o
              = before ++ og
                ++ [OLog lsuccess TAG "Graph completed for run" (Some rid);
                    OSetRun rid record;
                    OEmit em
                      (mkEvent
                         (ev_done (Some session)
                            (Some (length (errors final)))
                            ((fun startedAt =>
                                Date_now E (tick wg) - startedAt)%Z
                               <$> run_startedAt record))
                         (Some rid) (Some (Date_now E (S (tick wg)))))]
                ++ after
           /\ events before
              = [run_start niche; session_created session space blocks]
           /\ events after = []
           /\ getActiveRun (world o) rid = Some record
           /\ reportState (world o) = reportState wg
     end.
Proof.
  cbv zeta. intros Hs Hc Hw.
  pose proof (proj1 (bootstrap_quiet E (task_niche t) session emptyReport)
                (set_tick S w)) as [Es Ls].
  pose proof (proj1 (proj2 (bootstrap_quiet E (task_niche t) session
                              emptyReport)) ws) as [Ec Lc].
  pose proof (proj2 (proj2 (bootstrap_quiet E (task_niche t) session
                              (bootReport (task_runId t) (task_niche t)
                                 session space)))
                (set_tick S (world (Acontext.initTaskBlocks session wc))))
    as [Er Lr].
  rewrite Hs in Es, Ls. rewrite Hc in Ec, Lc. rewrite Hw in Er, Lr.
  cbn [world out] in Es, Ls, Ec, Lc, Er, Lr.
  assert (llm_client w0 = llm_client w) as Hllm.
  { rewrite Lr, initTaskBlocks_run.
    cbn [world llm_client set_tick set_taskState set_taskHeap].
    by rewrite Lc, Ls. }
  pose proof (runGraph_try_boot E (task_runId t) (task_niche t)
                (task_emitter t) w session ws os space wc oc Hs Hc r w0 or
                Hw) as Hboot.
  cbv zeta in Hboot. destruct r as [stored|err].
  - destruct Hboot as (final & wg & og & Hg & Htry).
    destruct (runTask_after_ok E t w _ _ Htry)
      as (w' & post & Hrun & Hpost & Hact & Hrep).
    rewrite Hrun. cbn [out world].
    split; [intros x Hx; rewrite !elem_of_app; tauto |].
    split; [exact Hllm |].
    exists final, wg, og,
      (([OEmit (task_emitter t)
           (mkEvent (run_start (task_niche t)) (Some (task_runId t))
              (Some (Date_now E (tick w))))]
        ++ os ++ oc
        ++ [OEmit (task_emitter t)
              (mkEvent
                 (session_created session space
                    (Acontext.readArr
                       (world (Acontext.initTaskBlocks session wc))
                       (Acontext.getTaskBlocks
                          (world (Acontext.initTaskBlocks session wc))
                          session)))
                 (Some (task_runId t))
                 (Some (Date_now E
                          (tick (world (Acontext.initTaskBlocks session
                                          wc))))))])
       ++ or), post.
    split; [exact Hg |].
    split; [by rewrite <- !app_assoc |].
    split.
    { unfold events in *. rewrite !evproj_app, Es, Ec, Er. reflexivity. }
    split; [exact Hpost |].
    split; [| exact Hrep].
    unfold getActiveRun. rewrite Hact.
    cbn [activeRuns set_activeRuns set_tick]. by rewrite lookup_insert_eq.
  - destruct (runTask_after_throw E t w _ _ _ Hboot)
      as (w' & post & Hrun & Hpost & Hact & _).
    rewrite Hrun. cbn [out world].
    split; [intros x Hx; rewrite !elem_of_app; tauto |].
    split; [exact Hllm |].
    split.
    + unfold events in *. rewrite !evproj_app, Es, Ec, Er, Hpost.
      reflexivity.
    + unfold getActiveRun. by rewrite Hact, lookup_insert_eq.
Qed.

(** * The Memory Store bootstrap *)

(** A failure of either call of the learning-space setup is caught, logged
    as a warning and turned into [null]. *)
Lemma createLearningSpace_fails_at E niche session w e :
  acontext_client w = true ->
  learningSpaces_create E (tick w) = Throw e
  \/ (exists space,
        learningSpaces_create E (tick w) = Ok space
        /\ learningSpaces_learn E (S (tick w)) space session = Throw e) ->
  exists w' o',
    Acontext.createLearningSpace E niche session w
    = mkOutcome (Ok None) w' o'
    /\ OLog warn Acontext.TAG "Learning space setup failed (non-critical)"
            (Some e) ∈ o'.
Proof.
  intros Hc Hdown. unfold Acontext.createLearningSpace.
  erewrite mbind_ok by (apply getClient_ready; exact Hc). cbv beta.
  destruct Hdown as [Hcreate | (space & Hcreate & Hlearn)].
  - erewrite try_catch_throw.
    2:{ erewrite mbind_throw; [reflexivity |].
        rewrite call_run, Hcreate. reflexivity. }
    run_prim. unfold ret. rewrite !prepend_mk.
    do 2 eexists. split; [reflexivity |]. set_solver.
  - erewrite try_catch_throw.
    2:{ erewrite mbind_ok by (rewrite call_run, Hcreate; reflexivity).
        cbv beta. run_prim.
        erewrite mbind_throw;
          [| rewrite call_run; cbn [tick set_tick]; rewrite Hlearn;
             reflexivity].
        rewrite !prepend_mk. reflexivity. }
    run_prim. unfold ret. rewrite !prepend_mk.
    do 2 eexists. split; [reflexivity |]. set_solver.
Qed.

Lemma graph_no_session_created E input :
  obeys (quietly is_session_created (fun _ => tt)) (graph_invoke E input).
Proof. obey_all. Qed.

(** C7 as stated fails: when the session cannot be created the run is over
    before its first phase, with an [error] event and status [error]. *)
Lemma session_setup_failure_is_fatal :
  evproj is_phase_start
    (out (Scenarios.oneRun Scenarios.allFail (js "freelance designers")))
  = []
  /\ evproj is_error
       (out (Scenarios.oneRun Scenarios.allFail (js "freelance designers")))
     = [Scenarios.down]
  /\ (run_status
        <$> getActiveRun
              (world (Scenarios.oneRun Scenarios.allFail
                        (js "freelance designers")))
              (Scenarios.uuid 0))
     = Some error.
Proof. vm_compute. auto. Qed.

(** C7, amended.  The Memory Store setup runs before the first phase, and
    of its steps only the learning-space setup may fail without ending the
    run.  When the session creation throws, the run is over: [run_start],
    [error], [done], status [error].  When the session exists and
    [learningSpaces.create] or [learningSpaces.learn] throws at the call
    this run makes, [createLearningSpace] returns [null] and the warning
    "Learning space setup failed (non-critical)" is logged,
    [session_created] carries a null space identifier, and the run goes on
    to the first report write: if that write throws, the run ends with
    [error] and [done] and status [error] before any phase; otherwise the
    four phases start, no [error] event is emitted and the run ends
    [complete] or [complete_with_warnings]. *)
Theorem learning_space_failure_is_not_fatal E t w :
  let rid := task_runId t in
  let niche := task_niche t in
  let o := runTask E t w in
  let status := run_status <$> getActiveRun (world o) rid in
  (forall err,
     res (Acontext.createSession E niche (set_tick S w)) = Throw err ->
     events (out o) = [run_start niche; ev_error err; ev_done None None None]
     /\ status = Some error)
  /\ (forall session ws os e,
        Acontext.createSession E niche (set_tick S w)
          = mkOutcome (Ok session) ws os ->
        learningSpaces_create E (tick ws) = Throw e
        \/ (exists space,
              learningSpaces_create E (tick ws) = Ok space
              /\ learningSpaces_learn E (S (tick ws)) space session
                 = Throw e) ->
        let wc := world (Acontext.createLearningSpace E niche session ws) in
        let wd := world (Acontext.initTaskBlocks session wc) in
        let blocks :=
          Acontext.readArr wd (Acontext.getTaskBlocks wd session) in
        res (Acontext.createLearningSpace E niche session ws) = Ok None
        /\ OLog warn Acontext.TAG
                "Learning space setup failed (non-critical)" (Some e)
             ∈ out o
        /\ evproj is_session_created (out o) = [None]
        /\ match res (Acontext.writeReport E session
                        (bootReport rid niche session None)
                        (set_tick S wd)) with
           | Throw err =>
               events (out o)
               = [run_start niche; session_created session None blocks;
                  ev_error err; ev_done None None None]
               /\ status = Some error
           | Ok _ =>
               evproj is_phase_start (out o)
               = [scout; brain; validate; brief]
               /\ evproj is_error (out o) = []
               /\ (status = Some complete
                   \/ status = Some complete_with_warnings)
           end).
Proof.
  cbv zeta. split; [intros err Herr; by apply run_session_fatal |].
  intros session ws os e Hs Hdown.
  destruct (createLearningSpace_fails_at E (task_niche t) session ws e
              (createSession_client _ _ _ _ _ _ Hs) Hdown)
    as (wc & oc & Hc & Hwarn).
  rewrite Hc. cbn [res world].
  destruct (Acontext.writeReport E session
              (bootReport (task_runId t) (task_niche t) session None)
              (set_tick S (world (Acontext.initTaskBlocks session wc))))
    as [r w0 or] eqn:Hw.
  destruct (run_after_session E t w session ws os None wc oc r w0 or
              Hs Hc Hw) as (Hin & _ & Hshape).
  cbn [res].
  split; [reflexivity |]. split; [by apply Hin |].
  destruct r as [stored|err].
  - destruct Hshape as (final & wg & og & before & after & Hg & Hout & Hev
                        & Hafter & Hrec & _).
    pose proof (graph_no_terminal E
                  (graphInput (task_runId t) (task_niche t) session None
                     (mkEmitFn (task_emitter t) (task_runId t))) w0)
      as [Hterm _].
    pose proof (graph_no_session_created E
                  (graphInput (task_runId t) (task_niche t) session None
                     (mkEmitFn (task_emitter t) (task_runId t))) w0)
      as [Hsc _].
    pose proof (graph_phases E (task_runId t) (task_niche t) session None
                  (mkEmitFn (task_emitter t) (task_runId t)) w0) as [Hph _].
    rewrite Hg in Hterm, Hsc, Hph. cbn [out] in Hterm, Hsc, Hph.
    rewrite Hout, Hrec.
    split; [| split; [| split]].
    + rewrite !evproj_app, (evproj_none is_session_created after Hafter).
      rewrite (evproj_events is_session_created before), Hev, Hsc.
      reflexivity.
    + rewrite !evproj_app, (evproj_none is_phase_start after Hafter).
      rewrite (evproj_events is_phase_start before), Hev, Hph. reflexivity.
    + rewrite !evproj_app, (evproj_none is_error after Hafter).
      rewrite (evproj_events is_error before), Hev.
      rewrite (evproj_refine is_terminal is_error og);
        [reflexivity | by intros [] | exact Hterm].
    + cbn [fmap option_fmap option_map run_status withStatus].
      destruct (0 <? length (errors final))%nat; auto.
  - destruct Hshape as [Hev Hst]. split; [| by split].
    rewrite (evproj_events is_session_created), Hev. reflexivity.
Qed.

Lemma learning_space_failure_is_not_fatal_witness :
  Acontext.createSession Scenarios.spaceDown (js "freelance designers")
    (set_tick S initialWorld)
  = mkOutcome (Ok (js "session-1"))
      (world (Acontext.createSession Scenarios.spaceDown
                (js "freelance designers") (set_tick S initialWorld)))
      (out (Acontext.createSession Scenarios.spaceDown
              (js "freelance designers") (set_tick S initialWorld)))
  /\ learningSpaces_create Scenarios.spaceDown
       (tick (world (Acontext.createSession Scenarios.spaceDown
                       (js "freelance designers")
                       (set_tick S initialWorld))))
     = Throw Scenarios.down
  /\ evproj is_session_created
       (out (runTask Scenarios.spaceDown
               (mkTask (Scenarios.uuid 0) (js "freelance designers") 0)
               initialWorld))
     = [None].
Proof.
  assert (Acontext.createSession Scenarios.spaceDown
            (js "freelance designers") (set_tick S initialWorld)
          = mkOutcome (Ok (js "session-1"))
              (world (Acontext.createSession Scenarios.spaceDown
                        (js "freelance designers")
                        (set_tick S initialWorld)))
              (out (Acontext.createSession Scenarios.spaceDown
                      (js "freelance designers")
                      (set_tick S initialWorld)))) as Hs by reflexivity.
  split; [exact Hs |]. split; [reflexivity |].
  apply (proj2 (learning_space_failure_is_not_fatal Scenarios.spaceDown
                  (mkTask (Scenarios.uuid 0) (js "freelance designers") 0)
                  initialWorld)
           (js "session-1") _ _ Scenarios.down Hs (or_introl eq_refl)).
Defined.

(** * A run without the OpenAI key, phase by phase *)








(** * startRun and the identifiers of runs *)



